(** * Global Solar Energy Simulation Framework: techno-economic core

    A shallow embedding of the Python modules

      - [modules/technological_evolution/solar_tech_model.py]
      - [modules/economic_framework/cost_model.py]
      - [modules/grid_integration/grid_model.py]
      - [modules/economic_framework/market_model.py]
      - [modules/decision_making/investment_decision_model.py]
      - [modules/supply_chain_dynamics/supply_chain_model.py]
      - [modules/economic_framework/carbon_pricing_model.py]

    Conventions of the embedding.

    - Python numbers are rationals [Q]; [float('inf')] is the extra
      value [PInf] of [pyfloat].  Comparisons of the source ([==], [<=],
      [>]) are the decidable comparisons of [Q].
    - The rounding of IEEE doubles is written out, with [fl64], where an
      exception or a comparison of the source depends on it: in the
      capital recovery factor of the two LCOE functions ([1 + r], the
      power, the denominator) and in the penetration check of the grid
      model (the sum and the product that are compared).  [b ** n] raises
      [OverflowError] beyond the range of the doubles.  Elsewhere the
      arithmetic is exact, and a property that rounding could break is
      stated with the slack or within the range that the doubles need.
      NaN, and infinities that arise silently, are outside the model.
    - Python [int] years and lifetimes are [Z].
    - Dictionaries keyed by strings are [gmap string _]; dictionaries that
      are iterated ([.items()]) are association lists in insertion order.
    - A call either returns or raises: [outcome].
    - [logging] calls of level WARNING and ERROR are collected in a list
      of [log_record]; INFO and DEBUG calls have no effect on any value
      and are left out.  Numbers formatted into a message are elided. *)

From Stdlib Require Import QArith Qround Qminmax Qpower Qabs Lqa Lia ZArith.
From Stdlib Require Import String Ascii List.
From stdpp Require Import base option gmap strings list fin_maps.

Local Open Scope Z_scope.
Local Open Scope Q_scope.
Local Open Scope string_scope.

(** ** Python values shared by the modules *)

Inductive pyfloat : Type :=
| Fin (q : Q)
| PInf.

Inductive py_exception : Type :=
| ZeroDivisionError
| ValueError
| OverflowError
| KeyError (key : string).

Inductive outcome (A : Type) : Type :=
| Returned (a : A)
| Raised (e : py_exception).
Arguments Returned {A} a.
Arguments Raised {A} e.

#[global] Instance outcome_ret : MRet outcome := fun A a => Returned a.
#[global] Instance outcome_bind : MBind outcome := fun A B k m =>
  match m with
  | Returned a => k a
  | Raised e => Raised e
  end.

Inductive log_level : Type := WARNING | ERROR.

Record log_record : Type := LogRecord { level : log_level; message : string }.

Definition warning (msg : string) : log_record := LogRecord WARNING msg.
Definition error (msg : string) : log_record := LogRecord ERROR msg.

Definition is_warning (r : log_record) : bool :=
  match level r with WARNING => true | ERROR => false end.

(** Python comparisons on numbers. *)
Definition Qeqb (a b : Q) : bool := Qeq_bool a b.
Definition Qleb (a b : Q) : bool := Qle_bool a b.
Definition Qltb (a b : Q) : bool := negb (Qle_bool b a).

(** [a / b] on floats: raises [ZeroDivisionError] when [b == 0]. *)
Definition py_div (a b : Q) : outcome Q :=
  if Qeqb b 0 then Raised ZeroDivisionError else Returned (a / b).

(** [round(x)] to the nearest integer, ties to the even neighbour. *)
Definition round_half_even (x : Q) : Z :=
  let f := Qfloor x in
  match Qcompare (x - inject_Z f)%Q (1 # 2)%Q with
  | Lt => f
  | Gt => (f + 1)%Z
  | Eq => if Z.even f then f else (f + 1)%Z
  end.

(** [round(x, ndigits)]. *)
Definition py_round (x : Q) (ndigits : nat) : Q :=
  let scale := inject_Z (10 ^ Z.of_nat ndigits) in
  inject_Z (round_half_even (x * scale)) / scale.

(** *** Doubles *)

(** The binary exponent of a positive [x]: [2 ^ ilog2 x <= x < 2 ^ (ilog2 x + 1)]. *)
Definition ilog2 (x : Q) : Z :=
  let k := (Z.log2 (Qnum x) - Z.log2 (Zpos (Qden x)))%Z in
  if Qle_bool (2 ^ k) x then k else (k - 1)%Z.

(** The double nearest to [x], ties to the even neighbour: [x] rounded to
    53 significant bits.  The exponent is not bounded; what the source
    does beyond the range of the doubles is written where it happens. *)
Definition fl64 (x : Q) : Q :=
  let ulp := 2 ^ (ilog2 (Qabs x) - 52) in
  inject_Z (round_half_even (x / ulp)) * ulp.

(** [a + b], [a - b] and [a * b] on floats. *)
Definition fadd (a b : Q) : Q := fl64 (a + b).
Definition fsub (a b : Q) : Q := fl64 (a - b).
Definition fmul (a b : Q) : Q := fl64 (a * b).

(** Whether [x] is rounded beyond the largest double. *)
Definition overflows (x : Q) : bool := Qleb (2 ^ 1024 - 2 ^ 970) (Qabs x).

(** Whether [b ** n] is beyond the doubles, for a float [b] and an int
    [n]: the exponent is converted to a double first. *)
Definition pow_overflows (b : Q) (n : Z) : bool :=
  overflows (inject_Z n) || overflows (b ^ n).

(** [b ** n] for a float [b] and an int [n]: [OverflowError] for an
    exponent that is no double, [ZeroDivisionError] for [0.0 ** n] with
    [n < 0], [OverflowError] when the result is beyond the doubles. *)
Definition py_pow_int (b : Q) (n : Z) : outcome Q :=
  if overflows (inject_Z n) then Raised OverflowError
  else if Qeqb b 0 && (n <? 0)%Z then Raised ZeroDivisionError
  else if overflows (b ^ n) then Raised OverflowError
  else Returned (fl64 (b ^ n)).

(** ** solar_tech_model.py *)

Module SolarTech.

Record SolarTechnology : Type := {
  name : string;
  base_efficiency : Q;
  projected_efficiency_2035 : Q;
  start_year : Z;
  commercial_scale_year : Z;
  degradation_rate_annual : Q;
  base_capex_usd_per_kw : Q;
  annual_capex_reduction_rate : Q;
  annual_efficiency_improvement : Q
}.

(** [SolarTechnology.__init__] *)
Definition init (name : string) (base_efficiency projected_efficiency_2035 : Q)
    (start_year commercial_scale_year : Z)
    (degradation_rate_annual base_capex_usd_per_kw annual_capex_reduction_rate : Q)
  : SolarTechnology :=
  {| name := name;
     base_efficiency := base_efficiency;
     projected_efficiency_2035 := projected_efficiency_2035;
     start_year := start_year;
     commercial_scale_year := commercial_scale_year;
     degradation_rate_annual := degradation_rate_annual;
     base_capex_usd_per_kw := base_capex_usd_per_kw;
     annual_capex_reduction_rate := annual_capex_reduction_rate;
     annual_efficiency_improvement :=
       if (2035 <? start_year)%Z then 0
       else if Qleb projected_efficiency_2035 base_efficiency
               || (start_year =? 2035)%Z then 0
       else (projected_efficiency_2035 - base_efficiency)
            / inject_Z (2035 - start_year) |}.

(** The dictionary returned by [get_params_for_year]. *)
Record TechParams : Type := {
  tp_name : string;
  tp_year : Z;
  efficiency : Q;
  tp_degradation_rate_annual : Q;
  capex_usd_per_kw : Q;
  is_commercially_available : bool;
  tp_commercial_scale_year : Z
}.

(** Efficiency before the final [round(., 4)]. *)
Definition current_efficiency (self : SolarTechnology) (year : Z) : Q :=
  if (year <? start_year self)%Z then base_efficiency self
  else if (2035 <=? year)%Z then projected_efficiency_2035 self
  else
    let years_since_start := (year - start_year self)%Z in
    Qmin (base_efficiency self
          + annual_efficiency_improvement self * inject_Z years_since_start)
         (projected_efficiency_2035 self).

(** Capital cost before the final [round(., 2)]. *)
Definition current_capex (self : SolarTechnology) (year : Z) : Q :=
  if (year <? start_year self)%Z then base_capex_usd_per_kw self
  else
    let years_for_capex_reduction := (year - start_year self)%Z in
    Qmax (base_capex_usd_per_kw self
          * (1 - annual_capex_reduction_rate self) ^ years_for_capex_reduction)
         0.

Definition get_params_for_year (self : SolarTechnology) (year : Z) : TechParams :=
  {| tp_name := name self;
     tp_year := year;
     efficiency := py_round (current_efficiency self year) 4;
     tp_degradation_rate_annual := degradation_rate_annual self;
     capex_usd_per_kw := py_round (current_capex self year) 2;
     is_commercially_available := (commercial_scale_year self <=? year)%Z;
     tp_commercial_scale_year := commercial_scale_year self |}.

(** [SolarTechModel]: a registry of technologies by name. *)
Record SolarTechModel : Type := { technologies : gmap string SolarTechnology }.

Definition empty_model : SolarTechModel := {| technologies := ∅ |}.

Definition add_technology (self : SolarTechModel) (tech : SolarTechnology)
  : SolarTechModel :=
  {| technologies := <[name tech := tech]> (technologies self) |}.

(** The result of [get_technology_details]: the error dictionary or the
    parameters. *)
Inductive TechDetails : Type :=
| DetailsError (msg : string)
| Details (p : TechParams).

Definition get_technology_details (self : SolarTechModel) (tech_name : string)
    (year : Z) : TechDetails :=
  match technologies self !! tech_name with
  | None => DetailsError ("Technology '" ++ tech_name ++ "' not found.")
  | Some tech => Details (get_params_for_year tech year)
  end.

End SolarTech.

(** ** cost_model.py *)

(** The two functions of Python's float library that [apply_learning_curve]
    uses on non-integer arguments: [math.log] on a positive argument and
    [b ** e] for a real exponent.  Their domain errors are written out in
    [py_log] and [py_pow] below. *)
Class MathLib : Type := {
  math_log : Q -> Q;
  float_pow : Q -> Q -> Q
}.

(** [math.log(x)]: [ValueError] unless [x > 0]. *)
Definition py_log `{MathLib} (x : Q) : outcome Q :=
  if Qleb x 0 then Raised ValueError else Returned (math_log x).

(** [b ** e] on floats: [ZeroDivisionError] for [0.0 ** e] with [e < 0]. *)
Definition py_pow `{MathLib} (b e : Q) : outcome Q :=
  if Qeqb b 0 && Qltb e 0 then Raised ZeroDivisionError
  else Returned (float_pow b e).

Module Cost.

Definition CAPEX_COMPONENT_KEYS : list string :=
  ["module_usd_per_kw"; "bos_usd_per_kw"; "inverter_usd_per_kw";
   "installation_usd_per_kw"].

Definition DEFAULT_REQUIRED_MATERIAL_FRACTION_OF_GLOBAL : Q := 5 # 10.
Definition MATERIAL_SHORTFALL_LOW_IMPACT_PCT : Q := 2 # 100.
Definition MATERIAL_SHORTFALL_MEDIUM_IMPACT_PCT : Q := 7 # 100.
Definition MATERIAL_SHORTFALL_HIGH_IMPACT_PCT : Q := 15 # 100.
Definition MATERIAL_TIGHT_SURPLUS_IMPACT_PCT : Q := 1 # 100.
Definition CONCENTRATION_MODERATE_IMPACT_PCT : Q := 2 # 100.
Definition CONCENTRATION_HIGH_IMPACT_PCT : Q := 7 # 100.

(** *** The supply-chain collaborator

    [CostModel] only reads [supply_data] and calls
    [get_material_availability] and [get_concentration_risk] of the object
    it was given (the unit tests pass a mock), so the collaborator is the
    interface of these three. *)

(** One entry of [supply_data]; [other_entries] says whether the entry has
    keys besides the two capacities (an entry is falsy only when empty). *)
Record MaterialData : Type := {
  global_capacity_tons_per_year : option Q;
  global_capacity_gw_per_year : option Q;
  other_entries : bool
}.

Definition material_data_truthy (d : MaterialData) : bool :=
  bool_decide (is_Some (global_capacity_tons_per_year d))
  || bool_decide (is_Some (global_capacity_gw_per_year d))
  || other_entries d.

Record Availability : Type := {
  available : bool;
  shortfall : option Q;
  surplus : option Q
}.

Record ConcentrationRisk : Type := {
  assessment : option string;
  risk_error : option string;
  hhi : option Q
}.

Record SupplyChainModel : Type := {
  supply_data : gmap string MaterialData;
  get_material_availability : string -> Q -> Availability;
  get_concentration_risk : string -> string -> ConcentrationRisk
}.

(** *** The cost model *)

Record CostModel : Type := {
  technology_name : string;
  current_costs : gmap string Q;
  learning_rate : Q;
  current_production_volume : Q;
  initial_production_volume : Q;
  initial_costs_snapshot : gmap string Q;
  supply_chain_model : option SupplyChainModel;
  solar_tech_model : option SolarTech.SolarTechModel
}.

Definition set_current_costs (self : CostModel) (costs : gmap string Q)
  : CostModel :=
  {| technology_name := technology_name self;
     current_costs := costs;
     learning_rate := learning_rate self;
     current_production_volume := current_production_volume self;
     initial_production_volume := initial_production_volume self;
     initial_costs_snapshot := initial_costs_snapshot self;
     supply_chain_model := supply_chain_model self;
     solar_tech_model := solar_tech_model self |}.

Definition set_current_production_volume (self : CostModel) (v : Q)
  : CostModel :=
  {| technology_name := technology_name self;
     current_costs := current_costs self;
     learning_rate := learning_rate self;
     current_production_volume := v;
     initial_production_volume := initial_production_volume self;
     initial_costs_snapshot := initial_costs_snapshot self;
     supply_chain_model := supply_chain_model self;
     solar_tech_model := solar_tech_model self |}.

(** [dict.get(key, 0)] *)
Definition get0 (d : gmap string Q) (key : string) : Q := default 0 (d !! key).

(** The value [_recalculate_total_capex] accumulates: [total_capex = 0],
    then [total_capex += current_costs.get(key, 0)] for each key. *)
Definition total_capex (costs : gmap string Q) : Q :=
  fold_left (fun total key => total + get0 costs key) CAPEX_COMPONENT_KEYS 0.

Definition _recalculate_total_capex (self : CostModel) : CostModel :=
  set_current_costs self
    (<["capex_per_kw" := total_capex (current_costs self)]> (current_costs self)).

(** [CostModel.__init__] *)
Definition init (technology_name : string) (initial_costs : gmap string Q)
    (learning_rate initial_production_volume : Q)
    (supply_chain_model : option SupplyChainModel)
    (solar_tech_model : option SolarTech.SolarTechModel) : CostModel :=
  let self :=
    _recalculate_total_capex
      {| technology_name := technology_name;
         current_costs := initial_costs;
         learning_rate := learning_rate;
         current_production_volume := initial_production_volume;
         initial_production_volume := initial_production_volume;
         initial_costs_snapshot := initial_costs;
         supply_chain_model := supply_chain_model;
         solar_tech_model := solar_tech_model |} in
  {| technology_name := Cost.technology_name self;
     current_costs := current_costs self;
     learning_rate := Cost.learning_rate self;
     current_production_volume := current_production_volume self;
     initial_production_volume := Cost.initial_production_volume self;
     initial_costs_snapshot :=
       <["capex_per_kw" := get0 (current_costs self) "capex_per_kw"]>
         (initial_costs_snapshot self);
     supply_chain_model := Cost.supply_chain_model self;
     solar_tech_model := Cost.solar_tech_model self |}.

Definition update_cost_component (self : CostModel) (component_name : string)
    (new_value : Q) : CostModel * list log_record :=
  if bool_decide (is_Some (current_costs self !! component_name)) then
    let self1 :=
      set_current_costs self (<[component_name := new_value]> (current_costs self)) in
    if bool_decide (component_name ∈ CAPEX_COMPONENT_KEYS)
    then (_recalculate_total_capex self1, [])
    else (self1, [])
  else
    (self, [warning ("Cost component '" ++ component_name ++ "' not found for "
                     ++ technology_name self ++ ". No update performed.")]).

Section LearningCurve.
Context `{MathLib}.

(** One iteration of the loop over [CAPEX_COMPONENT_KEYS]. *)
Definition learn_item (self : CostModel) (cumulative_production_volume exponent : Q)
    (acc : gmap string Q * list log_record) (item_key : string)
  : outcome (gmap string Q * list log_record) :=
  let '(costs, log) := acc in
  match initial_costs_snapshot self !! item_key with
  | Some initial_cost_for_item =>
      if bool_decide (is_Some (costs !! item_key)) then
        ratio ← py_div cumulative_production_volume (initial_production_volume self);
        factor ← py_pow ratio exponent;
        let new_cost := initial_cost_for_item * factor in
        mret (<[item_key := new_cost]> costs, log)
      else mret (costs, log)
  | None =>
      mret (costs,
            app log [warning ("  LC Warning: Initial cost for '" ++ item_key
                              ++ "' not in snapshot. Cannot apply learning.")])
  end.

Fixpoint learn_items (self : CostModel) (cumulative_production_volume exponent : Q)
    (keys : list string) (acc : gmap string Q * list log_record)
  : outcome (gmap string Q * list log_record) :=
  match keys with
  | [] => mret acc
  | item_key :: rest =>
      acc' ← learn_item self cumulative_production_volume exponent acc item_key;
      learn_items self cumulative_production_volume exponent rest acc'
  end.

(** The returned pair is the updated model and the records logged; the
    Python return value is [current_costs] of the updated model. *)
Definition apply_learning_curve (self : CostModel) (cumulative_production_volume : Q)
  : outcome (CostModel * list log_record) :=
  if Qleb cumulative_production_volume (current_production_volume self) then
    mret (self,
          [warning "New cumulative production ({cumulative_production_volume}) is not greater than current ({self.current_production_volume}). No learning applied."])
  else
    log_num ← py_log (1 - learning_rate self);
    log_two ← py_log 2;
    exponent ← py_div log_num log_two;
    '(costs, log) ← learn_items self cumulative_production_volume exponent
                       CAPEX_COMPONENT_KEYS (current_costs self, []);
    let self1 := _recalculate_total_capex (set_current_costs self costs) in
    mret (set_current_production_volume self1 cumulative_production_volume, log).

End LearningCurve.

(** [(1 + discount_rate) ** economic_lifetime_years], the power in the
    capital recovery factor of the two LCOE functions, in doubles. *)
Definition growth_factor (discount_rate : Q) (economic_lifetime_years : Z)
  : outcome Q :=
  py_pow_int (fadd 1 discount_rate) economic_lifetime_years.

(** The statements of [calculate_lcoe] that follow the computation of the
    capital recovery factor [crf]. *)
Definition lcoe_from_crf (capex opex capacity_factor fuel_cost_per_mwh crf : Q)
  : outcome (pyfloat * list log_record) :=
  let annualized_capex := capex * crf in
  let annual_generation_kwh_per_kw := 8760 * capacity_factor in
  let annual_generation_mwh_per_kw := annual_generation_kwh_per_kw / 1000 in
  if Qeqb annual_generation_mwh_per_kw 0 then
    mret (PInf, [warning "Warning: Annual generation is zero. Cannot calculate LCOE."])
  else
    lcoe ← py_div (annualized_capex + opex
                   + fuel_cost_per_mwh * annual_generation_mwh_per_kw)
                  annual_generation_mwh_per_kw;
    mret (Fin lcoe, []).

(** [calculate_lcoe]: the flat LCOE, a bare float.  [annual_opex_per_kw] is
    [None] when the caller leaves the default. *)
Definition calculate_lcoe (self : CostModel) (capacity_factor discount_rate : Q)
    (economic_lifetime_years : Z) (annual_opex_per_kw : option Q)
    (fuel_cost_per_mwh : Q) : outcome (pyfloat * list log_record) :=
  let capex := get0 (current_costs self) "capex_per_kw" in
  let opex :=
    match annual_opex_per_kw with
    | None => get0 (current_costs self) "opex_per_kw_year"
    | Some o => o
    end in
  if Qeqb capex 0 then
    mret (PInf, [warning "Warning: CAPEX is zero. LCOE calculation might be meaningless."])
  else if Qltb 0 discount_rate then
    growth ← growth_factor discount_rate economic_lifetime_years;
    crf ← py_div (discount_rate * growth) (fsub growth 1);
    lcoe_from_crf capex opex capacity_factor fuel_cost_per_mwh crf
  else if (0 <? economic_lifetime_years)%Z then
    crf ← py_div 1 (inject_Z economic_lifetime_years);
    lcoe_from_crf capex opex capacity_factor fuel_cost_per_mwh crf
  else
    mret (PInf, [warning "Warning: Discount rate is zero and lifetime is zero. Cannot calculate CRF."]).

(** The dictionary returned by [calculate_lcoe_for_evolving_solar_tech].
    A key that a return statement does not set is [None]; the keys that
    only repeat an argument are left out. *)
Record LcoeResult : Type := {
  lcoe_usd_per_mwh : pyfloat;
  lcoe_error : option string;
  lcoe_capex_usd_per_kw : option Q;
  lcoe_opex_per_kw_year : option Q;
  lcoe_efficiency : option Q;
  lcoe_annual_generation_mwh_per_kw : option Q;
  lcoe_crf : option Q;
  lcoe_annualized_capex_per_kw : option Q;
  lcoe_is_commercially_available : option bool
}.

(** The error dictionaries: [lcoe_usd_per_mwh] is [float('inf')]; the
    message is logged at level [lvl] behind [prefix]. *)
Definition error_result (log0 : list log_record) (lvl : log_level)
    (prefix error_msg : string) (capex opex eff gen : option Q)
  : LcoeResult * list log_record :=
  ({| lcoe_usd_per_mwh := PInf;
      lcoe_error := Some error_msg;
      lcoe_capex_usd_per_kw := capex;
      lcoe_opex_per_kw_year := opex;
      lcoe_efficiency := eff;
      lcoe_annual_generation_mwh_per_kw := gen;
      lcoe_crf := None;
      lcoe_annualized_capex_per_kw := None;
      lcoe_is_commercially_available := None |},
   app log0 [LogRecord lvl (prefix ++ error_msg)]).

(** The statements of [calculate_lcoe_for_evolving_solar_tech] that follow
    the computation of [crf]; [log0] holds what was logged before. *)
Definition evolving_lcoe_from_crf (technology_name : string)
    (capex_per_kw opex_per_kw_year efficiency : Q)
    (is_commercially_available : bool) (log0 : list log_record)
    (capacity_factor crf : Q) : outcome (LcoeResult * list log_record) :=
  let annualized_capex := capex_per_kw * crf in
  let annual_generation_kwh_per_kw := 8760 * capacity_factor in
  let annual_generation_mwh_per_kw := annual_generation_kwh_per_kw / 1000 in
  let result (lcoe_usd_per_mwh : Q) :=
    ({| lcoe_usd_per_mwh := Fin (py_round lcoe_usd_per_mwh 2);
        lcoe_error := None;
        lcoe_capex_usd_per_kw := Some (py_round capex_per_kw 2);
        lcoe_opex_per_kw_year := Some (py_round opex_per_kw_year 2);
        lcoe_efficiency := Some (py_round efficiency 4);
        lcoe_annual_generation_mwh_per_kw :=
          Some (py_round annual_generation_mwh_per_kw 2);
        lcoe_crf := Some (py_round crf 4);
        lcoe_annualized_capex_per_kw := Some (py_round annualized_capex 2);
        lcoe_is_commercially_available := Some is_commercially_available |},
     log0) in
  if Qeqb annual_generation_mwh_per_kw 0 then
    if Qltb 0 (annualized_capex + opex_per_kw_year) then
      mret (error_result log0 WARNING "Warning: "
              ("Annual generation is zero for " ++ technology_name
               ++ " in {year}. LCOE is infinite.")
              (Some capex_per_kw) (Some opex_per_kw_year) (Some efficiency) (Some 0))
    else mret (result 0)
  else
    lcoe ← py_div (annualized_capex + opex_per_kw_year) annual_generation_mwh_per_kw;
    mret (result lcoe).

(** [calculate_lcoe_for_evolving_solar_tech].  The [try] block catches
    the [OverflowError] of the power; no other exception can leave it. *)
Definition calculate_lcoe_for_evolving_solar_tech (self : CostModel)
    (solar_tech_model : SolarTech.SolarTechModel) (technology_name : string)
    (year : Z) (capacity_factor discount_rate : Q) (economic_lifetime_years : Z)
  : outcome (LcoeResult * list log_record) :=
  match SolarTech.get_technology_details solar_tech_model technology_name year with
  | SolarTech.DetailsError error_msg =>
      mret (error_result [] ERROR
              ("Error fetching technology details for " ++ technology_name
               ++ " in {year}: ")
              error_msg None None None None)
  | SolarTech.Details tech_params =>
      let capex_per_kw := SolarTech.capex_usd_per_kw tech_params in
      let efficiency := SolarTech.efficiency tech_params in
      let is_commercially_available :=
        SolarTech.is_commercially_available tech_params in
      let log0 :=
        if is_commercially_available then []
        else [warning (technology_name ++ " (commercial in {commercial_scale_year}) is not commercially available in {year}. LCOE is speculative.")] in
      let opex_per_kw_year := get0 (current_costs self) "opex_per_kw_year" in
      let failed (error_msg : string) :=
        error_result log0 ERROR "Error: " error_msg (Some capex_per_kw)
          (Some opex_per_kw_year) (Some efficiency) None in
      let rest (crf : Q) :=
        evolving_lcoe_from_crf technology_name capex_per_kw opex_per_kw_year
          efficiency is_commercially_available log0 capacity_factor crf in
      if (economic_lifetime_years <=? 0)%Z then
        if Qltb 0 capex_per_kw then
          mret (failed ("Lifetime is {economic_lifetime_years} years. LCOE is infinite for "
                        ++ technology_name ++ " in {year} if CAPEX > 0."))
        else rest 0
      else if Qeqb discount_rate 0 then
        crf ← py_div 1 (inject_Z economic_lifetime_years);
        rest crf
      else
        match growth_factor discount_rate economic_lifetime_years with
        | Raised OverflowError =>
            mret (failed ("OverflowError during CRF calculation for " ++ technology_name
                          ++ " in {year}. DR={discount_rate}, Life={economic_lifetime_years}. Values might be too large."))
        | Raised e => Raised e
        | Returned growth =>
            let numerator := discount_rate * growth in
            let denominator := fsub growth 1 in
            if Qeqb denominator 0 then
              if Qltb 0 capex_per_kw then
                mret (failed ("CRF denominator is zero for " ++ technology_name
                              ++ " in {year}. DR={discount_rate}, Life={economic_lifetime_years}."))
              else rest 0
            else
              crf ← py_div numerator denominator;
              rest crf
        end
  end.

Definition update_opex_cost (self : CostModel) (new_opex_per_kw_year : Q)
  : CostModel * list log_record :=
  if bool_decide (is_Some (current_costs self !! "opex_per_kw_year")) then
    (set_current_costs self
       (<["opex_per_kw_year" := new_opex_per_kw_year]> (current_costs self)), [])
  else
    (self, [warning ("Warning: OPEX not found for " ++ technology_name self
                     ++ ". No update performed.")]).

(** Step 1 of [adjust_costs_based_on_supply_chain]: the surcharge for the
    availability of the material.  Both divisions are guarded by the
    source ([required_quantity > 0], [material_global_capacity > 0]). *)
Definition material_adjustment (scm : SupplyChainModel) (material_item_name : string)
  : Q * list log_record :=
  match supply_data scm !! material_item_name with
  | Some material_data =>
      if material_data_truthy material_data then
        let material_global_capacity :=
          match global_capacity_tons_per_year material_data with
          | Some c => c
          | None => default 0 (global_capacity_gw_per_year material_data)
          end in
        if Qltb 0 material_global_capacity then
          let required_quantity :=
            material_global_capacity * DEFAULT_REQUIRED_MATERIAL_FRACTION_OF_GLOBAL in
          let availability :=
            get_material_availability scm material_item_name required_quantity in
          if negb (available availability) then
            let shortfall_percentage :=
              if Qltb 0 required_quantity
              then default 0 (shortfall availability) / required_quantity
              else 1 in
            if Qltb (5 # 10) shortfall_percentage
            then (MATERIAL_SHORTFALL_HIGH_IMPACT_PCT, [])
            else if Qltb (2 # 10) shortfall_percentage
            then (MATERIAL_SHORTFALL_MEDIUM_IMPACT_PCT, [])
            else (MATERIAL_SHORTFALL_LOW_IMPACT_PCT, [])
          else if Qltb (default 0 (surplus availability) / material_global_capacity)
                       (10 # 100)
          then (MATERIAL_TIGHT_SURPLUS_IMPACT_PCT, [])
          else (0, [])
        else
          (0, [warning ("Warning: Global capacity for material '" ++ material_item_name
                        ++ "' is zero or not found. Cannot assess material availability risk.")])
      else
        (0, [warning ("Warning: Material '" ++ material_item_name
                      ++ "' not found in SupplyChainModel. Cannot assess material availability risk.")])
  | None =>
      (0, [warning ("Warning: Material '" ++ material_item_name
                    ++ "' not found in SupplyChainModel. Cannot assess material availability risk.")])
  end.

(** Step 2: the surcharge for the market concentration of the module.  A
    dictionary that has the key ['assessment'] is not empty, so the test
    [concentration_risk_modules and 'assessment' in ...] is the test for
    the key. *)
Definition concentration_adjustment (scm : SupplyChainModel) (module_item_name : string)
  : Q * list log_record :=
  let concentration_risk_modules :=
    get_concentration_risk scm module_item_name "regional_capacity_gw_per_year" in
  match assessment concentration_risk_modules with
  | Some a =>
      if String.eqb a "Highly concentrated" then (CONCENTRATION_HIGH_IMPACT_PCT, [])
      else if String.eqb a "Moderately concentrated"
      then (CONCENTRATION_MODERATE_IMPACT_PCT, [])
      else (0, [])
  | None =>
      (0, [warning ("Warning: Could not assess concentration risk for '"
                    ++ module_item_name ++ "'. Details: {error}")])
  end.

Definition adjust_costs_based_on_supply_chain (self : CostModel)
    (material_item_name module_item_name : string) : CostModel * list log_record :=
  match supply_chain_model self with
  | None => (self, [])
  | Some scm =>
      match current_costs self !! "module_usd_per_kw" with
      | None =>
          (self, [warning ("Warning: 'module_usd_per_kw' not found in current costs for "
                           ++ technology_name self
                           ++ ". Cannot apply supply chain adjustments.")])
      | Some original_module_cost =>
          let '(material_adjustment_pct, log1) :=
            material_adjustment scm material_item_name in
          let '(concentration_adjustment_pct, log2) :=
            concentration_adjustment scm module_item_name in
          let total_adjustment_factor :=
            material_adjustment_pct + concentration_adjustment_pct in
          if Qltb 0 total_adjustment_factor then
            let new_module_cost := original_module_cost * (1 + total_adjustment_factor) in
            let '(self1, log3) :=
              update_cost_component self "module_usd_per_kw" new_module_cost in
            (self1, app log1 (app log2 log3))
          else (self, app log1 log2)
      end
  end.

Section Operations.
Context `{MathLib}.

(** [update_for_year]; the argument [solar_tech_model] is only passed
    through a [pass] statement. *)
Definition update_for_year (self : CostModel) (year : Z)
    (cumulative_production_volume_for_tech : option Q)
  : outcome (CostModel * list log_record) :=
  '(self1, log1) ←
    match cumulative_production_volume_for_tech with
    | Some v =>
        if Qltb (current_production_volume self) v
        then apply_learning_curve self v
        else mret (self, [])
    | None => mret (self, [])
    end;
  let '(self2, log2) :=
    match supply_chain_model self1 with
    | Some _ => adjust_costs_based_on_supply_chain self1 "polysilicon" "solar_modules"
    | None => (self1, [])
    end in
  mret (self2, app log1 log2).

(** The mutating methods of [CostModel], as calls applied to an instance. *)
Inductive operation : Type :=
| UpdateCostComponent (component_name : string) (new_value : Q)
| ApplyLearningCurve (cumulative_production_volume : Q)
| UpdateOpexCost (new_opex_per_kw_year : Q)
| AdjustCostsBasedOnSupplyChain (material_item_name module_item_name : string)
| UpdateForYear (year : Z) (cumulative_production_volume_for_tech : option Q).

Definition call (self : CostModel) (op : operation)
  : outcome (CostModel * list log_record) :=
  match op with
  | UpdateCostComponent n v => mret (update_cost_component self n v)
  | ApplyLearningCurve v => apply_learning_curve self v
  | UpdateOpexCost v => mret (update_opex_cost self v)
  | AdjustCostsBasedOnSupplyChain a b =>
      mret (adjust_costs_based_on_supply_chain self a b)
  | UpdateForYear y v => update_for_year self y v
  end.

(** A sequence of calls, each of which returns. *)
Fixpoint calls (self : CostModel) (ops : list operation) : outcome CostModel :=
  match ops with
  | [] => mret self
  | op :: rest => '(self1, _) ← call self op; calls self1 rest
  end.

End Operations.

End Cost.

(** ** Python strings and insertion-ordered dictionaries *)

(** [c.upper()] for an ASCII character. *)
Definition upper_ascii (c : ascii) : ascii :=
  let n := nat_of_ascii c in
  if (97 <=? n)%nat && (n <=? 122)%nat then ascii_of_nat (n - 32) else c.

(** [s.upper()] *)
Fixpoint upper (s : string) : string :=
  match s with
  | EmptyString => EmptyString
  | String c rest => String (upper_ascii c) (upper rest)
  end.

Fixpoint starts_with (p s : string) : bool :=
  match p, s with
  | EmptyString, _ => true
  | String a p', String b s' => Ascii.eqb a b && starts_with p' s'
  | String _ _, EmptyString => false
  end.

(** [needle in hay] for strings. *)
Fixpoint str_in (needle hay : string) : bool :=
  starts_with needle hay
  || match hay with
     | EmptyString => false
     | String _ rest => str_in needle rest
     end.

(** A dictionary from technology names to numbers that the source
    iterates with [.items()]: the pairs in insertion order, keys unique. *)
Fixpoint dict_get (d : list (string * Q)) (key : string) : option Q :=
  match d with
  | [] => None
  | (k, v) :: rest => if String.eqb k key then Some v else dict_get rest key
  end.

(** [d[key] = v]: a present key keeps its position, a new one is appended. *)
Fixpoint dict_set (d : list (string * Q)) (key : string) (v : Q)
  : list (string * Q) :=
  match d with
  | [] => [(key, v)]
  | (k, w) :: rest =>
      if String.eqb k key then (k, v) :: rest else (k, w) :: dict_set rest key v
  end.

(** ** grid_model.py *)

Module Grid.

(** One value of [initial_regional_data]: every key may be missing. *)
Record RegionInput : Type := {
  in_existing_capacity_mw : option Q;
  in_current_load_mw : option Q;
  in_max_solar_penetration_pct : option Q;
  in_base_interconnection_cost_usd_per_mw : option Q;
  in_transmission_constraint_factor : option Q;
  in_avg_transmission_cost_usd_per_mw_km : option Q;
  in_avg_terrain_factor : option Q;
  in_current_solar_mw : option Q;
  in_capacities_mw_by_tech : option (list (string * Q))
}.

(** One value of [regional_data].  [__init__] starts every region from a
    copy of [default_grid_params] and no method removes a key, so every
    key is present.  ['capacities_mw_by_tech'] holds a dictionary object:
    [default_grid_params.copy()] is a shallow copy, so the regions that do
    not bring their own dictionary all hold the one object of
    [default_grid_params], object [0] of [dict_objects]. *)
Record RegionParams : Type := {
  existing_capacity_mw : Q;
  current_load_mw : Q;
  max_solar_penetration_pct : Q;
  base_interconnection_cost_usd_per_mw : Q;
  transmission_constraint_factor : Q;
  avg_transmission_cost_usd_per_mw_km : Q;
  avg_terrain_factor : Q;
  current_solar_mw : Q;
  capacities_mw_by_tech : nat
}.

Record GridModel : Type := {
  regional_data : gmap string RegionParams;
  dict_objects : gmap nat (list (string * Q))
}.

Definition set_current_solar_mw (p : RegionParams) (v : Q) : RegionParams :=
  {| existing_capacity_mw := existing_capacity_mw p;
     current_load_mw := current_load_mw p;
     max_solar_penetration_pct := max_solar_penetration_pct p;
     base_interconnection_cost_usd_per_mw := base_interconnection_cost_usd_per_mw p;
     transmission_constraint_factor := transmission_constraint_factor p;
     avg_transmission_cost_usd_per_mw_km := avg_transmission_cost_usd_per_mw_km p;
     avg_terrain_factor := avg_terrain_factor p;
     current_solar_mw := v;
     capacities_mw_by_tech := capacities_mw_by_tech p |}.

(** The state of the loop of [__init__]: the model so far, the number of
    the next fresh dictionary object, the log. *)
Definition init_region (st : GridModel * nat * list log_record)
    (entry : string * RegionInput) : GridModel * nat * list log_record :=
  let '(self, next, log) := st in
  let '(region_name, data) := entry in
  match in_existing_capacity_mw data, in_current_load_mw data with
  | Some existing, Some load =>
      let '(ref, objects, next') :=
        match in_capacities_mw_by_tech data with
        | Some d => (next, <[next := d]> (dict_objects self), S next)
        | None => (O, dict_objects self, next)
        end in
      let region_params :=
        {| existing_capacity_mw := existing;
           current_load_mw := load;
           max_solar_penetration_pct :=
             default (50 # 100) (in_max_solar_penetration_pct data);
           base_interconnection_cost_usd_per_mw :=
             default 100000 (in_base_interconnection_cost_usd_per_mw data);
           transmission_constraint_factor :=
             default 1 (in_transmission_constraint_factor data);
           avg_transmission_cost_usd_per_mw_km :=
             default 2000 (in_avg_transmission_cost_usd_per_mw_km data);
           avg_terrain_factor := default 1 (in_avg_terrain_factor data);
           current_solar_mw := default 0 (in_current_solar_mw data);
           capacities_mw_by_tech := ref |} in
      ({| regional_data := <[region_name := region_params]> (regional_data self);
          dict_objects := objects |}, next', log)
  | _, _ =>
      (self, next,
       app log [error ("GridModel: Missing 'existing_capacity_mw' or 'current_load_mw' for region '"
                       ++ region_name ++ "'. Skipping region.")])
  end.

(** [GridModel.__init__] *)
Definition init (initial_regional_data : list (string * RegionInput))
  : GridModel * list log_record :=
  let '(self, _, log) :=
    fold_left init_region initial_regional_data
      ({| regional_data := ∅; dict_objects := {[ O := [] ]} |}, 1%nat, []) in
  if bool_decide (regional_data self = ∅)
  then (self, app log [warning "GridModel initialized, but no valid regional data was loaded."])
  else (self, log).

Definition update_for_year (self : GridModel) (year : Z) (regions : list string)
  : list log_record :=
  flat_map (fun region_name =>
    match regional_data self !! region_name with
    | None => [warning ("GridModel: Region '" ++ region_name
                        ++ "' not found during update for year {year}.")]
    | Some _ => []
    end) regions.

(** [get_max_solar_penetration_mw]: the product is a product of doubles. *)
Definition get_max_solar_penetration_mw (self : GridModel) (region_name : string)
  : Q * list log_record :=
  match regional_data self !! region_name with
  | None => (0, [warning ("GridModel: Region '" ++ region_name
                          ++ "' not found for get_max_solar_penetration_mw.")])
  | Some region_info =>
      (fmul (existing_capacity_mw region_info)
            (max_solar_penetration_pct region_info), [])
  end.

Definition get_current_solar_mw (self : GridModel) (region_name : string)
  : Q * list log_record :=
  match regional_data self !! region_name with
  | None => (0, [warning ("GridModel: Region '" ++ region_name
                          ++ "' not found for get_current_solar_mw.")])
  | Some region_info => (current_solar_mw region_info, [])
  end.

Definition add_solar_capacity (self : GridModel) (region_name : string)
    (new_capacity_mw : Q) : GridModel * list log_record :=
  match regional_data self !! region_name with
  | None => (self, [warning ("GridModel: Region '" ++ region_name
                             ++ "' not found for add_solar_capacity.")])
  | Some region_info =>
      ({| regional_data :=
            <[region_name :=
                set_current_solar_mw region_info
                  (current_solar_mw region_info + new_capacity_mw)]>
              (regional_data self);
          dict_objects := dict_objects self |}, [])
  end.

(** The heuristic of [add_new_capacity] for a solar PV technology. *)
Definition is_solar_pv (tech_name : string) : bool :=
  let u := upper tech_name in
  (str_in "PV" u || str_in "SOLAR" u || str_in "SILICON" u
   || str_in "TOPCON" u || str_in "PEROVSKITE" u)
  && negb (str_in "BATTERY" u).

(** The inner loop of [add_new_capacity], for one technology of a region
    that is present. *)
Definition add_tech_capacity (region_name : string) (self : GridModel)
    (investment : string * Q) : GridModel :=
  let '(tech_name, capacity_mw) := investment in
  if Qleb capacity_mw 0 then self
  else
    match regional_data self !! region_name with
    | None => self
    | Some region_info =>
        let ref := capacities_mw_by_tech region_info in
        let by_tech := default [] (dict_objects self !! ref) in
        let current_tech_capacity := default 0 (dict_get by_tech tech_name) in
        let objects :=
          <[ref := dict_set by_tech tech_name (current_tech_capacity + capacity_mw)]>
            (dict_objects self) in
        let region_info' :=
          if is_solar_pv tech_name
          then set_current_solar_mw region_info
                 (current_solar_mw region_info + capacity_mw)
          else region_info in
        {| regional_data := <[region_name := region_info']> (regional_data self);
           dict_objects := objects |}
    end.

(** The outer loop of [add_new_capacity], for one region. *)
Definition add_region_capacity (st : GridModel * list log_record)
    (entry : string * list (string * Q)) : GridModel * list log_record :=
  let '(self, log) := st in
  let '(region_name, tech_investments) := entry in
  match regional_data self !! region_name with
  | None =>
      (self, app log [warning ("GridModel: Region '" ++ region_name
                               ++ "' not found. Cannot add new capacities: {tech_investments}")])
  | Some _ => (fold_left (add_tech_capacity region_name) tech_investments self, log)
  end.

Definition add_new_capacity (self : GridModel) (year : Z)
    (new_capacity_details : list (string * list (string * Q)))
  : GridModel * list log_record :=
  fold_left add_region_capacity new_capacity_details (self, []).

Definition get_current_capacity_by_tech (self : GridModel) (region_name : string)
  : list (string * Q) * list log_record :=
  match regional_data self !! region_name with
  | None => ([], [warning ("GridModel: Region '" ++ region_name
                           ++ "' not found for get_current_capacity_by_tech.")])
  | Some region_info =>
      (default [] (dict_objects self !! capacities_mw_by_tech region_info), [])
  end.

Definition calculate_interconnection_costs (self : GridModel) (region_name : string)
    (new_capacity_mw distance_km : Q) : pyfloat * list log_record :=
  match regional_data self !! region_name with
  | None => (PInf, [warning ("GridModel: Region '" ++ region_name
                             ++ "' not found for calculate_interconnection_costs.")])
  | Some region_info =>
      let base_cost :=
        base_interconnection_cost_usd_per_mw region_info * new_capacity_mw in
      let transmission_cost :=
        avg_transmission_cost_usd_per_mw_km region_info * new_capacity_mw
        * distance_km * avg_terrain_factor region_info in
      let total_cost :=
        (base_cost + transmission_cost) * transmission_constraint_factor region_info in
      (Fin total_cost, [])
  end.

(** [check_grid_constraints]: the sum that is compared with the maximum is
    a sum of doubles. *)
Definition check_grid_constraints (self : GridModel) (region_name : string)
    (additional_capacity_mw : Q) : bool * list log_record :=
  match regional_data self !! region_name with
  | None => (false, [warning ("GridModel: Region '" ++ region_name
                              ++ "' not found for check_grid_constraints.")])
  | Some _ =>
      let '(current_solar, log1) := get_current_solar_mw self region_name in
      let '(max_solar, log2) := get_max_solar_penetration_mw self region_name in
      if Qltb max_solar (fadd current_solar additional_capacity_mw)
      then (false, app log1 log2)
      else (true, app log1 log2)
  end.

End Grid.

(** ** market_model.py *)

Module Market.

Record ServiceConfig : Type := {
  price_usd_per_mw_year : option Q;
  availability_factor : option Q
}.

Record MarketDesign : Type := {
  base_energy_price_usd_per_mwh : option Q;
  tou_factors : option (gmap string Q);
  ancillary_services : option (gmap string ServiceConfig)
}.

Record MarketSimulator : Type := { market_designs : gmap string MarketDesign }.

Definition get_energy_price (self : MarketSimulator) (region time_of_day : string)
    (default_base_price : Q) : Q :=
  let region_design := market_designs self !! region in
  let base_price :=
    default default_base_price (region_design ≫= base_energy_price_usd_per_mwh) in
  let tou_factors := default ∅ (region_design ≫= tou_factors) in
  let tou_multiplier := default 1 (tou_factors !! time_of_day) in
  base_price * tou_multiplier.

Definition estimate_ancillary_revenue (self : MarketSimulator) (capacity_mw : Q)
    (service_type region : string) : Q :=
  let region_design := market_designs self !! region in
  let ancillary_services_config := default ∅ (region_design ≫= ancillary_services) in
  let service_config := ancillary_services_config !! service_type in
  let revenue_per_mw_year := default 0 (service_config ≫= price_usd_per_mw_year) in
  let availability_factor := default 1 (service_config ≫= availability_factor) in
  capacity_mw * revenue_per_mw_year * availability_factor.

Definition HOURS_PER_YEAR : Q := 8760.
Definition DEFAULT_PV_CAPACITY_FACTOR : Q := 20 # 100.
Definition DEFAULT_BATTERY_EFFECTIVE_CF : Q := 10 # 100.

(** One value of [market_outcomes]. *)
Record RegionOutcome : Type := {
  total_generation_mwh : list (string * Q);
  annual_demand_mwh : Q;
  total_dispatched_generation_mwh : Q;
  unmet_demand_mwh : Q
}.

(** One element of [dispatchable_techs]. *)
Record DispatchableTech : Type := {
  tech_name : string;
  potential_mwh : Q;
  marginal_cost : Q
}.

(** The body of the loop over [installed_capacities.items()]: the element
    appended to [dispatchable_techs], if any, and the warnings. *)
Definition dispatchable_tech (solar_tech_model : SolarTech.SolarTechModel)
    (year : Z) (region_name : string) (entry : string * Q)
  : option DispatchableTech * list log_record :=
  let '(tech_name, capacity_mw) := entry in
  if Qleb capacity_mw 0 then (None, [])
  else
    match SolarTech.get_technology_details solar_tech_model tech_name year with
    | SolarTech.DetailsError msg =>
        (None, [warning ("    Error retrieving details for " ++ tech_name ++ " in "
                         ++ region_name ++ ": " ++ msg ++ ". Skipping for dispatch.")])
    | SolarTech.Details tech_details =>
        if negb (SolarTech.is_commercially_available tech_details) then (None, [])
        else
          let marginal_cost := 0 in
          let potential_annual_generation_mwh :=
            if str_in "BATTERY" (upper tech_name)
            then capacity_mw * DEFAULT_BATTERY_EFFECTIVE_CF * HOURS_PER_YEAR
            else capacity_mw * DEFAULT_PV_CAPACITY_FACTOR * HOURS_PER_YEAR in
          if Qltb 0 potential_annual_generation_mwh then
            (Some {| tech_name := tech_name;
                     potential_mwh := potential_annual_generation_mwh;
                     marginal_cost := marginal_cost |}, [])
          else (None, [])
    end.

Fixpoint dispatchable_techs (solar_tech_model : SolarTech.SolarTechModel)
    (year : Z) (region_name : string) (installed_capacities : list (string * Q))
  : list DispatchableTech * list log_record :=
  match installed_capacities with
  | [] => ([], [])
  | entry :: rest =>
      let '(t, log1) := dispatchable_tech solar_tech_model year region_name entry in
      let '(ts, log2) := dispatchable_techs solar_tech_model year region_name rest in
      (match t with Some t => t :: ts | None => ts end, app log1 log2)
  end.

(** [list.sort(key=lambda x: x['marginal_cost'])]: a stable sort. *)
Fixpoint insert_by_cost (t : DispatchableTech) (l : list DispatchableTech)
  : list DispatchableTech :=
  match l with
  | [] => [t]
  | u :: rest =>
      if Qltb (marginal_cost t) (marginal_cost u) then t :: u :: rest
      else u :: insert_by_cost t rest
  end.

Definition sort_by_cost (l : list DispatchableTech) : list DispatchableTech :=
  fold_left (fun sorted t => insert_by_cost t sorted) l [].

(** The dispatch loop.  The state is the dictionary
    [total_generation_mwh] of the region and
    [dispatched_generation_for_region_mwh]. *)
Fixpoint dispatch (annual_demand_mwh : Q) (techs : list DispatchableTech)
    (st : list (string * Q) * Q) : list (string * Q) * Q :=
  match techs with
  | [] => st
  | tech :: rest =>
      let '(generation, dispatched) := st in
      if Qleb annual_demand_mwh dispatched then st
      else
        let generation_to_dispatch :=
          Qmin (potential_mwh tech) (annual_demand_mwh - dispatched) in
        if Qltb 0 generation_to_dispatch then
          dispatch annual_demand_mwh rest
            (dict_set generation (tech_name tech) generation_to_dispatch,
             dispatched + generation_to_dispatch)
        else dispatch annual_demand_mwh rest st
  end.

(** The body of the loop over [regions]: the record of one region.  A
    region of [regional_data] always has the key ['current_load_mw']
    ([GridModel.__init__] skips the regions without it), so the test of the
    source is the test for the region. *)
Definition simulate_region (year : Z) (solar_tech_model : SolarTech.SolarTechModel)
    (grid_model : Grid.GridModel) (region_name : string)
  : RegionOutcome * list log_record :=
  match Grid.regional_data grid_model !! region_name with
  | None =>
      ({| total_generation_mwh := []; annual_demand_mwh := 0;
          total_dispatched_generation_mwh := 0; unmet_demand_mwh := 0 |},
       [warning ("  Region " ++ region_name
                 ++ " or its 'current_load_mw' not found in grid_model. Skipping dispatch for this region.")])
  | Some region_info =>
      let regional_peak_load_mw := Grid.current_load_mw region_info in
      let annual_demand_mwh := regional_peak_load_mw * HOURS_PER_YEAR in
      let '(installed_capacities, log1) :=
        Grid.get_current_capacity_by_tech grid_model region_name in
      match installed_capacities with
      | [] =>
          ({| total_generation_mwh := []; annual_demand_mwh := annual_demand_mwh;
              total_dispatched_generation_mwh := 0;
              unmet_demand_mwh := annual_demand_mwh |}, log1)
      | _ :: _ =>
          let '(techs, log2) :=
            dispatchable_techs solar_tech_model year region_name installed_capacities in
          let '(generation, dispatched_generation_for_region_mwh) :=
            dispatch annual_demand_mwh (sort_by_cost techs) ([], 0) in
          ({| total_generation_mwh := generation;
              annual_demand_mwh := annual_demand_mwh;
              total_dispatched_generation_mwh := dispatched_generation_for_region_mwh;
              unmet_demand_mwh :=
                Qmax 0 (annual_demand_mwh - dispatched_generation_for_region_mwh) |},
           app log1 log2)
      end
  end.

(** [simulate_dispatch_for_year]; the arguments [new_investments] and
    [cost_model] are not read by the source. *)
Definition simulate_dispatch_for_year (year : Z) (regions : list string)
    (solar_tech_model : SolarTech.SolarTechModel) (grid_model : Grid.GridModel)
  : gmap string RegionOutcome * list log_record :=
  fold_left
    (fun '(market_outcomes, log) region_name =>
       let '(rec, log1) :=
         simulate_region year solar_tech_model grid_model region_name in
       (<[region_name := rec]> market_outcomes, app log log1))
    regions (∅, []).

End Market.

(** ** carbon_pricing_model.py and investment_decision_model.py *)

Module Invest.

Definition TONS_CO2_AVOIDED_PER_MWH : Q := 5 # 10.

(** One value of [schemes]; [scheme_other_entries] says whether the scheme
    has keys besides the price (a scheme is falsy only when empty). *)
Record CarbonScheme : Type := {
  price_per_ton_co2 : option Q;
  scheme_other_entries : bool
}.

Record CarbonPricingMechanism : Type := { schemes : gmap string CarbonScheme }.

Definition get_carbon_cost (self : CarbonPricingMechanism) (emissions_tons_co2 : Q)
    (region_scheme_name : string) : Q :=
  match schemes self !! region_scheme_name with
  | None => 0
  | Some scheme =>
      if bool_decide (is_Some (price_per_ton_co2 scheme)) || scheme_other_entries scheme
      then emissions_tons_co2 * default 0 (price_per_ton_co2 scheme)
      else 0
  end.

Record InvestmentDecisionModel : Type := {
  solar_tech_model : SolarTech.SolarTechModel;
  cost_model : Cost.CostModel;
  market_simulator : Market.MarketSimulator;
  carbon_pricing_model : CarbonPricingMechanism
}.

(** The loop of [_calculate_npv] from year [t] on. *)
Fixpoint npv_loop (discount_rate : Q) (t : Z) (annual_cash_flows : list Q)
    (current_npv : Q) : outcome Q :=
  match annual_cash_flows with
  | [] => mret current_npv
  | cash_flow :: rest =>
      term ← py_div cash_flow ((1 + discount_rate) ^ t);
      npv_loop discount_rate (t + 1) rest (current_npv + term)
  end.

Definition _calculate_npv (initial_investment : Q) (annual_cash_flows : list Q)
    (discount_rate : Q) : outcome Q :=
  npv_loop discount_rate 1 annual_cash_flows (- initial_investment).

(** The value of ['simple_payback_period_years']: a float or a string. *)
Inductive Payback : Type :=
| Years (y : Q)
| NotApplicable (text : string).

(** The cascade that sets [simple_payback_period_years]. *)
Definition simple_payback_period_years (project_capacity_mw initial_investment_usd
    annual_net_cash_flow_usd : Q) : outcome Payback :=
  if Qeqb project_capacity_mw 0 && Qeqb initial_investment_usd 0 then
    mret (Years 0)
  else if Qeqb initial_investment_usd 0 then
    mret (NotApplicable "N/A (initial investment is zero)")
  else if Qleb annual_net_cash_flow_usd 0 then
    mret (NotApplicable "N/A (negative or zero cash flow)")
  else
    y ← py_div initial_investment_usd annual_net_cash_flow_usd;
    mret (Years y).

(** The dictionary [results]; a key that has not been set is [None].  The
    keys that only repeat an argument are left out. *)
Record Results : Type := {
  lcoe_data : option Cost.LcoeResult;
  error : option string;
  market_price_from_simulator_usd_per_mwh : option Q;
  profit_margin_usd_per_mwh : option Q;
  projected_annual_profit_usd : option Q;
  total_ancillary_revenue_usd_per_year : option Q;
  carbon_credit_revenue_usd_per_year : option Q;
  initial_investment_usd : option Q;
  annual_net_cash_flow_usd : option Q;
  payback : option Payback;
  npv_usd : option Q;
  attractiveness_score : option Q
}.

Definition no_results : Results :=
  {| lcoe_data := None; error := None;
     market_price_from_simulator_usd_per_mwh := None;
     profit_margin_usd_per_mwh := None; projected_annual_profit_usd := None;
     total_ancillary_revenue_usd_per_year := None;
     carbon_credit_revenue_usd_per_year := None;
     initial_investment_usd := None; annual_net_cash_flow_usd := None;
     payback := None; npv_usd := None; attractiveness_score := None |}.

Definition set_error (r : Results) (e : string) : Results :=
  {| lcoe_data := lcoe_data r; error := Some e;
     market_price_from_simulator_usd_per_mwh :=
       market_price_from_simulator_usd_per_mwh r;
     profit_margin_usd_per_mwh := profit_margin_usd_per_mwh r;
     projected_annual_profit_usd := projected_annual_profit_usd r;
     total_ancillary_revenue_usd_per_year := total_ancillary_revenue_usd_per_year r;
     carbon_credit_revenue_usd_per_year := carbon_credit_revenue_usd_per_year r;
     initial_investment_usd := initial_investment_usd r;
     annual_net_cash_flow_usd := annual_net_cash_flow_usd r;
     payback := payback r; npv_usd := npv_usd r;
     attractiveness_score := attractiveness_score r |}.

(** [str(e)] of a caught exception.  For [OverflowError] it is the text
    of a power beyond the doubles; the evolving LCOE catches its own, and
    none reaches this module. *)
Definition exception_text (e : py_exception) : string :=
  match e with
  | ZeroDivisionError => "float division by zero"
  | ValueError => "math domain error"
  | OverflowError => "(34, 'Numerical result out of range')"
  | KeyError k => "'" ++ k ++ "'"
  end.

(** The statements of the [try] block after [lcoe_data] has been found
    free of an error, for its LCOE and its capex. *)
Definition evaluate_after_lcoe (self : InvestmentDecisionModel)
    (lcoe_result : Cost.LcoeResult) (effective_lcoe_usd_per_mwh capex_usd_per_kw : Q)
    (project_capacity_mw capacity_factor discount_rate : Q)
    (economic_lifetime_years : Z) (region time_of_day : string)
    (ancillary_service_types : list string)
    (region_carbon_scheme_name : option string) : Results :=
  let market_price := Market.get_energy_price (market_simulator self) region time_of_day 50 in
  let profit_margin := market_price - effective_lcoe_usd_per_mwh in
  let annual_generation_mwh := project_capacity_mw * capacity_factor * 8760 in
  let projected_annual_profit := profit_margin * annual_generation_mwh in
  let total_ancillary_revenue :=
    if Qltb 0 project_capacity_mw then
      fold_left
        (fun total service_type =>
           total + Market.estimate_ancillary_revenue (market_simulator self)
                     project_capacity_mw service_type region)
        ancillary_service_types 0
    else 0 in
  let carbon_credit_revenue :=
    match region_carbon_scheme_name with
    | Some scheme_name =>
        if negb (String.eqb scheme_name "") && Qltb 0 project_capacity_mw
           && Qltb 0 capacity_factor
        then get_carbon_cost (carbon_pricing_model self)
               (annual_generation_mwh * TONS_CO2_AVOIDED_PER_MWH) scheme_name
        else 0
    | None => 0
    end in
  let initial_investment := capex_usd_per_kw * project_capacity_mw * 1000 in
  let annual_net_cash_flow :=
    projected_annual_profit + total_ancillary_revenue + carbon_credit_revenue in
  let results0 :=
    {| lcoe_data := Some lcoe_result; error := None;
       market_price_from_simulator_usd_per_mwh := Some market_price;
       profit_margin_usd_per_mwh := Some profit_margin;
       projected_annual_profit_usd := Some projected_annual_profit;
       total_ancillary_revenue_usd_per_year := Some total_ancillary_revenue;
       carbon_credit_revenue_usd_per_year := Some carbon_credit_revenue;
       initial_investment_usd := Some initial_investment;
       annual_net_cash_flow_usd := Some annual_net_cash_flow;
       payback := None; npv_usd := None; attractiveness_score := None |} in
  match simple_payback_period_years project_capacity_mw initial_investment
          annual_net_cash_flow with
  | Raised e => set_error results0 (exception_text e)
  | Returned simple_payback =>
      let results1 :=
        {| lcoe_data := lcoe_data results0; error := None;
           market_price_from_simulator_usd_per_mwh := Some market_price;
           profit_margin_usd_per_mwh := Some profit_margin;
           projected_annual_profit_usd := Some projected_annual_profit;
           total_ancillary_revenue_usd_per_year := Some total_ancillary_revenue;
           carbon_credit_revenue_usd_per_year := Some carbon_credit_revenue;
           initial_investment_usd := Some initial_investment;
           annual_net_cash_flow_usd := Some annual_net_cash_flow;
           payback := Some simple_payback; npv_usd := None;
           attractiveness_score := None |} in
      let npv :=
        if (0 <? economic_lifetime_years)%Z then
          _calculate_npv initial_investment
            (repeat annual_net_cash_flow (Z.to_nat economic_lifetime_years))
            discount_rate
        else if Qeqb initial_investment 0 && Qeqb annual_net_cash_flow 0 then mret 0
        else mret (- initial_investment) in
      match npv with
      | Raised e => set_error results1 (exception_text e)
      | Returned npv_usd =>
          {| lcoe_data := lcoe_data results0; error := None;
             market_price_from_simulator_usd_per_mwh := Some market_price;
             profit_margin_usd_per_mwh := Some profit_margin;
             projected_annual_profit_usd := Some projected_annual_profit;
             total_ancillary_revenue_usd_per_year := Some total_ancillary_revenue;
             carbon_credit_revenue_usd_per_year := Some carbon_credit_revenue;
             initial_investment_usd := Some initial_investment;
             annual_net_cash_flow_usd := Some annual_net_cash_flow;
             payback := Some simple_payback; npv_usd := Some npv_usd;
             attractiveness_score := Some profit_margin |}
      end
  end.

(** [evaluate_project_attractiveness].  The whole body is inside
    [try: ... except Exception], so the call always returns [results].
    [ancillary_service_types] is the empty list for [None]. *)
Definition evaluate_project_attractiveness (self : InvestmentDecisionModel)
    (technology_name : string) (year : Z)
    (project_capacity_mw capacity_factor discount_rate : Q)
    (economic_lifetime_years : Z) (region time_of_day : string)
    (ancillary_service_types : list string)
    (region_carbon_scheme_name : option string) : Results :=
  match Cost.calculate_lcoe_for_evolving_solar_tech (cost_model self)
          (solar_tech_model self) technology_name year capacity_factor
          discount_rate economic_lifetime_years with
  | Raised e => set_error no_results (exception_text e)
  | Returned (lcoe_result, _) =>
      match Cost.lcoe_error lcoe_result with
      | Some e =>
          {| lcoe_data := Some lcoe_result; error := Some e;
             market_price_from_simulator_usd_per_mwh := None;
             profit_margin_usd_per_mwh := None; projected_annual_profit_usd := None;
             total_ancillary_revenue_usd_per_year := None;
             carbon_credit_revenue_usd_per_year := None;
             initial_investment_usd := None; annual_net_cash_flow_usd := None;
             payback := None; npv_usd := None; attractiveness_score := None |}
      | None =>
          match Cost.lcoe_usd_per_mwh lcoe_result,
                Cost.lcoe_capex_usd_per_kw lcoe_result with
          | Fin effective_lcoe_usd_per_mwh, Some capex_usd_per_kw =>
              evaluate_after_lcoe self lcoe_result effective_lcoe_usd_per_mwh
                capex_usd_per_kw project_capacity_mw capacity_factor discount_rate
                economic_lifetime_years region time_of_day ancillary_service_types
                region_carbon_scheme_name
          | _, _ =>
              (* not reached: a result without an error has a finite LCOE
                 and a capex, see [evolving_success_shape] *)
              set_error no_results "unreachable"
          end
      end
  end.

End Invest.

(** ** investment_decision_model.py: the investment decisions *)

Module Decision.

(** [investments_made]: a dictionary from region names to the dictionary
    of the capacities by technology, in insertion order. *)
Fixpoint regions_get (d : list (string * list (string * Q))) (key : string)
  : option (list (string * Q)) :=
  match d with
  | [] => None
  | (k, v) :: rest => if String.eqb k key then Some v else regions_get rest key
  end.

Fixpoint regions_set (d : list (string * list (string * Q))) (key : string)
    (v : list (string * Q)) : list (string * list (string * Q)) :=
  match d with
  | [] => [(key, v)]
  | (k, w) :: rest =>
      if String.eqb k key then (k, v) :: rest else (k, w) :: regions_set rest key v
  end.

Definition default_project_capacity_mw : Q := 50.
Definition default_capacity_factor : Q := 20 # 100.
Definition default_discount_rate : Q := 5 # 100.
Definition default_economic_lifetime_years : Z := 25.
Definition default_time_of_day : string := "mid_peak".

(** [project_metrics.get('error')] as a condition: a missing key and the
    empty string are false. *)
Definition error_truthy (project_metrics : Invest.Results) : bool :=
  match Invest.error project_metrics with
  | Some e => negb (String.eqb e "")
  | None => false
  end.

(** The body of the loop over [technologies], on the dictionary of the
    region.  Nothing inside the [try] raises: the registry and
    [evaluate_project_attractiveness] return in every case, and
    [project_metrics.get('npv_usd', 0)] is a number. *)
Definition decide_technology (self : Invest.InvestmentDecisionModel) (year : Z)
    (region_name : string) (investments_of_region : list (string * Q))
    (tech_name : string) : list (string * Q) :=
  match SolarTech.get_technology_details (Invest.solar_tech_model self) tech_name year with
  | SolarTech.DetailsError _ => investments_of_region
  | SolarTech.Details _ =>
      let project_metrics :=
        Invest.evaluate_project_attractiveness self tech_name year
          default_project_capacity_mw default_capacity_factor default_discount_rate
          default_economic_lifetime_years region_name default_time_of_day [] None in
      if error_truthy project_metrics then investments_of_region
      else
        let npv := default 0 (Invest.npv_usd project_metrics) in
        if Qltb 0 npv then
          dict_set investments_of_region tech_name
            (default 0 (dict_get investments_of_region tech_name)
             + default_project_capacity_mw)
        else investments_of_region
  end.

(** [decide_investments]: the dictionary it returns.  The arguments
    [cost_model], [market_model], [solar_tech_model], [grid_model],
    [policy_model] and [supply_chain_model] are not read by the source,
    which evaluates with the models of [self]. *)
Definition decide_investments (self : Invest.InvestmentDecisionModel) (year : Z)
    (regions technologies : list string) : list (string * list (string * Q)) :=
  fold_left
    (fun investments_made region_name =>
       regions_set investments_made region_name
         (fold_left (decide_technology self year region_name) technologies []))
    regions [].

End Decision.

(** ** supply_chain_model.py *)

Module Supply.

(** A value of an item of [supply_data]: a number (a global capacity, a
    score), a dictionary of numbers (the capacities by region, the
    components), or anything else. *)
Inductive value : Type :=
| Number (x : Q)
| Capacities (d : list (string * Q))
| Other.

Abbreviation Item := (gmap string value).

Record SupplyChainModel : Type := { supply_data : gmap string Item }.

(** [add_supply_item] *)
Definition add_supply_item (self : SupplyChainModel) (item_name : string)
    (data : Item) : SupplyChainModel :=
  {| supply_data := <[item_name := data]> (supply_data self) |}.

(** A call that returns, the [TypeError] of comparing a value that is not
    a number, or the [AttributeError] of asking a value that is not a
    dictionary for an entry. *)
Inductive result (A : Type) : Type :=
| Ok (a : A)
| TypeError
| AttributeError.
Arguments Ok {A} a.
Arguments TypeError {A}.
Arguments AttributeError {A}.

(** The dictionary returned by [get_material_availability]. *)
Record MaterialAvailability : Type := {
  available : bool;
  reason : option string;
  global_capacity : option Q;
  required : option Q;
  surplus : option Q;
  shortfall : option Q
}.

(** [get_material_availability].  An empty item has no key, so the test
    [not item or key not in item] is the test for the key. *)
Definition get_material_availability (self : SupplyChainModel)
    (material_name : string) (required_annual_quantity : Q)
  : result MaterialAvailability :=
  match supply_data self !! material_name ≫= (.!! "global_capacity_tons_per_year") with
  | None =>
      Ok {| available := false;
            reason := Some ("Data or global capacity not found for '"
                            ++ material_name ++ "'");
            global_capacity := None; required := None; surplus := None;
            shortfall := Some required_annual_quantity |}
  | Some (Number global_capacity) =>
      if Qleb required_annual_quantity global_capacity then
        Ok {| available := true; reason := None;
              global_capacity := Some global_capacity;
              required := Some required_annual_quantity;
              surplus := Some (global_capacity - required_annual_quantity);
              shortfall := None |}
      else
        Ok {| available := false;
              reason := Some "Required quantity exceeds global capacity";
              global_capacity := Some global_capacity;
              required := Some required_annual_quantity;
              surplus := None;
              shortfall := Some (required_annual_quantity - global_capacity) |}
  | Some _ => TypeError
  end.

(** [sum(l)] *)
Definition sum (l : list Q) : Q := fold_left Qplus l 0.

(** [calculate_hhi] *)
Definition calculate_hhi (shares : list Q) : Q :=
  match shares with
  | [] => 0
  | _ :: _ =>
      if Qeqb (sum shares) 0 then 0
      else sum (map (fun s => s ^ 2) shares)
  end.

(** The dictionary returned by [get_concentration_risk]. *)
Record ConcentrationRisk : Type := {
  item_name : option string;
  hhi : Q;
  assessment : string;
  error : option string;
  details : option string;
  regional_shares_pct : option (list (string * Q))
}.

(** [get_concentration_risk].  The division by [total_capacity] comes
    after the test [total_capacity == 0]. *)
Definition get_concentration_risk (self : SupplyChainModel) (item_name : string)
    (capacity_key : string) : ConcentrationRisk :=
  match supply_data self !! item_name ≫= (.!! capacity_key) with
  | None =>
      {| item_name := None; hhi := - (1); assessment := "Data not found";
         error := Some ("Item or capacity key '" ++ capacity_key
                        ++ "' not found for '" ++ item_name ++ "'.");
         details := None; regional_shares_pct := None |}
  | Some (Capacities ((_ :: _) as regional_capacities)) =>
      let total_capacity := sum (map snd regional_capacities) in
      if Qeqb total_capacity 0 then
        {| item_name := None; hhi := 0; assessment := "No capacity";
           error := None; details := Some "Total regional capacity is zero.";
           regional_shares_pct := None |}
      else
        let market_shares_pct :=
          map (fun capacity => capacity / total_capacity * 100)
            (map snd regional_capacities) in
        let hhi_score := calculate_hhi market_shares_pct in
        let assessment :=
          if Qltb hhi_score 1500 then "Unconcentrated (Competitive)"
          else if Qleb hhi_score 2500 then "Moderately concentrated"
          else "Highly concentrated" in
        {| item_name := Some item_name;
           hhi := py_round hhi_score 2;
           assessment := assessment;
           error := None; details := None;
           regional_shares_pct :=
             Some (map (fun '(region, cap) =>
                          (region, py_round (cap / total_capacity * 100) 2))
                     regional_capacities) |}
  | Some _ =>
      {| item_name := None; hhi := - (1);
         assessment := "Regional capacity data invalid";
         error := Some ("Regional capacity data for '" ++ item_name
                        ++ "' is missing or not a dict.");
         details := None; regional_shares_pct := None |}
  end.

(** [model_capacity_expansion]: the model it leaves and how the call
    ends.  The two missing keys are set before the regional dictionary is
    read, so they stay when the call raises. *)
Definition model_capacity_expansion (self : SupplyChainModel)
    (item_name region : string) (additional_capacity : Q) (year : Z)
    (capacity_key_suffix : string) : SupplyChainModel * result unit :=
  let regional_capacity_key := "regional_capacity" ++ capacity_key_suffix in
  let global_capacity_key := "global_capacity" ++ capacity_key_suffix in
  match supply_data self !! item_name with
  | None => (self, Ok tt)
  | Some item =>
      let item1 :=
        match item !! regional_capacity_key with
        | None => <[regional_capacity_key := Capacities []]> item
        | Some _ => item
        end in
      let item2 :=
        match item1 !! global_capacity_key with
        | None => <[global_capacity_key := Number 0]> item1
        | Some _ => item1
        end in
      match item2 !! regional_capacity_key with
      | Some (Capacities regional) =>
          let regional' :=
            dict_set regional region
              (default 0 (dict_get regional region) + additional_capacity) in
          let item3 := <[regional_capacity_key := Capacities regional']> item2 in
          let item4 :=
            <[global_capacity_key := Number (sum (map snd regional'))]> item3 in
          ({| supply_data := <[item_name := item4]> (supply_data self) |}, Ok tt)
      | _ =>
          ({| supply_data := <[item_name := item2]> (supply_data self) |},
           AttributeError)
      end
  end.

End Supply.

(** ** carbon_pricing_model.py: the border adjustment *)

Module Carbon.

(** One value of [schemes], as [apply_cbam] reads it;
    [cbam_other_entries] says whether the scheme has keys besides the
    reference price (a scheme is falsy only when empty). *)
Record CbamScheme : Type := {
  reference_carbon_price_per_ton_co2 : option Q;
  cbam_other_entries : bool
}.

Record CarbonPricingMechanism : Type := { schemes : gmap string CbamScheme }.

(** [apply_cbam] *)
Definition apply_cbam (self : CarbonPricingMechanism)
    (product_embodied_carbon_tons : Q) (import_region : string)
    (export_region_carbon_price : Q) : Q :=
  match schemes self !! ("CBAM_" ++ import_region) with
  | None => 0
  | Some cbam_scheme =>
      if bool_decide (is_Some (reference_carbon_price_per_ton_co2 cbam_scheme))
         || cbam_other_entries cbam_scheme
      then
        let import_region_carbon_price :=
          default 0 (reference_carbon_price_per_ton_co2 cbam_scheme) in
        let price_difference :=
          Qmax 0 (import_region_carbon_price - export_region_carbon_price) in
        product_embodied_carbon_tons * price_difference
      else 0
  end.

End Carbon.

(** * Vocabulary and examples of the properties

    The predicates the properties are stated with, and the instances the
    model is run on. *)

(** A computable instance of the float library for running the model on
    examples: the first-order expansions of [log] and of [b ** e] at 1. *)
Definition sample_math : MathLib :=
  {| math_log := fun x => x - 1;
     float_pow := fun b e => 1 + e * (b - 1) |}.

(** The costs of the unit tests of the repository. *)
Definition initial_costs_pv : gmap string Q :=
  <["module_usd_per_kw" := 200]>
    (<["bos_usd_per_kw" := 150]>
       (<["inverter_usd_per_kw" := 100]>
          (<["installation_usd_per_kw" := 150]>
             (<["opex_per_kw_year" := 20]> ∅)))).

Definition cost_model_pv : Cost.CostModel :=
  Cost.init "TestSolarPV" initial_costs_pv (1 # 10) 10 None None.

(** The sum of the four components, as the specification words it. *)
Definition sum_of_components (costs : gmap string Q) : Q :=
  Cost.get0 costs "module_usd_per_kw" + Cost.get0 costs "bos_usd_per_kw"
  + Cost.get0 costs "inverter_usd_per_kw" + Cost.get0 costs "installation_usd_per_kw".

(** The ledger invariant: the total is the one [_recalculate_total_capex]
    computes from the components. *)
Definition capex_is_total (self : Cost.CostModel) : Prop :=
  Cost.current_costs self !! "capex_per_kw"
  = Some (Cost.total_capex (Cost.current_costs self)).

(** What no method changes: the baseline of the learning curve; and no
    method removes a key of [current_costs]. *)
Definition same_baseline (a b : Cost.CostModel) : Prop :=
  Cost.initial_costs_snapshot b = Cost.initial_costs_snapshot a
  /\ Cost.learning_rate b = Cost.learning_rate a
  /\ Cost.initial_production_volume b = Cost.initial_production_volume a
  /\ (forall k, is_Some (Cost.current_costs a !! k) ->
                is_Some (Cost.current_costs b !! k)).

(** A model reached from the ledger of the unit tests by a component
    update and an earlier learning curve. *)
Definition cost_model_pv_later : Cost.CostModel :=
  match @Cost.calls sample_math cost_model_pv
          [Cost.UpdateCostComponent "module_usd_per_kw" 270;
           Cost.ApplyLearningCurve 20] with
  | Returned self => self
  | Raised _ => cost_model_pv
  end.

(** What the claims say of a result dictionary. *)
Definition infinite_with_error (r : Cost.LcoeResult) : Prop :=
  Cost.lcoe_usd_per_mwh r = PInf /\ is_Some (Cost.lcoe_error r).


(** The power in the capital recovery factor is beyond the doubles, in
    the branch of the evolving LCOE that computes it: the case that its
    [except OverflowError] catches. *)
Definition crf_overflows (dr : Q) (L : Z) : Prop :=
  (0 < L)%Z /\ ~ dr == 0 /\ Cost.growth_factor dr L = Raised OverflowError.

(** The power in the capital recovery factor is rounded to 1: the
    denominator of the factor is zero. *)
Definition crf_denominator_zero (dr : Q) (L : Z) : Prop :=
  exists growth, Cost.growth_factor dr L = Returned growth /\ fsub growth 1 == 0.


(** A ledger without capital cost and the registry of one technology
    whose capital cost is zero, for running the LCOE on an example. *)
Definition free_cost_model : Cost.CostModel :=
  Cost.init "Free" (<["opex_per_kw_year" := 0]> ∅) (1 # 10) 10 None None.

Definition free_tech : SolarTech.SolarTechnology :=
  SolarTech.init "Free" (2 # 10) (3 # 10) 2020 2020 (5 # 1000) 0 (2 # 100).

(** The region of the scenario: existing capacity 500000 MW, load
    450000 MW, penetration ceiling 0.6. *)
Definition usa_input : Grid.RegionInput :=
  {| Grid.in_existing_capacity_mw := Some 500000;
     Grid.in_current_load_mw := Some 450000;
     Grid.in_max_solar_penetration_pct := Some (6 # 10);
     Grid.in_base_interconnection_cost_usd_per_mw := Some 120000;
     Grid.in_transmission_constraint_factor := None;
     Grid.in_avg_transmission_cost_usd_per_mw_km := None;
     Grid.in_avg_terrain_factor := None;
     Grid.in_current_solar_mw := None;
     Grid.in_capacities_mw_by_tech := None |}.

Definition usa_grid : Grid.GridModel := (Grid.init [("USA", usa_input)]).1.

(** The region of the scenario as Python holds it: the ceiling is the
    double that the literal [0.6] denotes. *)
Definition scenario_input : Grid.RegionInput :=
  {| Grid.in_existing_capacity_mw := Some 500000;
     Grid.in_current_load_mw := Some 450000;
     Grid.in_max_solar_penetration_pct := Some (fl64 (6 # 10));
     Grid.in_base_interconnection_cost_usd_per_mw := Some 120000;
     Grid.in_transmission_constraint_factor := None;
     Grid.in_avg_transmission_cost_usd_per_mw_km := None;
     Grid.in_avg_terrain_factor := None;
     Grid.in_current_solar_mw := None;
     Grid.in_capacities_mw_by_tech := None |}.

Definition scenario_grid : Grid.GridModel := (Grid.init [("USA", scenario_input)]).1.

(** A region of 100 MW with the ceiling [0.07], and a region whose solar
    capacity of [1e16] MW stands at its ceiling. *)
Definition small_region_input : Grid.RegionInput :=
  {| Grid.in_existing_capacity_mw := Some 100;
     Grid.in_current_load_mw := Some 80;
     Grid.in_max_solar_penetration_pct := Some (fl64 (7 # 100));
     Grid.in_base_interconnection_cost_usd_per_mw := None;
     Grid.in_transmission_constraint_factor := None;
     Grid.in_avg_transmission_cost_usd_per_mw_km := None;
     Grid.in_avg_terrain_factor := None;
     Grid.in_current_solar_mw := None;
     Grid.in_capacities_mw_by_tech := None |}.

Definition full_region_input : Grid.RegionInput :=
  {| Grid.in_existing_capacity_mw := Some (inject_Z (10 ^ 16));
     Grid.in_current_load_mw := Some (inject_Z (10 ^ 16));
     Grid.in_max_solar_penetration_pct := Some 1;
     Grid.in_base_interconnection_cost_usd_per_mw := None;
     Grid.in_transmission_constraint_factor := None;
     Grid.in_avg_transmission_cost_usd_per_mw_km := None;
     Grid.in_avg_terrain_factor := None;
     Grid.in_current_solar_mw := Some (inject_Z (10 ^ 16));
     Grid.in_capacities_mw_by_tech := None |}.

Definition rounding_grid : Grid.GridModel :=
  (Grid.init [("Small", small_region_input); ("Full", full_region_input)]).1.

Definition region_not_found (region_name operation : string) : log_record :=
  warning ("GridModel: Region '" ++ region_name ++ "' not found for " ++ operation ++ ".").

(** The technologies the dispatch of a region ranges over. *)
Definition region_techs (year : Z) (stm : SolarTech.SolarTechModel)
    (gm : Grid.GridModel) (r : string) : list Market.DispatchableTech :=
  (Market.dispatchable_techs stm year r (Grid.get_current_capacity_by_tech gm r).1).1.

(** The demand left to serve after [d] has been dispatched. *)
Definition remaining_unmet_demand (demand d : Q) : Q := Qmax 0 (demand - d).

(** A grid and a registry for running the dispatch on an example: 1000 MW
    of TOPCon added to the region of the scenario. *)
Definition topcon : SolarTech.SolarTechnology :=
  SolarTech.init "TOPCon" (225 # 1000) (265 # 1000) 2023 2022 (4 # 1000) 700 (3 # 100).

Definition topcon_model : SolarTech.SolarTechModel :=
  SolarTech.add_technology SolarTech.empty_model topcon.

Definition usa_grid_2025 : Grid.GridModel :=
  (Grid.add_new_capacity usa_grid 2025 [("USA", [("TOPCon", 1000)])]).1.

Definition usa_outcome : Market.RegionOutcome :=
  (Market.simulate_region 2025 topcon_model usa_grid_2025 "USA").1.

Definition is_not_applicable (pb : Invest.Payback) : Prop :=
  exists text, pb = Invest.NotApplicable text.

(** The investment evaluator of the examples: the ledger of the unit
    tests, the TOPCon registry, no market design and no carbon scheme. *)
Definition sample_evaluator : Invest.InvestmentDecisionModel :=
  {| Invest.solar_tech_model := topcon_model;
     Invest.cost_model := cost_model_pv;
     Invest.market_simulator := {| Market.market_designs := ∅ |};
     Invest.carbon_pricing_model := {| Invest.schemes := ∅ |} |}.


(** The entries of [current_costs] stay within [D]. *)
Definition keys_within (D : string -> Prop) (self : Cost.CostModel) : Prop :=
  forall k, is_Some (Cost.current_costs self !! k) -> D k.

(** The ledger of the examples after the learning curve at volume 40. *)
Definition cost_model_pv_at_40 : Cost.CostModel :=
  match @Cost.apply_learning_curve sample_math cost_model_pv_later 40 with
  | Returned (self, _) => self
  | Raised _ => cost_model_pv
  end.

(** A collaborator that reports a material shortfall of 60% and a highly
    concentrated module market, as the mocks of the unit tests do. *)
Definition tight_supply_chain : Cost.SupplyChainModel :=
  {| Cost.supply_data :=
       {[ "polysilicon" :=
            {| Cost.global_capacity_tons_per_year := Some 4000000;
               Cost.global_capacity_gw_per_year := None;
               Cost.other_entries := false |} ]};
     Cost.get_material_availability := fun _ required =>
       {| Cost.available := false;
          Cost.shortfall := Some ((6 # 10) * required);
          Cost.surplus := None |};
     Cost.get_concentration_risk := fun _ _ =>
       {| Cost.assessment := Some "Highly concentrated";
          Cost.risk_error := None;
          Cost.hhi := Some 3000 |} |}.

Definition cost_model_tight : Cost.CostModel :=
  Cost.init "TestPV" initial_costs_pv (1 # 10) 10 (Some tight_supply_chain) None.

(** A technology whose capex stays at 600, the total of the ledger of the
    unit tests. *)
Definition steady_tech : SolarTech.SolarTechnology :=
  SolarTech.init "Steady" (2 # 10) (3 # 10) 2020 2020 (5 # 1000) 600 0.

Definition steady_model : SolarTech.SolarTechModel :=
  SolarTech.add_technology SolarTech.empty_model steady_tech.

(** An entry of [initial_regional_data] that [GridModel.__init__] accepts. *)
Definition valid_input (data : Grid.RegionInput) : Prop :=
  is_Some (Grid.in_existing_capacity_mw data)
  /\ is_Some (Grid.in_current_load_mw data).

(** Two region records that differ at most in the solar capacity, which
    has not decreased. *)
Definition only_solar_grew (p p' : Grid.RegionParams) : Prop :=
  Grid.existing_capacity_mw p' = Grid.existing_capacity_mw p
  /\ Grid.current_load_mw p' = Grid.current_load_mw p
  /\ Grid.max_solar_penetration_pct p' = Grid.max_solar_penetration_pct p
  /\ Grid.base_interconnection_cost_usd_per_mw p'
     = Grid.base_interconnection_cost_usd_per_mw p
  /\ Grid.transmission_constraint_factor p' = Grid.transmission_constraint_factor p
  /\ Grid.avg_transmission_cost_usd_per_mw_km p'
     = Grid.avg_transmission_cost_usd_per_mw_km p
  /\ Grid.avg_terrain_factor p' = Grid.avg_terrain_factor p
  /\ Grid.capacities_mw_by_tech p' = Grid.capacities_mw_by_tech p
  /\ Grid.current_solar_mw p <= Grid.current_solar_mw p'.

(** The regions of a model keep their records up to [only_solar_grew],
    and no region appears or disappears. *)
Definition grid_evolves (a b : Grid.GridModel) : Prop :=
  forall r, match Grid.regional_data a !! r, Grid.regional_data b !! r with
            | Some p, Some p' => only_solar_grew p p'
            | None, None => True
            | _, _ => False
            end.

(** A second region for the examples, which brings no dictionary of its
    own either. *)
Definition china_input : Grid.RegionInput :=
  {| Grid.in_existing_capacity_mw := Some 1200000;
     Grid.in_current_load_mw := Some 1000000;
     Grid.in_max_solar_penetration_pct := None;
     Grid.in_base_interconnection_cost_usd_per_mw := None;
     Grid.in_transmission_constraint_factor := None;
     Grid.in_avg_transmission_cost_usd_per_mw_km := None;
     Grid.in_avg_terrain_factor := None;
     Grid.in_current_solar_mw := Some 50000;
     Grid.in_capacities_mw_by_tech := None |}.

Definition two_region_input : list (string * Grid.RegionInput) :=
  [("USA", usa_input); ("China", china_input)].

Definition two_region_grid : Grid.GridModel := (Grid.init two_region_input).1.

(** The record of a region as [GridModel.__init__] loads it from its
    entry: the two required values, the optional ones or their defaults. *)
Definition loaded_from (data : Grid.RegionInput) (p : Grid.RegionParams) : Prop :=
  Some (Grid.existing_capacity_mw p) = Grid.in_existing_capacity_mw data
  /\ Some (Grid.current_load_mw p) = Grid.in_current_load_mw data
  /\ Grid.max_solar_penetration_pct p
     = default (50 # 100) (Grid.in_max_solar_penetration_pct data)
  /\ Grid.base_interconnection_cost_usd_per_mw p
     = default 100000 (Grid.in_base_interconnection_cost_usd_per_mw data)
  /\ Grid.transmission_constraint_factor p
     = default 1 (Grid.in_transmission_constraint_factor data)
  /\ Grid.avg_transmission_cost_usd_per_mw_km p
     = default 2000 (Grid.in_avg_transmission_cost_usd_per_mw_km data)
  /\ Grid.avg_terrain_factor p = default 1 (Grid.in_avg_terrain_factor data)
  /\ Grid.current_solar_mw p = default 0 (Grid.in_current_solar_mw data).

(** What the loop of [GridModel.__init__] keeps true of its dictionary
    objects: object [0] is the empty dictionary of [default_grid_params],
    and the objects from [next] on are not allocated yet. *)
Definition init_loop_inv (st : Grid.GridModel * nat * list log_record) : Prop :=
  Grid.dict_objects st.1.1 !! 0%nat = Some []
  /\ (1 <= st.1.2)%nat
  /\ forall n, (st.1.2 <= n)%nat -> Grid.dict_objects st.1.1 !! n = None.

(** Every capacity of [new_capacity_details] is zero or negative. *)
Definition nothing_to_add (new_capacity_details : list (string * list (string * Q)))
  : Prop :=
  Forall (fun entry => Forall (fun investment => investment.2 <= 0) entry.2)
    new_capacity_details.

(** [sum(d.values())] *)
Definition dict_total (d : list (string * Q)) : Q :=
  fold_right (fun entry acc => entry.2 + acc) 0 d.

(** The evaluation that [decide_investments] asks for: 50 MW, capacity
    factor 0.20, discount rate 0.05, 25 years, the mid-peak price. *)
Definition standard_project (self : Invest.InvestmentDecisionModel) (year : Z)
    (region_name tech_name : string) : Invest.Results :=
  Invest.evaluate_project_attractiveness self tech_name year 50 (20 # 100) (5 # 100)
    25 region_name "mid_peak" [] None.

Definition reports_positive_npv (r : Invest.Results) : Prop :=
  exists v, Invest.npv_usd r = Some v /\ 0 < v.

(** The number of times [t] is listed in [technologies]. *)
Definition times_listed (t : string) (technologies : list string) : Z :=
  Z.of_nat (length (filter (fun u => u = t) technologies)).

(** An evaluator for a market that pays 100 USD/MWh in the USA. *)
Definition premium_evaluator : Invest.InvestmentDecisionModel :=
  {| Invest.solar_tech_model := topcon_model;
     Invest.cost_model := cost_model_pv;
     Invest.market_simulator :=
       {| Market.market_designs :=
            {[ "USA" := {| Market.base_energy_price_usd_per_mwh := Some 100;
                           Market.tou_factors := None;
                           Market.ancillary_services := None |} ]} |};
     Invest.carbon_pricing_model := {| Invest.schemes := ∅ |} |}.

Definition premium_project : Invest.Results :=
  Eval vm_compute in standard_project premium_evaluator 2025 "USA" "TOPCon".

Definition premium_npv : Q := default 0 (Invest.npv_usd premium_project).
Definition premium_investment : Q :=
  default 0 (Invest.initial_investment_usd premium_project).

(** The test of [decide_investments] for one region and technology. *)
Definition invests (self : Invest.InvestmentDecisionModel) (year : Z)
    (region_name tech_name : string) : bool :=
  match SolarTech.get_technology_details (Invest.solar_tech_model self) tech_name year with
  | SolarTech.DetailsError _ => false
  | SolarTech.Details _ =>
      negb (Decision.error_truthy (standard_project self year region_name tech_name))
      && Qltb 0 (default 0 (Invest.npv_usd
                              (standard_project self year region_name tech_name)))
  end.

(** The view of a supply chain that [CostModel] has: the global
    capacities of the items and the two methods it calls. *)
Definition material_view (item : Supply.Item) : Cost.MaterialData :=
  {| Cost.global_capacity_tons_per_year :=
       match item !! "global_capacity_tons_per_year" with
       | Some (Supply.Number x) => Some x
       | _ => None
       end;
     Cost.global_capacity_gw_per_year :=
       match item !! "global_capacity_gw_per_year" with
       | Some (Supply.Number x) => Some x
       | _ => None
       end;
     Cost.other_entries := bool_decide (item <> ∅) |}.

Definition availability_view (r : Supply.result Supply.MaterialAvailability)
  : Cost.Availability :=
  match r with
  | Supply.Ok a =>
      {| Cost.available := Supply.available a;
         Cost.shortfall := Supply.shortfall a;
         Cost.surplus := Supply.surplus a |}
  | _ =>
      {| Cost.available := false; Cost.shortfall := None; Cost.surplus := None |}
  end.

Definition risk_view (c : Supply.ConcentrationRisk) : Cost.ConcentrationRisk :=
  {| Cost.assessment := Some (Supply.assessment c);
     Cost.risk_error := Supply.error c;
     Cost.hhi := Some (Supply.hhi c) |}.

Definition as_collaborator (scm : Supply.SupplyChainModel) : Cost.SupplyChainModel :=
  {| Cost.supply_data := material_view <$> Supply.supply_data scm;
     Cost.get_material_availability := fun material required =>
       availability_view (Supply.get_material_availability scm material required);
     Cost.get_concentration_risk := fun item key =>
       risk_view (Supply.get_concentration_risk scm item key) |}.

(** The global capacities of the items are numbers, as the docstring of
    the constructor has them; the view above is that of [CostModel] for
    such supply data, and no comparison raises. *)
Definition number_or_missing (v : option Supply.value) : bool :=
  match v with
  | Some (Supply.Number _) | None => true
  | Some _ => false
  end.

Definition numeric_capacities (scm : Supply.SupplyChainModel) : Prop :=
  map_Forall
    (fun _ (item : Supply.Item) =>
       number_or_missing (item !! "global_capacity_tons_per_year")
       && number_or_missing (item !! "global_capacity_gw_per_year") = true)
    (Supply.supply_data scm).

(** [initial_data] of the module, after the loop that sets the global
    capacities to the sums of the regional ones. *)
Definition polysilicon_item : Supply.Item :=
  {[ "global_capacity_tons_per_year" := Supply.Number 4000000;
     "regional_capacity_tons_per_year" :=
       Supply.Capacities [("China", 3700000); ("USA", 150000);
                          ("Germany", 100000); ("Rest", 50000)];
     "criticality_score" := Supply.Number (8 # 10) ]}.

Definition solar_modules_regions : list (string * Q) :=
  [("China", 750); ("Vietnam", 50); ("India", 40); ("USA", 30); ("EU", 50);
   ("ROW", 80)].

Definition solar_modules_item : Supply.Item :=
  {[ "global_capacity_gw_per_year" := Supply.Number 1000;
     "regional_capacity_gw_per_year" := Supply.Capacities solar_modules_regions;
     "components_kg_per_mw" :=
       Supply.Capacities [("polysilicon", 3000); ("silver", 500)] ]}.

Definition lithium_carbonate_item : Supply.Item :=
  {[ "global_capacity_tons_per_year" := Supply.Number 1700000;
     "regional_capacity_tons_per_year" :=
       Supply.Capacities [("Australia", 250000); ("Chile", 200000);
                          ("China", 1100000); ("Argentina", 100000);
                          ("Rest", 50000)] ]}.

Definition initial_data : gmap string Supply.Item :=
  {[ "polysilicon" := polysilicon_item;
     "solar_modules" := solar_modules_item;
     "lithium_carbonate" := lithium_carbonate_item ]}.

Definition default_supply_chain : Supply.SupplyChainModel :=
  {| Supply.supply_data := initial_data |}.

(** A component that two regions make. *)
Definition wafer_regions : list (string * Q) := [("China", 60); ("Germany", 40)].

Definition wafers_item : Supply.Item :=
  {[ "regional_capacity_gw_per_year" := Supply.Capacities wafer_regions ]}.

Definition wafer_supply_chain : Supply.SupplyChainModel :=
  {| Supply.supply_data := {[ "wafers" := wafers_item ]} |}.

(** The border adjustment of the example of the module. *)
Definition cbam_eu : Carbon.CbamScheme :=
  {| Carbon.reference_carbon_price_per_ton_co2 := Some 85;
     Carbon.cbam_other_entries := true |}.

Definition carbon_schemes : Carbon.CarbonPricingMechanism :=
  {| Carbon.schemes := {[ "CBAM_EU" := cbam_eu ]} |}.

(** [sum(s**2 for s in shares)] over the shares, in percent, of the
    capacities [caps]. *)
Definition hhi_of (caps : list Q) : Q :=
  Supply.calculate_hhi (map (fun c => c / Supply.sum caps * 100) caps).

(** The global capacity of an item is in step with its regional
    capacities: for every unit, it is their sum. *)
Definition in_step (item : Supply.Item) : Prop :=
  forall suffix regional,
    item !! ("regional_capacity" ++ suffix) = Some (Supply.Capacities regional) ->
    exists x,
      item !! ("global_capacity" ++ suffix) = Some (Supply.Number x)
      /\ x == Supply.sum (map snd regional).

(** The yearly updates of the simulation engine, which passes no
    production volume. *)
Definition yearly_updates (years : list Z) : list Cost.operation :=
  map (fun year => Cost.UpdateForYear year None) years.

(** The surcharge that [update_for_year] asks the supply chain for. *)
Definition yearly_surcharge (scm : Cost.SupplyChainModel) : Q :=
  (Cost.material_adjustment scm "polysilicon").1
  + (Cost.concentration_adjustment scm "solar_modules").1.

(** * Properties *)

(** ** Numbers *)

Lemma Qeqb_true (a b : Q) : Qeqb a b = true <-> a == b.
Proof. apply Qeq_bool_iff. Qed.

Lemma Qeqb_false (a b : Q) : Qeqb a b = false <-> ~ a == b.
Proof.
  rewrite <- Qeqb_true. destruct (Qeqb a b); split; congruence.
Qed.

Lemma Qleb_true (a b : Q) : Qleb a b = true <-> a <= b.
Proof. apply Qle_bool_iff. Qed.

Lemma Qleb_false (a b : Q) : Qleb a b = false <-> b < a.
Proof.
  destruct (Qleb a b) eqn:E.
  - apply Qleb_true in E. split; [discriminate | intros Hlt; exfalso; lra].
  - split; [intros _ | reflexivity].
    apply Qnot_le_lt. intros Hle. apply Qleb_true in Hle. congruence.
Qed.

Lemma Qltb_true (a b : Q) : Qltb a b = true <-> a < b.
Proof.
  unfold Qltb. rewrite negb_true_iff. apply (Qleb_false b a).
Qed.

Lemma Qltb_false (a b : Q) : Qltb a b = false <-> b <= a.
Proof.
  unfold Qltb. rewrite negb_false_iff. apply (Qleb_true b a).
Qed.

Ltac Qbool :=
  repeat match goal with
  | H : Qeqb _ _ = true |- _ => apply Qeqb_true in H
  | H : Qeqb _ _ = false |- _ => apply Qeqb_false in H
  | H : Qleb _ _ = true |- _ => apply Qleb_true in H
  | H : Qleb _ _ = false |- _ => apply Qleb_false in H
  | H : Qltb _ _ = true |- _ => apply Qltb_true in H
  | H : Qltb _ _ = false |- _ => apply Qltb_false in H
  end.

Lemma bind_Returned {A B : Type} (m : outcome A) (k : A -> outcome B) (b : B) :
  m ≫= k = Returned b -> exists a, m = Returned a /\ k a = Returned b.
Proof. destruct m as [a | e]; [eauto | discriminate]. Qed.

Lemma bind_ret {A B : Type} (a : A) (k : A -> outcome B) : Returned a ≫= k = k a.
Proof. reflexivity. Qed.

Lemma py_div_Returned (a b q : Q) :
  py_div a b = Returned q -> ~ b == 0 /\ q = a / b.
Proof.
  unfold py_div. destruct (Qeqb b 0) eqn:Hb; [discriminate |].
  intros [= <-]. now apply Qeqb_false in Hb.
Qed.

Lemma py_div_nonzero (a b : Q) : ~ b == 0 -> py_div a b = Returned (a / b).
Proof.
  intros Hb. unfold py_div. apply Qeqb_false in Hb. now rewrite Hb.
Qed.

Lemma inject_Z_le (a b : Z) : (a <= b)%Z -> inject_Z a <= inject_Z b.
Proof. intros Hab. now rewrite <- Zle_Qle. Qed.

Lemma inject_Z_succ (a : Z) : inject_Z (a + 1) == inject_Z a + 1.
Proof. rewrite inject_Z_plus. reflexivity. Qed.

(** Rounding to the nearest integer is monotone. *)
Lemma round_half_even_mono (x y : Q) :
  x <= y -> (round_half_even x <= round_half_even y)%Z.
Proof.
  intros Hxy.
  pose proof (Qfloor_resp_le x y Hxy) as Hfl.
  pose proof (Qfloor_le x) as Hx1. pose proof (Qlt_floor x) as Hx2.
  pose proof (Qfloor_le y) as Hy1. pose proof (Qlt_floor y) as Hy2.
  rewrite inject_Z_succ in Hx2, Hy2.
  unfold round_half_even.
  destruct (Z.eq_dec (Qfloor x) (Qfloor y)) as [Heq | Hne].
  - rewrite <- Heq in *.
    destruct (Qcompare_spec (x - inject_Z (Qfloor x)) (1 # 2)) as [Hcx | Hcx | Hcx];
      destruct (Qcompare_spec (y - inject_Z (Qfloor x)) (1 # 2)) as [Hcy | Hcy | Hcy];
      try destruct (Z.even (Qfloor x)); try lia; exfalso; lra.
  - assert (Hlt : (Qfloor x + 1 <= Qfloor y)%Z) by lia.
    destruct (Qcompare (x - inject_Z (Qfloor x)) (1 # 2));
      destruct (Qcompare (y - inject_Z (Qfloor y)) (1 # 2));
      try destruct (Z.even (Qfloor x)); try destruct (Z.even (Qfloor y)); lia.
Qed.

Lemma scale_pos (n : nat) : 0 < inject_Z (10 ^ Z.of_nat n).
Proof.
  change 0 with (inject_Z 0). rewrite <- Zlt_Qlt. apply Z.pow_pos_nonneg; lia.
Qed.

(** [round(., n)] is monotone. *)
Lemma py_round_mono (x y : Q) (n : nat) : x <= y -> py_round x n <= py_round y n.
Proof.
  intros Hxy. unfold py_round.
  pose proof (scale_pos n) as Hs.
  set (s := inject_Z (10 ^ Z.of_nat n)) in *.
  assert (Hm : x * s <= y * s) by (apply Qmult_le_compat_r; lra).
  apply round_half_even_mono, inject_Z_le in Hm.
  unfold Qdiv. apply Qmult_le_compat_r; [exact Hm |].
  apply Qlt_le_weak, Qinv_lt_0_compat, Hs.
Qed.

Lemma round_half_even_Z (z : Z) : round_half_even (inject_Z z) = z.
Proof.
  unfold round_half_even. rewrite Qfloor_Z.
  destruct (Qcompare_spec (inject_Z z - inject_Z z) (1 # 2)) as [Hc | Hc | Hc];
    try reflexivity; exfalso; lra.
Qed.

Lemma round_half_even_comp (x y : Q) :
  x == y -> round_half_even x = round_half_even y.
Proof.
  intros Hxy. apply Z.le_antisymm; apply round_half_even_mono; lra.
Qed.

Lemma py_round_0 (n : nat) : py_round 0 n == 0.
Proof.
  unfold py_round.
  rewrite (round_half_even_comp (0 * inject_Z (10 ^ Z.of_nat n)) (inject_Z 0))
    by ring.
  rewrite round_half_even_Z. unfold Qdiv. ring.
Qed.

Lemma py_round_nonneg (x : Q) (n : nat) : 0 <= x -> 0 <= py_round x n.
Proof.
  intros Hx. rewrite <- (py_round_0 n). now apply py_round_mono.
Qed.

(** Powers of a base in [[0, 1]] do not grow with the exponent. *)
Lemma Qpower_antitone (q : Q) (n m : Z) :
  0 <= q -> q <= 1 -> (0 <= n <= m)%Z -> q ^ m <= q ^ n.
Proof.
  intros Hq0 Hq1 [Hn Hnm].
  replace m with (n + (m - n))%Z by lia.
  assert (Hk : (0 <= m - n)%Z) by lia.
  revert Hk. generalize (m - n)%Z as k.
  apply (natlike_ind (fun k => q ^ (n + k) <= q ^ n)).
  - rewrite Z.add_0_r. apply Qle_refl.
  - intros k Hk IH.
    replace (n + Z.succ k)%Z with ((n + k) + 1)%Z by lia.
    rewrite Qpower_plus' by lia.
    pose proof (Qpower_0_le q (n + k) Hq0) as Hp.
    assert (Hq : q ^ 1 == q) by (apply Qpower_1_r).
    rewrite Hq. nra.
Qed.

(** ** Doubles *)


Lemma two_power_pos (k : Z) : 0 < 2 ^ k.
Proof. apply Qpower_0_lt. reflexivity. Qed.

Lemma two_power_succ (k : Z) : 2 ^ (k + 1) == 2 * 2 ^ k.
Proof. rewrite Qpower_plus by discriminate. rewrite Qpower_1_r. ring. Qed.

Lemma two_power_mono (a b : Z) : (a <= b)%Z -> 2 ^ a <= 2 ^ b.
Proof. intros Hab. apply Qpower_le_compat_l; [exact Hab | discriminate]. Qed.

(** The bounds that [Z.log2] gives for a positive integer, in [Q]. *)
Lemma Zlog2_bounds (n : Z) :
  (0 < n)%Z -> 2 ^ Z.log2 n <= inject_Z n /\ inject_Z n < 2 * 2 ^ Z.log2 n.
Proof.
  intros Hn. destruct (Z.log2_spec n Hn) as [Hlo Hhi].
  pose proof (Z.log2_nonneg n) as H0.
  split.
  - rewrite <- (Zpower_Qpower 2 (Z.log2 n) H0). now apply inject_Z_le.
  - rewrite <- two_power_succ.
    rewrite <- (Zpower_Qpower 2 (Z.log2 n + 1)) by lia.
    rewrite <- Zlt_Qlt. exact Hhi.
Qed.

(** [ilog2 x] is the binary exponent of a positive [x]. *)
Lemma ilog2_spec (x : Q) : 0 < x -> 2 ^ ilog2 x <= x /\ x < 2 ^ (ilog2 x + 1).
Proof.
  intros Hx. unfold ilog2.
  destruct x as [n d]. 
  assert (Hn : (0 < n)%Z) by (unfold Qlt in Hx; cbn in Hx; lia).
  cbn [Qnum Qden].
  destruct (Zlog2_bounds n Hn) as [Hn1 Hn2].
  destruct (Zlog2_bounds (Z.pos d) eq_refl) as [Hd1 Hd2].
  pose proof (two_power_pos (Z.log2 n)) as Ha.
  pose proof (two_power_pos (Z.log2 (Z.pos d))) as Hb.
  assert (Hq : n # d == inject_Z n / inject_Z (Z.pos d)) by apply Qmake_Qdiv.
  assert (Hk : 2 ^ (Z.log2 n - Z.log2 (Z.pos d))
               == 2 ^ Z.log2 n / 2 ^ Z.log2 (Z.pos d))
    by (apply Qpower_minus; discriminate).
  assert (Hdpos : 0 < inject_Z (Z.pos d)) by reflexivity.
  destruct (Qle_bool (2 ^ (Z.log2 n - Z.log2 (Z.pos d))) (n # d)) eqn:Ht.
  - apply Qle_bool_iff in Ht. split; [exact Ht |].
    rewrite two_power_succ, Hk, Hq.
    apply Qlt_shift_div_r; [exact Hdpos |].
    setoid_replace (2 * (2 ^ Z.log2 n / 2 ^ Z.log2 (Z.pos d)) * inject_Z (Z.pos d))
      with ((2 * 2 ^ Z.log2 n) * (inject_Z (Z.pos d) / 2 ^ Z.log2 (Z.pos d)))
      using relation Qeq by (field; lra).
    assert (H1 : 1 <= inject_Z (Z.pos d) / 2 ^ Z.log2 (Z.pos d))
      by (apply Qle_shift_div_l; [exact Hb | lra]).
    nra.
  - assert (Hlt : n # d < 2 ^ (Z.log2 n - Z.log2 (Z.pos d))).
    { apply Qnot_le_lt. intros Hle. apply Qle_bool_iff in Hle. congruence. }
    replace (Z.log2 n - Z.log2 (Z.pos d) - 1 + 1)%Z
      with (Z.log2 n - Z.log2 (Z.pos d))%Z by lia.
    split; [| exact Hlt].
    assert (Hhalf : 2 ^ (Z.log2 n - Z.log2 (Z.pos d) - 1)
                    == 2 ^ Z.log2 n / (2 * 2 ^ Z.log2 (Z.pos d))).
    { rewrite Qpower_minus by discriminate. rewrite Hk, Qpower_1_r. field. lra. }
    rewrite Hhalf, Hq.
    apply Qle_shift_div_l; [exact Hdpos |].
    setoid_replace (2 ^ Z.log2 n / (2 * 2 ^ Z.log2 (Z.pos d)) * inject_Z (Z.pos d))
      with (2 ^ Z.log2 n * (inject_Z (Z.pos d) / (2 * 2 ^ Z.log2 (Z.pos d))))
      using relation Qeq by (field; lra).
    assert (H1 : inject_Z (Z.pos d) / (2 * 2 ^ Z.log2 (Z.pos d)) <= 1)
      by (apply Qle_shift_div_r; lra).
    nra.
Qed.

Lemma ilog2_unique (x : Q) (e : Z) : 2 ^ e <= x -> x < 2 ^ (e + 1) -> ilog2 x = e.
Proof.
  intros Hlo Hhi.
  assert (Hx : 0 < x) by (pose proof (two_power_pos e); lra).
  destruct (ilog2_spec x Hx) as [Hlo' Hhi'].
  destruct (Z.lt_trichotomy (ilog2 x) e) as [Hlt | [Heq | Hgt]]; [| exact Heq |].
  - pose proof (two_power_mono (ilog2 x + 1) e ltac:(lia)). lra.
  - pose proof (two_power_mono (e + 1) (ilog2 x) ltac:(lia)). lra.
Qed.

Lemma ilog2_comp (x y : Q) : 0 < x -> x == y -> ilog2 x = ilog2 y.
Proof.
  intros Hx Hxy. destruct (ilog2_spec x Hx) as [Hlo Hhi].
  symmetry. apply ilog2_unique; lra.
Qed.

Lemma ilog2_mono (x y : Q) : 0 < x -> x <= y -> (ilog2 x <= ilog2 y)%Z.
Proof.
  intros Hx Hxy.
  destruct (ilog2_spec x Hx) as [Hlo _].
  destruct (ilog2_spec y ltac:(lra)) as [_ Hhi].
  destruct (Z_le_gt_dec (ilog2 x) (ilog2 y)) as [Hle | Hgt]; [exact Hle |].
  pose proof (two_power_mono (ilog2 y + 1) (ilog2 x) ltac:(lia)). lra.
Qed.

Lemma inject_Z_pred (a : Z) : inject_Z (a - 1) == inject_Z a - 1.
Proof. unfold Z.sub. rewrite inject_Z_plus. reflexivity. Qed.

Lemma Qfloor_unique (x : Q) (z : Z) :
  inject_Z z <= x -> x < inject_Z (z + 1) -> Qfloor x = z.
Proof.
  intros Hlo Hhi.
  pose proof (Qfloor_resp_le _ _ Hlo) as H1. rewrite Qfloor_Z in H1.
  pose proof (Qfloor_le x) as H2.
  assert (H3 : inject_Z (Qfloor x) < inject_Z (z + 1)) by lra.
  rewrite <- Zlt_Qlt in H3. lia.
Qed.

Lemma round_half_even_opp (x : Q) : round_half_even (- x) = (- round_half_even x)%Z.
Proof.
  unfold round_half_even.
  pose proof (Qfloor_le x) as Hx1. pose proof (Qlt_floor x) as Hx2.
  rewrite inject_Z_succ in Hx2.
  destruct (Qeq_dec x (inject_Z (Qfloor x))) as [Hint | Hfrac].
  - assert (Hf : Qfloor (- x) = (- Qfloor x)%Z).
    { rewrite (Qfloor_comp (- x) (inject_Z (- Qfloor x))).
      - apply Qfloor_Z.
      - rewrite inject_Z_opp. rewrite Hint at 1. reflexivity. }
    rewrite Hf.
    destruct (Qcompare_spec (- x - inject_Z (- Qfloor x)) (1 # 2)) as [Hc | Hc | Hc];
      rewrite inject_Z_opp in Hc; try (exfalso; lra).
    destruct (Qcompare_spec (x - inject_Z (Qfloor x)) (1 # 2)) as [Hc' | Hc' | Hc'];
      try (exfalso; lra). reflexivity.
  - assert (Hf : Qfloor (- x) = (- Qfloor x - 1)%Z).
    { apply Qfloor_unique.
      - rewrite inject_Z_pred, inject_Z_opp. lra.
      - replace (- Qfloor x - 1 + 1)%Z with (- Qfloor x)%Z by lia.
        rewrite inject_Z_opp.
        assert (inject_Z (Qfloor x) < x) by (apply Qle_lteq in Hx1 as [H | H]; [exact H | exfalso; apply Hfrac; lra]).
        lra. }
    rewrite Hf.
    assert (He : Z.even (- Qfloor x - 1) = negb (Z.even (Qfloor x))).
    { replace (- Qfloor x - 1)%Z with (- (Qfloor x + 1))%Z by lia.
      rewrite Z.even_opp. replace (Qfloor x + 1)%Z with (Z.succ (Qfloor x)) by lia.
      rewrite Z.even_succ. now rewrite <- Z.negb_even. }
    rewrite He.
    destruct (Qcompare_spec (- x - inject_Z (- Qfloor x - 1)) (1 # 2)) as [Hc | Hc | Hc];
      rewrite inject_Z_pred, inject_Z_opp in Hc;
      destruct (Qcompare_spec (x - inject_Z (Qfloor x)) (1 # 2)) as [Hc' | Hc' | Hc'];
      try (exfalso; lra); try destruct (Z.even (Qfloor x)); cbn [negb]; lia.
Qed.

Lemma two_power_52 (e : Z) : 2 ^ e == inject_Z (2 ^ 52) * 2 ^ (e - 52).
Proof.
  rewrite (Zpower_Qpower 2 52) by lia.
  rewrite <- Qpower_plus by discriminate.
  replace (52 + (e - 52))%Z with e by lia. reflexivity.
Qed.

Lemma fl64_zero (x : Q) : x == 0 -> fl64 x == 0.
Proof.
  intros Hx. unfold fl64. generalize (2 ^ (ilog2 (Qabs x) - 52)). intros u.
  rewrite (round_half_even_comp _ (inject_Z 0)).
  - rewrite round_half_even_Z. ring.
  - rewrite Hx. unfold Qdiv. ring.
Qed.

Lemma Qabs_pos_lt (x : Q) : ~ x == 0 -> 0 < Qabs x.
Proof.
  intros Hx. pose proof (Qabs_nonneg x) as H0.
  apply Qle_lteq in H0 as [H0 | H0]; [exact H0 |].
  exfalso. apply Hx. symmetry in H0. revert H0. apply Qabs_case; intros; lra.
Qed.

(** [fl64] respects the equality of rationals. *)
Lemma fl64_comp (x y : Q) : x == y -> fl64 x == fl64 y.
Proof.
  intros Hxy. destruct (Qeq_dec x 0) as [Hx | Hx].
  - rewrite (fl64_zero x Hx), (fl64_zero y); [reflexivity | lra].
  - unfold fl64.
    assert (He : ilog2 (Qabs x) = ilog2 (Qabs y)).
    { apply ilog2_comp; [now apply Qabs_pos_lt | now rewrite Hxy]. }
    rewrite <- He. generalize (2 ^ (ilog2 (Qabs x) - 52)). intros u.
    rewrite (round_half_even_comp (x / u) (y / u)); [reflexivity |].
    now rewrite Hxy.
Qed.

Lemma fl64_opp (x : Q) : fl64 (- x) == - fl64 x.
Proof.
  destruct (Qeq_dec x 0) as [Hx | Hx].
  - rewrite (fl64_zero x Hx), (fl64_zero (- x)); lra.
  - unfold fl64.
    assert (He : ilog2 (Qabs (- x)) = ilog2 (Qabs x)).
    { apply ilog2_comp; [apply Qabs_pos_lt; lra | apply Qabs_opp]. }
    rewrite He. generalize (2 ^ (ilog2 (Qabs x) - 52)). intros u.
    rewrite (round_half_even_comp (- x / u) (- (x / u)))
      by (unfold Qdiv; ring).
    rewrite round_half_even_opp, inject_Z_opp. ring.
Qed.

(** For a positive [x], [fl64 x] stays in the binade of [x], its upper end
    included. *)
Lemma fl64_binade (x : Q) :
  0 < x -> 2 ^ ilog2 x <= fl64 x /\ fl64 x <= 2 ^ (ilog2 x + 1).
Proof.
  intros Hx. destruct (ilog2_spec x Hx) as [Hlo Hhi].
  unfold fl64.
  assert (He : ilog2 (Qabs x) = ilog2 x).
  { apply ilog2_comp; [apply Qabs_pos_lt; lra | apply Qabs_pos; lra]. }
  rewrite He.
  pose proof (two_power_pos (ilog2 x - 52)) as Hu.
  pose proof (two_power_52 (ilog2 x)) as H52.
  pose proof (two_power_succ (ilog2 x)) as Hs.
  set (u := 2 ^ (ilog2 x - 52)) in *.
  assert (H1 : inject_Z (2 ^ 52) <= x / u)
    by (apply Qle_shift_div_l; [exact Hu | lra]).
  assert (H2 : x / u <= inject_Z (2 ^ 53)).
  { apply Qle_shift_div_r; [exact Hu |].
    change (inject_Z (2 ^ 53)) with (2 * inject_Z (2 ^ 52)). lra. }
  apply round_half_even_mono in H1, H2.
  rewrite round_half_even_Z in H1, H2.
  apply inject_Z_le in H1, H2.
  change (inject_Z (2 ^ 53)) with (2 * inject_Z (2 ^ 52)) in H2.
  split; nra.
Qed.

Lemma fl64_nonneg (x : Q) : 0 <= x -> 0 <= fl64 x.
Proof.
  intros Hx. apply Qle_lteq in Hx as [Hx | Hx].
  - destruct (fl64_binade x Hx) as [Hlo _].
    pose proof (two_power_pos (ilog2 x)). lra.
  - rewrite fl64_zero; [lra | now symmetry].
Qed.

Lemma fl64_pos (x : Q) : 0 < x -> 0 < fl64 x.
Proof.
  intros Hx. destruct (fl64_binade x Hx) as [Hlo _].
  pose proof (two_power_pos (ilog2 x)). lra.
Qed.

Lemma fl64_mono_pos (x y : Q) : 0 < x -> x <= y -> fl64 x <= fl64 y.
Proof.
  intros Hx Hxy.
  assert (Hy : 0 < y) by lra.
  pose proof (ilog2_mono x y Hx Hxy) as He.
  destruct (Z.eq_dec (ilog2 x) (ilog2 y)) as [Heq | Hne].
  - unfold fl64.
    rewrite (ilog2_comp (Qabs x) x), (ilog2_comp (Qabs y) y);
      try (apply Qabs_pos; lra); try (apply Qabs_pos_lt; lra).
    rewrite Heq.
    pose proof (two_power_pos (ilog2 y - 52)) as Hu.
    set (u := 2 ^ (ilog2 y - 52)) in *.
    assert (H : x / u <= y / u).
    { unfold Qdiv. apply Qmult_le_compat_r; [exact Hxy |].
      apply Qlt_le_weak, Qinv_lt_0_compat, Hu. }
    apply round_half_even_mono, inject_Z_le in H. nra.
  - destruct (fl64_binade x Hx) as [_ Hhi].
    destruct (fl64_binade y Hy) as [Hlo _].
    pose proof (two_power_mono (ilog2 x + 1) (ilog2 y) ltac:(lia)). lra.
Qed.

(** Rounding to the nearest double is monotone. *)
Lemma fl64_mono (x y : Q) : x <= y -> fl64 x <= fl64 y.
Proof.
  intros Hxy. destruct (Qlt_le_dec 0 x) as [Hx | Hx].
  - now apply fl64_mono_pos.
  - destruct (Qlt_le_dec y 0) as [Hy | Hy].
    + assert (H : fl64 (- y) <= fl64 (- x)) by (apply fl64_mono_pos; lra).
      rewrite !fl64_opp in H. lra.
    + assert (H1 : 0 <= fl64 y) by now apply fl64_nonneg.
      assert (H2 : 0 <= fl64 (- x)) by (apply fl64_nonneg; lra).
      rewrite fl64_opp in H2. lra.
Qed.

(** An integer below [2 ^ 53] in absolute value is a double. *)
Lemma fl64_one : fl64 1 == 1.
Proof. vm_compute. reflexivity. Qed.

(** [1 + r] for a rate [r] of at most [2 ^ -53] is rounded to [1]: the
    rate is absorbed. *)
Lemma fl64_absorbs (r : Q) : 0 <= r -> r <= 2 ^ (-53) -> fl64 (1 + r) == 1.
Proof.
  intros H0 H1. apply Qle_antisym.
  - assert (H : fl64 (1 + r) <= fl64 (1 + 2 ^ (-53))) by (apply fl64_mono; lra).
    assert (Hc : fl64 (1 + 2 ^ (-53)) == 1) by (vm_compute; reflexivity).
    lra.
  - rewrite <- fl64_one at 1. apply fl64_mono. lra.
Qed.

Lemma round_half_even_above (x : Q) (n : Z) :
  inject_Z n + (1 # 2) < x -> (n + 1 <= round_half_even x)%Z.
Proof.
  intros Hx.
  assert (Hn : inject_Z n <= x) by lra.
  pose proof (Qfloor_resp_le _ _ Hn) as Hf. rewrite Qfloor_Z in Hf.
  unfold round_half_even.
  destruct (Z.eq_dec (Qfloor x) n) as [-> | Hne].
  - destruct (Qcompare_spec (x - inject_Z n) (1 # 2)) as [Hc | Hc | Hc];
      try (exfalso; lra). lia.
  - destruct (Qcompare (x - inject_Z (Qfloor x)) (1 # 2));
      try destruct (Z.even (Qfloor x)); lia.
Qed.

(** A rate above [2 ^ -53] is not absorbed. *)
Lemma fl64_not_absorbed (r : Q) : 2 ^ (-53) < r -> 1 + 2 ^ (-52) <= fl64 (1 + r).
Proof.
  intros Hr. destruct (Qlt_le_dec (1 + r) 2) as [Hlt | Hge].
  - assert (He : ilog2 (1 + r) = 0%Z).
    { apply ilog2_unique; [| exact Hlt].
      assert (0 < 2 ^ (-53)) by apply two_power_pos.
      change (2 ^ 0) with 1. lra. }
    assert (Hpos : 0 < 2 ^ (-53)) by apply two_power_pos.
    unfold fl64.
    rewrite (ilog2_comp (Qabs (1 + r)) (1 + r));
      [| apply Qabs_pos_lt; lra | apply Qabs_pos; lra].
    rewrite He.
    assert (Hx : inject_Z (2 ^ 52) + (1 # 2) < (1 + r) / 2 ^ (0 - 52)).
    { apply Qlt_shift_div_l; [apply two_power_pos |].
      assert (Hc : (inject_Z (2 ^ 52) + (1 # 2)) * 2 ^ (0 - 52) == 1 + 2 ^ (-53))
        by (vm_compute; reflexivity).
      lra. }
    apply round_half_even_above, inject_Z_le in Hx.
    assert (Hc : inject_Z (2 ^ 52 + 1) * 2 ^ (0 - 52) == 1 + 2 ^ (-52))
      by (vm_compute; reflexivity).
    rewrite <- Hc.
    apply Qmult_le_compat_r; [exact Hx | apply Qlt_le_weak, two_power_pos].
  - assert (H : fl64 2 <= fl64 (1 + r)) by now apply fl64_mono.
    assert (Hc : fl64 2 == 2) by (vm_compute; reflexivity).
    assert (Hd : 1 + 2 ^ (-52) <= 2) by (vm_compute; congruence).
    lra.
Qed.

(** ** Technology evolution *)

Section SolarTechnologyFacts.

Variables (n : string) (be pe : Q) (sy cy : Z) (dr bc rr : Q).

Let tech : SolarTech.SolarTechnology := SolarTech.init n be pe sy cy dr bc rr.

Lemma improvement_nonneg : 0 <= SolarTech.annual_efficiency_improvement tech.
Proof.
  subst tech. cbn.
  destruct (2035 <? sy)%Z eqn:Hs; [lra |].
  destruct (Qleb pe be) eqn:Hb; cbn; [lra |].
  destruct (sy =? 2035)%Z eqn:He; [lra |].
  Qbool. apply Z.ltb_ge in Hs. apply Z.eqb_neq in He.
  apply Qle_shift_div_l.
  - change 0 with (inject_Z 0). rewrite <- Zlt_Qlt. lia.
  - lra.
Qed.

Lemma current_efficiency_le_projected (y : Z) :
  be <= pe -> SolarTech.current_efficiency tech y <= pe.
Proof.
  intros Hbe. unfold SolarTech.current_efficiency. subst tech. cbn.
  destruct (y <? sy)%Z; [exact Hbe |].
  destruct (2035 <=? y)%Z; [apply Qle_refl |].
  apply Q.le_min_r.
Qed.

Lemma current_efficiency_mono (y1 y2 : Z) :
  be <= pe -> (y1 <= y2)%Z -> (y2 < 2035)%Z ->
  SolarTech.current_efficiency tech y1 <= SolarTech.current_efficiency tech y2.
Proof.
  intros Hbe H12 H2.
  pose proof improvement_nonneg as Hi.
  unfold SolarTech.current_efficiency.
  set (a := SolarTech.annual_efficiency_improvement tech) in *.
  replace (SolarTech.base_efficiency tech) with be by reflexivity.
  replace (SolarTech.projected_efficiency_2035 tech) with pe by reflexivity.
  replace (SolarTech.start_year tech) with sy by reflexivity.
  replace (2035 <=? y1)%Z with false by (symmetry; apply Z.leb_gt; lia).
  replace (2035 <=? y2)%Z with false by (symmetry; apply Z.leb_gt; lia).
  destruct (y1 <? sy)%Z eqn:H1s; destruct (y2 <? sy)%Z eqn:H2s.
  - apply Qle_refl.
  - apply Z.ltb_ge in H2s. apply Q.min_glb; [| exact Hbe].
    assert (0 <= inject_Z (y2 - sy)).
    { change 0 with (inject_Z 0). apply inject_Z_le. lia. }
    nra.
  - apply Z.ltb_ge in H1s. apply Z.ltb_lt in H2s. lia.
  - apply Z.ltb_ge in H1s.
    assert (Hyy : inject_Z (y1 - sy) <= inject_Z (y2 - sy)) by (apply inject_Z_le; lia).
    apply Q.min_glb; [| apply Q.le_min_r].
    eapply Qle_trans; [apply Q.le_min_l |]. nra.
Qed.

Lemma current_capex_nonneg (y : Z) :
  0 <= bc -> 0 <= SolarTech.current_capex tech y.
Proof.
  intros Hbc. unfold SolarTech.current_capex. subst tech. cbn.
  destruct (y <? sy)%Z; [exact Hbc | apply Q.le_max_r].
Qed.

Lemma current_capex_antitone (y1 y2 : Z) :
  0 <= bc -> 0 <= rr -> rr <= 1 -> (y1 <= y2)%Z ->
  SolarTech.current_capex tech y2 <= SolarTech.current_capex tech y1.
Proof.
  intros Hbc Hr0 Hr1 H12. unfold SolarTech.current_capex. subst tech. cbn.
  assert (Hq0 : 0 <= 1 - rr) by lra. assert (Hq1 : 1 - rr <= 1) by lra.
  destruct (y1 <? sy)%Z eqn:H1s; destruct (y2 <? sy)%Z eqn:H2s.
  - apply Qle_refl.
  - apply Z.ltb_ge in H2s. apply Q.max_lub; [| exact Hbc].
    pose proof (Qpower_antitone (1 - rr) 0 (y2 - sy) Hq0 Hq1 ltac:(lia)) as Hp.
    change ((1 - rr) ^ 0) with 1 in Hp. nra.
  - apply Z.ltb_ge in H1s. apply Z.ltb_lt in H2s. lia.
  - apply Z.ltb_ge in H1s. apply Z.ltb_ge in H2s.
    pose proof (Qpower_antitone (1 - rr) (y1 - sy) (y2 - sy) Hq0 Hq1 ltac:(lia)) as Hp.
    apply Q.max_lub; [| apply Q.le_max_r].
    eapply Qle_trans; [| apply Q.le_max_l]. nra.
Qed.

End SolarTechnologyFacts.

(** C3, as stated, fails on the code.  Technology [T] has a base
    efficiency above its 2035 projection: before its start year it reports
    the base efficiency, which exceeds the projection, and the reported
    efficiency then drops at the start year.  Technology [R] has a
    projection with five decimals: the efficiency reported for 2035 is the
    projection rounded to four decimals, which is larger. *)
Lemma efficiency_exceeds_projection :
  let t := SolarTech.init "T" (3 # 10) (2 # 10) 2020 2020 (5 # 1000) 1000 (2 # 100) in
  let r := SolarTech.init "R" (2 # 10) (26506 # 100000) 2020 2020 (5 # 1000) 1000
             (2 # 100) in
  ((SolarTech.start_year t <= 2035)%Z
   /\ SolarTech.projected_efficiency_2035 t
      < SolarTech.efficiency (SolarTech.get_params_for_year t 2019)
   /\ SolarTech.efficiency (SolarTech.get_params_for_year t 2020)
      < SolarTech.efficiency (SolarTech.get_params_for_year t 2019))
  /\ ((SolarTech.start_year r <= 2035)%Z
      /\ SolarTech.projected_efficiency_2035 r
         < SolarTech.efficiency (SolarTech.get_params_for_year r 2035)).
Proof. vm_compute. repeat split; congruence. Qed.

(** C3, amended.  For a technology built by [SolarTechnology.__init__]
    with [start_year <= 2035] and a base efficiency that does not exceed
    the 2035 projection: the efficiency computed for any year is at most
    the projection, so the efficiency reported by [get_params_for_year] is
    at most the projection rounded to four decimals; and for years
    [y1 <= y2 < 2035] the reported efficiency of [y1] is at most that of
    [y2]. *)
Theorem efficiency_bounded_and_monotone (n : string) (be pe : Q) (sy cy : Z)
    (dr bc rr : Q) :
  let t := SolarTech.init n be pe sy cy dr bc rr in
  (sy <= 2035)%Z -> be <= pe ->
  (forall y : Z,
      SolarTech.current_efficiency t y <= SolarTech.projected_efficiency_2035 t
      /\ SolarTech.efficiency (SolarTech.get_params_for_year t y)
         <= py_round (SolarTech.projected_efficiency_2035 t) 4)
  /\ (forall y1 y2 : Z, (y1 <= y2)%Z -> (y2 < 2035)%Z ->
        SolarTech.efficiency (SolarTech.get_params_for_year t y1)
        <= SolarTech.efficiency (SolarTech.get_params_for_year t y2)).
Proof.
  intros t Hsy Hbe. split.
  - intros y.
    pose proof (current_efficiency_le_projected n be pe sy cy dr bc rr y Hbe) as Hc.
    split; [exact Hc |]. cbn. now apply py_round_mono.
  - intros y1 y2 H12 H2. cbn. apply py_round_mono.
    now apply current_efficiency_mono.
Qed.

Lemma efficiency_bounded_and_monotone_witness :
  ((2023 <= 2035)%Z /\ (225 # 1000) <= (265 # 1000))
  /\ (forall y : Z,
        SolarTech.current_efficiency topcon y <= SolarTech.projected_efficiency_2035 topcon
        /\ SolarTech.efficiency (SolarTech.get_params_for_year topcon y)
           <= py_round (SolarTech.projected_efficiency_2035 topcon) 4)
  /\ (forall y1 y2 : Z, (y1 <= y2)%Z -> (y2 < 2035)%Z ->
        SolarTech.efficiency (SolarTech.get_params_for_year topcon y1)
        <= SolarTech.efficiency (SolarTech.get_params_for_year topcon y2)).
Proof.
  assert (Hsy : (2023 <= 2035)%Z) by lia.
  assert (Hbe : (225 # 1000) <= (265 # 1000)) by (vm_compute; congruence).
  split; [split; assumption |].
  exact (efficiency_bounded_and_monotone "TOPCon" (225 # 1000) (265 # 1000) 2023
           2022 (4 # 1000) 700 (3 # 100) Hsy Hbe).
Defined.

(** C9, as stated, fails on the code.  With a negative reduction rate the
    capital cost grows from one year to the next; with a negative base
    cost the capital cost reported for a year before the start year is
    negative. *)
Lemma capex_increases_or_negative :
  let g := SolarTech.init "G" (2 # 10) (3 # 10) 2020 2020 (5 # 1000) 1000 (- (1 # 10)) in
  let m := SolarTech.init "M" (2 # 10) (3 # 10) 2020 2020 (5 # 1000) (- (100)) (2 # 100) in
  ((2020 <= 2021)%Z
   /\ SolarTech.capex_usd_per_kw (SolarTech.get_params_for_year g 2020)
      < SolarTech.capex_usd_per_kw (SolarTech.get_params_for_year g 2021))
  /\ SolarTech.capex_usd_per_kw (SolarTech.get_params_for_year m 2019) < 0.
Proof. vm_compute. repeat split; congruence. Qed.

(** C9, amended.  For a technology built by [SolarTechnology.__init__]
    with a base capital cost [>= 0] and an annual reduction rate in
    [[0, 1]]: the capital cost reported by [get_params_for_year] does not
    grow with the year and is never negative. *)
Theorem capex_antitone_and_nonneg (n : string) (be pe : Q) (sy cy : Z)
    (dr bc rr : Q) :
  let t := SolarTech.init n be pe sy cy dr bc rr in
  0 <= bc -> 0 <= rr -> rr <= 1 ->
  (forall y1 y2 : Z, (y1 <= y2)%Z ->
      SolarTech.capex_usd_per_kw (SolarTech.get_params_for_year t y2)
      <= SolarTech.capex_usd_per_kw (SolarTech.get_params_for_year t y1))
  /\ (forall y : Z, 0 <= SolarTech.capex_usd_per_kw (SolarTech.get_params_for_year t y)).
Proof.
  intros t Hbc Hr0 Hr1. split.
  - intros y1 y2 H12. cbn. apply py_round_mono.
    now apply current_capex_antitone.
  - intros y. cbn. apply py_round_nonneg.
    now apply current_capex_nonneg.
Qed.

Lemma capex_antitone_and_nonneg_witness :
  (0 <= 700 /\ 0 <= (3 # 100) /\ (3 # 100) <= 1)
  /\ (forall y1 y2 : Z, (y1 <= y2)%Z ->
        SolarTech.capex_usd_per_kw (SolarTech.get_params_for_year topcon y2)
        <= SolarTech.capex_usd_per_kw (SolarTech.get_params_for_year topcon y1))
  /\ (forall y : Z,
        0 <= SolarTech.capex_usd_per_kw (SolarTech.get_params_for_year topcon y)).
Proof.
  assert (Hbc : 0 <= 700) by (vm_compute; congruence).
  assert (Hr0 : 0 <= (3 # 100)) by (vm_compute; congruence).
  assert (Hr1 : (3 # 100) <= 1) by (vm_compute; congruence).
  split; [repeat split; assumption |].
  exact (capex_antitone_and_nonneg "TOPCon" (225 # 1000) (265 # 1000) 2023 2022
           (4 # 1000) 700 (3 # 100) Hbc Hr0 Hr1).
Defined.

(** ** Cost model: the ledger of component costs *)


Lemma total_capex_sum (costs : gmap string Q) :
  Cost.total_capex costs == sum_of_components costs.
Proof. unfold Cost.total_capex, sum_of_components. cbn. ring. Qed.


Lemma total_capex_insert_other (costs : gmap string Q) (key : string) (v : Q) :
  key ∉ Cost.CAPEX_COMPONENT_KEYS ->
  Cost.total_capex (<[key := v]> costs) = Cost.total_capex costs.
Proof.
  intros Hk. unfold Cost.CAPEX_COMPONENT_KEYS in Hk.
  repeat (apply not_elem_of_cons in Hk; destruct Hk as [? Hk]).
  unfold Cost.total_capex, Cost.get0. cbn.
  rewrite !lookup_insert_ne by congruence. reflexivity.
Qed.

Lemma capex_key_not_component : "capex_per_kw" ∉ Cost.CAPEX_COMPONENT_KEYS.
Proof.
  unfold Cost.CAPEX_COMPONENT_KEYS.
  repeat (apply not_elem_of_cons; split; [discriminate |]). apply not_elem_of_nil.
Qed.

Lemma opex_key_not_component : "opex_per_kw_year" ∉ Cost.CAPEX_COMPONENT_KEYS.
Proof.
  unfold Cost.CAPEX_COMPONENT_KEYS.
  repeat (apply not_elem_of_cons; split; [discriminate |]). apply not_elem_of_nil.
Qed.

Lemma recalculate_capex_is_total (self : Cost.CostModel) :
  capex_is_total (Cost._recalculate_total_capex self).
Proof.
  unfold capex_is_total, Cost._recalculate_total_capex, Cost.set_current_costs.
  cbn [Cost.current_costs].
  rewrite lookup_insert_eq.
  now rewrite total_capex_insert_other by apply capex_key_not_component.
Qed.

Lemma init_capex_is_total name costs lr v0 scm stm :
  capex_is_total (Cost.init name costs lr v0 scm stm).
Proof.
  unfold capex_is_total, Cost.init, Cost._recalculate_total_capex,
    Cost.set_current_costs.
  cbn [Cost.current_costs].
  rewrite lookup_insert_eq.
  now rewrite total_capex_insert_other by apply capex_key_not_component.
Qed.

(** Every update of a component other than the total keeps the invariant. *)
Lemma update_cost_component_capex_is_total (self : Cost.CostModel)
    (component_name : string) (new_value : Q) :
  component_name <> "capex_per_kw" ->
  capex_is_total self ->
  capex_is_total (Cost.update_cost_component self component_name new_value).1.
Proof.
  intros Hne Hinv. unfold Cost.update_cost_component.
  case_bool_decide; [| exact Hinv].
  case_bool_decide; cbn [fst].
  - apply recalculate_capex_is_total.
  - unfold capex_is_total, Cost.set_current_costs. cbn [Cost.current_costs].
    rewrite lookup_insert_ne by congruence.
    now rewrite total_capex_insert_other.
Qed.

Lemma update_opex_cost_capex_is_total (self : Cost.CostModel) (v : Q) :
  capex_is_total self -> capex_is_total (Cost.update_opex_cost self v).1.
Proof.
  intros Hinv. unfold Cost.update_opex_cost.
  case_bool_decide; [| exact Hinv].
  unfold capex_is_total, Cost.set_current_costs. cbn [fst Cost.current_costs].
  rewrite lookup_insert_ne by discriminate.
  now rewrite total_capex_insert_other by apply opex_key_not_component.
Qed.

Lemma adjust_costs_capex_is_total (self : Cost.CostModel) (a b : string) :
  capex_is_total self ->
  capex_is_total (Cost.adjust_costs_based_on_supply_chain self a b).1.
Proof.
  intros Hinv. unfold Cost.adjust_costs_based_on_supply_chain.
  destruct (Cost.supply_chain_model self) as [scm |]; [| exact Hinv].
  destruct (Cost.current_costs self !! "module_usd_per_kw") as [c |]; [| exact Hinv].
  destruct (Cost.material_adjustment scm a) as [m log1].
  destruct (Cost.concentration_adjustment scm b) as [k log2].
  destruct (Qltb 0 (m + k)); [| exact Hinv].
  pose proof (update_cost_component_capex_is_total self "module_usd_per_kw"
                (c * (1 + (m + k))) ltac:(discriminate) Hinv) as Hu.
  destruct (Cost.update_cost_component self "module_usd_per_kw" (c * (1 + (m + k)))).
  exact Hu.
Qed.

Section LedgerFacts.
Context `{MathLib}.

Lemma apply_learning_curve_capex_is_total (self self' : Cost.CostModel) (v : Q)
    (log : list log_record) :
  capex_is_total self ->
  Cost.apply_learning_curve self v = Returned (self', log) ->
  capex_is_total self'.
Proof.
  intros Hinv Happ. unfold Cost.apply_learning_curve in Happ.
  destruct (Qleb v (Cost.current_production_volume self)).
  - injection Happ as <- _. exact Hinv.
  - apply bind_Returned in Happ as (ln & _ & Happ).
    apply bind_Returned in Happ as (l2 & _ & Happ).
    apply bind_Returned in Happ as (e & _ & Happ).
    apply bind_Returned in Happ as ([costs lg] & _ & Happ).
    injection Happ as <- _.
    apply (recalculate_capex_is_total (Cost.set_current_costs self costs)).
Qed.

Lemma update_for_year_capex_is_total (self self' : Cost.CostModel) (y : Z)
    (v : option Q) (log : list log_record) :
  capex_is_total self ->
  Cost.update_for_year self y v = Returned (self', log) ->
  capex_is_total self'.
Proof.
  intros Hinv Hupd. unfold Cost.update_for_year in Hupd.
  apply bind_Returned in Hupd as ([s l] & Hfirst & Hupd).
  assert (Hs : capex_is_total s).
  { destruct v as [v0 |].
    - destruct (Qltb (Cost.current_production_volume self) v0).
      + now apply (apply_learning_curve_capex_is_total self s v0 l).
      + injection Hfirst as <- _. exact Hinv.
    - injection Hfirst as <- _. exact Hinv. }
  destruct (Cost.supply_chain_model s).
  - pose proof (adjust_costs_capex_is_total s "polysilicon" "solar_modules" Hs) as Ha.
    destruct (Cost.adjust_costs_based_on_supply_chain s "polysilicon" "solar_modules").
    injection Hupd as <- _. exact Ha.
  - injection Hupd as <- _. exact Hs.
Qed.

(** The invariant survives every call that does not name the total itself
    as the component to update. *)
Lemma call_capex_is_total (self self' : Cost.CostModel) (op : Cost.operation)
    (log : list log_record) :
  (forall v, op <> Cost.UpdateCostComponent "capex_per_kw" v) ->
  capex_is_total self ->
  Cost.call self op = Returned (self', log) ->
  capex_is_total self'.
Proof.
  intros Hop Hinv. destruct op as [c v | v | v | a b | y v]; cbn.
  - intros [= Hc].
    assert (Hne : c <> "capex_per_kw") by (intros ->; now apply (Hop v)).
    pose proof (update_cost_component_capex_is_total self c v Hne Hinv) as Hu.
    destruct (Cost.update_cost_component self c v). injection Hc as <- _. exact Hu.
  - now apply apply_learning_curve_capex_is_total.
  - intros [= Hc].
    pose proof (update_opex_cost_capex_is_total self v Hinv) as Hu.
    destruct (Cost.update_opex_cost self v). injection Hc as <- _. exact Hu.
  - intros [= Hc].
    pose proof (adjust_costs_capex_is_total self a b Hinv) as Hu.
    destruct (Cost.adjust_costs_based_on_supply_chain self a b).
    injection Hc as <- _. exact Hu.
  - now apply update_for_year_capex_is_total.
Qed.

End LedgerFacts.

(** C2: the claim holds for the constructor and for every call except one
    ([init_capex_is_total], [call_capex_is_total]); the code breaks it when
    [update_cost_component] is called with the name of the total itself.
    On the ledger of the unit tests, whose components sum to 600,
    [update_cost_component('capex_per_kw', 1000)] stores 1000 as the total
    and does not recompute it. *)
Theorem update_cost_component_overwrites_total :
  let self := (Cost.update_cost_component cost_model_pv "capex_per_kw" 1000).1 in
  Cost.current_costs cost_model_pv !! "capex_per_kw" = Some 600
  /\ Cost.current_costs self !! "capex_per_kw" = Some 1000
  /\ sum_of_components (Cost.current_costs self) == 600
  /\ ~ capex_is_total self.
Proof.
  cbn zeta. split; [| split; [| split]].
  - vm_compute. reflexivity.
  - vm_compute. reflexivity.
  - vm_compute. reflexivity.
  - unfold capex_is_total. vm_compute. intros Heq. discriminate Heq.
Qed.

(** ** Cost model: the learning curve *)


Lemma same_baseline_refl (a : Cost.CostModel) : same_baseline a a.
Proof. repeat split; auto. Qed.

Lemma same_baseline_trans (a b c : Cost.CostModel) :
  same_baseline a b -> same_baseline b c -> same_baseline a c.
Proof.
  intros (Hs1 & Hl1 & Hv1 & Hd1) (Hs2 & Hl2 & Hv2 & Hd2).
  repeat split; try congruence. auto.
Qed.

Lemma is_Some_insert_mono (costs : gmap string Q) (key k : string) (v : Q) :
  is_Some (costs !! k) -> is_Some (<[key := v]> costs !! k).
Proof.
  intros Hk. destruct (decide (key = k)) as [-> | Hne].
  - rewrite lookup_insert_eq. eauto.
  - now rewrite lookup_insert_ne.
Qed.

Lemma set_current_costs_baseline (self : Cost.CostModel) (costs : gmap string Q) :
  (forall k, is_Some (Cost.current_costs self !! k) -> is_Some (costs !! k)) ->
  same_baseline self (Cost.set_current_costs self costs).
Proof. intros Hd. repeat split; auto. Qed.

Lemma recalculate_baseline (self : Cost.CostModel) :
  same_baseline self (Cost._recalculate_total_capex self).
Proof.
  apply set_current_costs_baseline. intros k. apply is_Some_insert_mono.
Qed.

Lemma update_cost_component_baseline (self : Cost.CostModel) (c : string) (v : Q) :
  same_baseline self (Cost.update_cost_component self c v).1.
Proof.
  unfold Cost.update_cost_component.
  case_bool_decide; [| apply same_baseline_refl].
  assert (Hset : same_baseline self
                   (Cost.set_current_costs self (<[c := v]> (Cost.current_costs self)))).
  { apply set_current_costs_baseline. intros k. apply is_Some_insert_mono. }
  case_bool_decide; cbn [fst]; [| exact Hset].
  eapply same_baseline_trans; [exact Hset | apply recalculate_baseline].
Qed.

Lemma update_opex_cost_baseline (self : Cost.CostModel) (v : Q) :
  same_baseline self (Cost.update_opex_cost self v).1.
Proof.
  unfold Cost.update_opex_cost. case_bool_decide; [| apply same_baseline_refl].
  apply set_current_costs_baseline. intros k. apply is_Some_insert_mono.
Qed.

Lemma adjust_costs_baseline (self : Cost.CostModel) (a b : string) :
  same_baseline self (Cost.adjust_costs_based_on_supply_chain self a b).1.
Proof.
  unfold Cost.adjust_costs_based_on_supply_chain.
  destruct (Cost.supply_chain_model self) as [scm |]; [| apply same_baseline_refl].
  destruct (Cost.current_costs self !! "module_usd_per_kw") as [c |];
    [| apply same_baseline_refl].
  destruct (Cost.material_adjustment scm a) as [m log1].
  destruct (Cost.concentration_adjustment scm b) as [k log2].
  destruct (Qltb 0 (m + k)); [| apply same_baseline_refl].
  pose proof (update_cost_component_baseline self "module_usd_per_kw"
                (c * (1 + (m + k)))) as Hu.
  destruct (Cost.update_cost_component self "module_usd_per_kw" (c * (1 + (m + k)))).
  exact Hu.
Qed.

Section LearningCurveFacts.
Context `{MathLib}.

Lemma py_pow_Returned (b e f : Q) : py_pow b e = Returned f -> f = float_pow b e.
Proof.
  unfold py_pow. destruct (Qeqb b 0 && Qltb e 0); [discriminate |].
  now intros [= <-].
Qed.

(** The loop over the component keys: it removes no key, leaves the keys
    it does not visit alone, and gives every visited key that has a
    snapshot cost that cost times the learning factor. *)
Lemma learn_items_spec (self : Cost.CostModel) (v e : Q) (keys : list string) :
  forall (costs costs' : gmap string Q) (log log' : list log_record),
    Cost.learn_items self v e keys (costs, log) = Returned (costs', log') ->
    (forall k, is_Some (costs !! k) -> is_Some (costs' !! k))
    /\ (forall k, k ∉ keys -> costs' !! k = costs !! k)
    /\ (forall k c0, k ∈ keys ->
          Cost.initial_costs_snapshot self !! k = Some c0 ->
          is_Some (costs !! k) ->
          costs' !! k
          = Some (c0 * float_pow (v / Cost.initial_production_volume self) e)).
Proof.
  induction keys as [| key rest IH]; intros costs costs' log log' Hrun.
  - injection Hrun as <- <-. repeat split; auto.
    intros k c0 Hk. now apply elem_of_nil in Hk.
  - cbn [Cost.learn_items] in Hrun.
    apply bind_Returned in Hrun as ([costs1 log1] & Hitem & Hrest).
    destruct (IH _ _ _ _ Hrest) as (Hdom & Hother & Hvisited).
    unfold Cost.learn_item in Hitem.
    destruct (Cost.initial_costs_snapshot self !! key) as [c |] eqn:Hsnap.
    + case_bool_decide as Hpresent.
      * apply bind_Returned in Hitem as (ratio & Hratio & Hitem).
        apply bind_Returned in Hitem as (factor & Hfactor & Hitem).
        apply py_div_Returned in Hratio as [_ ->].
        apply py_pow_Returned in Hfactor as ->.
        injection Hitem as <- <-.
        split; [| split].
        -- intros k Hk. apply Hdom. now apply is_Some_insert_mono.
        -- intros k Hk. apply not_elem_of_cons in Hk as [Hne Hk].
           rewrite (Hother k Hk). now rewrite lookup_insert_ne.
        -- intros k c0 Hk Hsk Hck.
           destruct (decide (k ∈ rest)) as [Hin | Hnin].
           ++ apply Hvisited; [exact Hin | exact Hsk |].
              now apply is_Some_insert_mono.
           ++ apply elem_of_cons in Hk as [-> | Hk]; [| contradiction].
              rewrite (Hother key Hnin), lookup_insert_eq. congruence.
      * injection Hitem as <- <-.
        split; [exact Hdom | split].
        -- intros k Hk. apply not_elem_of_cons in Hk as [Hne Hk]. now apply Hother.
        -- intros k c0 Hk Hsk Hck.
           destruct (decide (k ∈ rest)) as [Hin | Hnin]; [now apply Hvisited |].
           apply elem_of_cons in Hk as [-> | Hk]; contradiction.
    + injection Hitem as <- <-.
      split; [exact Hdom | split].
      * intros k Hk. apply not_elem_of_cons in Hk as [Hne Hk]. now apply Hother.
      * intros k c0 Hk Hsk Hck.
        destruct (decide (k ∈ rest)) as [Hin | Hnin]; [now apply Hvisited |].
        apply elem_of_cons in Hk as [-> | Hk]; [congruence | contradiction].
Qed.

(** The loop returns when the ratio and the power do. *)
Lemma learn_items_returns (self : Cost.CostModel) (v e : Q) (keys : list string) :
  ~ Cost.initial_production_volume self == 0 ->
  ~ (v / Cost.initial_production_volume self == 0 /\ e < 0) ->
  forall acc, exists acc', Cost.learn_items self v e keys acc = Returned acc'.
Proof.
  intros Hv0 Hpow. induction keys as [| key rest IH]; intros [costs log].
  - eexists. reflexivity.
  - cbn [Cost.learn_items]. unfold Cost.learn_item.
    destruct (Cost.initial_costs_snapshot self !! key) as [c |].
    + case_bool_decide.
      * rewrite (py_div_nonzero _ _ Hv0). cbn.
        unfold py_pow.
        destruct (Qeqb (v / Cost.initial_production_volume self) 0 && Qltb e 0)
          eqn:Hguard.
        -- apply andb_true_iff in Hguard as [Hz Hneg]. Qbool. tauto.
        -- cbn. apply IH.
      * cbn. apply IH.
    + cbn. apply IH.
Qed.

Lemma apply_learning_curve_baseline (self self' : Cost.CostModel) (v : Q)
    (log : list log_record) :
  Cost.apply_learning_curve self v = Returned (self', log) ->
  same_baseline self self'.
Proof.
  intros Happ. unfold Cost.apply_learning_curve in Happ.
  destruct (Qleb v (Cost.current_production_volume self)).
  - injection Happ as <- _. apply same_baseline_refl.
  - apply bind_Returned in Happ as (ln & _ & Happ).
    apply bind_Returned in Happ as (l2 & _ & Happ).
    apply bind_Returned in Happ as (e & _ & Happ).
    apply bind_Returned in Happ as ([costs lg] & Hitems & Happ).
    injection Happ as <- _.
    apply learn_items_spec in Hitems as (Hdom & _ & _).
    repeat split; try reflexivity.
    intros k Hk. cbn. apply is_Some_insert_mono. auto.
Qed.

Lemma update_for_year_baseline (self self' : Cost.CostModel) (y : Z) (v : option Q)
    (log : list log_record) :
  Cost.update_for_year self y v = Returned (self', log) ->
  same_baseline self self'.
Proof.
  intros Hupd. unfold Cost.update_for_year in Hupd.
  apply bind_Returned in Hupd as ([s l] & Hfirst & Hupd).
  assert (Hs : same_baseline self s).
  { destruct v as [v0 |].
    - destruct (Qltb (Cost.current_production_volume self) v0).
      + now apply (apply_learning_curve_baseline self s v0 l).
      + injection Hfirst as <- _. apply same_baseline_refl.
    - injection Hfirst as <- _. apply same_baseline_refl. }
  destruct (Cost.supply_chain_model s).
  - pose proof (adjust_costs_baseline s "polysilicon" "solar_modules") as Ha.
    destruct (Cost.adjust_costs_based_on_supply_chain s "polysilicon" "solar_modules").
    injection Hupd as <- _. eapply same_baseline_trans; eauto.
  - injection Hupd as <- _. exact Hs.
Qed.

Lemma call_baseline (self self' : Cost.CostModel) (op : Cost.operation)
    (log : list log_record) :
  Cost.call self op = Returned (self', log) -> same_baseline self self'.
Proof.
  destruct op as [c v | v | v | a b | y v]; cbn.
  - intros [= Hc]. pose proof (update_cost_component_baseline self c v) as Hu.
    destruct (Cost.update_cost_component self c v). injection Hc as <- _. exact Hu.
  - apply apply_learning_curve_baseline.
  - intros [= Hc]. pose proof (update_opex_cost_baseline self v) as Hu.
    destruct (Cost.update_opex_cost self v). injection Hc as <- _. exact Hu.
  - intros [= Hc]. pose proof (adjust_costs_baseline self a b) as Hu.
    destruct (Cost.adjust_costs_based_on_supply_chain self a b).
    injection Hc as <- _. exact Hu.
  - apply update_for_year_baseline.
Qed.

Lemma calls_baseline (ops : list Cost.operation) :
  forall self self', Cost.calls self ops = Returned self' -> same_baseline self self'.
Proof.
  induction ops as [| op rest IH]; intros self self' Hrun.
  - injection Hrun as <-. apply same_baseline_refl.
  - cbn [Cost.calls] in Hrun.
    apply bind_Returned in Hrun as ([s l] & Hcall & Hrun).
    eapply same_baseline_trans; [eapply call_baseline; eauto | now apply IH].
Qed.

Lemma apply_learning_curve_returns (self : Cost.CostModel) (v : Q) :
  Cost.current_production_volume self < v ->
  Cost.learning_rate self < 1 -> ~ math_log 2 == 0 ->
  ~ Cost.initial_production_volume self == 0 ->
  ~ (v / Cost.initial_production_volume self == 0
     /\ math_log (1 - Cost.learning_rate self) / math_log 2 < 0) ->
  exists self' log, Cost.apply_learning_curve self v = Returned (self', log).
Proof.
  intros Hv Hlr Hlog2 Hv0 Hpow. unfold Cost.apply_learning_curve.
  apply Qleb_false in Hv. rewrite Hv.
  assert (Hl1 : py_log (1 - Cost.learning_rate self)
                = Returned (math_log (1 - Cost.learning_rate self))).
  { unfold py_log. rewrite (proj2 (Qleb_false _ _)); [reflexivity | lra]. }
  assert (Hl2 : py_log 2 = Returned (math_log 2)) by reflexivity.
  rewrite Hl1, bind_ret, Hl2, bind_ret, (py_div_nonzero _ _ Hlog2), bind_ret.
  destruct (learn_items_returns self v
              (math_log (1 - Cost.learning_rate self) / math_log 2)
              Cost.CAPEX_COMPONENT_KEYS Hv0 Hpow (Cost.current_costs self, []))
    as [[costs lg] Hitems].
  rewrite Hitems, bind_ret. eauto.
Qed.

End LearningCurveFacts.

Section LearningCurveClaims.
Context `{MathLib}.

(** C7.  When the new cumulative volume is not strictly greater than the
    current one, [apply_learning_curve] returns the model unchanged (all of
    [current_costs], the total included, and [current_production_volume])
    and logs one warning; hence a call that changes [current_costs] had a
    volume strictly greater than the current one. *)
Theorem apply_learning_curve_not_greater (self : Cost.CostModel) (v : Q) :
  (v <= Cost.current_production_volume self ->
   exists w, Cost.apply_learning_curve self v = Returned (self, [w])
             /\ level w = WARNING)
  /\ (forall self' log,
        Cost.apply_learning_curve self v = Returned (self', log) ->
        Cost.current_costs self' <> Cost.current_costs self ->
        Cost.current_production_volume self < v).
Proof.
  split.
  - intros Hv. unfold Cost.apply_learning_curve.
    apply Qleb_true in Hv. rewrite Hv. eexists. split; reflexivity.
  - intros self' log Happ Hchanged. unfold Cost.apply_learning_curve in Happ.
    destruct (Qleb v (Cost.current_production_volume self)) eqn:Hv.
    + injection Happ as <- _. contradiction.
    + now apply Qleb_false in Hv.
Qed.

(** C10.  Let [self] be any model reached from the constructor by calls
    of the mutating methods (component updates, earlier learning curves,
    operating-cost updates, supply-chain adjustments, yearly updates), and
    let [v] exceed its current volume.  If [apply_learning_curve(v)]
    returns, every component that has an initial cost [c0] then costs
    [c0 * (v / initial_volume) ** (log(1 - learning_rate) / log(2))]: the
    value depends on the arguments of the constructor and on [v] only, so
    a surcharge put on the module cost before is gone.  And the call does
    return when [learning_rate < 1], the initial volume is not zero and
    the power is defined. *)
Theorem learning_curve_restarts_from_snapshot (name : string)
    (initial_costs : gmap string Q) (lr v0 : Q)
    (scm : option Cost.SupplyChainModel) (stm : option SolarTech.SolarTechModel)
    (ops : list Cost.operation) (self : Cost.CostModel) (v : Q) :
  Cost.calls (Cost.init name initial_costs lr v0 scm stm) ops = Returned self ->
  Cost.current_production_volume self < v ->
  let exponent := math_log (1 - lr) / math_log 2 in
  (forall self' log,
      Cost.apply_learning_curve self v = Returned (self', log) ->
      forall key c0,
        key ∈ Cost.CAPEX_COMPONENT_KEYS -> initial_costs !! key = Some c0 ->
        Cost.current_costs self' !! key = Some (c0 * float_pow (v / v0) exponent))
  /\ (lr < 1 -> ~ math_log 2 == 0 -> ~ v0 == 0 ->
      ~ (v / v0 == 0 /\ exponent < 0) ->
      exists self' log, Cost.apply_learning_curve self v = Returned (self', log)).
Proof.
  intros Hcalls Hv exponent.
  apply calls_baseline in Hcalls as (Hsnap & Hlr & Hv0 & Hdom).
  apply Qleb_false in Hv.
  split.
  - intros self' log Happ key c0 Hkey Hc0.
    unfold Cost.apply_learning_curve in Happ. rewrite Hv in Happ.
    apply bind_Returned in Happ as (ln & Hln & Happ).
    apply bind_Returned in Happ as (l2 & Hl2 & Happ).
    apply bind_Returned in Happ as (e & He & Happ).
    apply bind_Returned in Happ as ([costs lg] & Hitems & Happ).
    injection Happ as <- _.
    unfold py_log in Hln, Hl2.
    destruct (Qleb (1 - Cost.learning_rate self) 0); [discriminate |].
    destruct (Qleb 2 0); [discriminate |].
    injection Hln as <-. injection Hl2 as <-.
    apply py_div_Returned in He as [_ ->].
    apply learn_items_spec in Hitems as (_ & _ & Hvisited).
    assert (Hne : "capex_per_kw" <> key).
    { intros <-. now apply capex_key_not_component. }
    cbn. rewrite lookup_insert_ne by exact Hne.
    rewrite (Hvisited key c0 Hkey).
    + rewrite Hlr, Hv0. reflexivity.
    + rewrite Hsnap. cbn. now rewrite lookup_insert_ne.
    + apply Hdom. cbn. rewrite lookup_insert_ne by exact Hne. eauto.
  - intros Hlr1 Hlog2 Hv0nz Hpow.
    apply apply_learning_curve_returns.
    + now apply Qleb_false.
    + now rewrite Hlr.
    + exact Hlog2.
    + now rewrite Hv0.
    + now rewrite Hlr, Hv0.
Qed.

End LearningCurveClaims.

Lemma apply_learning_curve_not_greater_witness :
  10 <= Cost.current_production_volume cost_model_pv
  /\ exists w, @Cost.apply_learning_curve sample_math cost_model_pv 10
               = Returned (cost_model_pv, [w])
               /\ level w = WARNING.
Proof.
  split.
  - vm_compute. congruence.
  - apply (proj1 (@apply_learning_curve_not_greater sample_math cost_model_pv 10)).
    vm_compute. congruence.
Defined.


Lemma learning_curve_restarts_from_snapshot_witness :
  (@Cost.calls sample_math cost_model_pv
     [Cost.UpdateCostComponent "module_usd_per_kw" 270; Cost.ApplyLearningCurve 20]
   = Returned cost_model_pv_later
   /\ Cost.current_production_volume cost_model_pv_later < 40)
  /\ forall self' log,
       @Cost.apply_learning_curve sample_math cost_model_pv_later 40
       = Returned (self', log) ->
       forall key c0,
         key ∈ Cost.CAPEX_COMPONENT_KEYS -> initial_costs_pv !! key = Some c0 ->
         Cost.current_costs self' !! key
         = Some (c0 * @float_pow sample_math (40 / 10)
                        (@math_log sample_math (1 - (1 # 10)) / @math_log sample_math 2)).
Proof.
  assert (Hcalls : @Cost.calls sample_math cost_model_pv
            [Cost.UpdateCostComponent "module_usd_per_kw" 270; Cost.ApplyLearningCurve 20]
          = Returned cost_model_pv_later) by (vm_compute; reflexivity).
  assert (Hvol : Cost.current_production_volume cost_model_pv_later < 40)
    by (vm_compute; congruence).
  split; [split; assumption |].
  exact (proj1 (@learning_curve_restarts_from_snapshot sample_math "TestSolarPV"
                  initial_costs_pv (1 # 10) 10 None None _ _ 40 Hcalls Hvol)).
Defined.

(** ** Cost model: levelized cost of energy *)


(** *** The power in the capital recovery factor *)

Lemma fl64_eq_0 (x : Q) : fl64 x == 0 <-> x == 0.
Proof.
  split; [| apply fl64_zero].
  intros Hf. destruct (Q_dec x 0) as [[Hneg | Hpos] | Hz]; [| | exact Hz].
  - assert (H : 0 < fl64 (- x)) by (apply fl64_pos; lra).
    rewrite fl64_opp in H. lra.
  - pose proof (fl64_pos x Hpos). lra.
Qed.

Lemma overflows_false (x : Q) : Qabs x < 2 ^ 1024 - 2 ^ 970 -> overflows x = false.
Proof. intros Hx. unfold overflows. now apply Qleb_false. Qed.

(** [b ** n] raises [ZeroDivisionError] for a zero base and a negative
    exponent, [OverflowError] for a result beyond the doubles, and
    nothing else. *)
Lemma py_pow_int_raises (b : Q) (n : Z) (e : py_exception) :
  py_pow_int b n = Raised e ->
  (e = ZeroDivisionError /\ b == 0 /\ (n < 0)%Z)
  \/ (e = OverflowError /\ pow_overflows b n = true).
Proof.
  unfold py_pow_int, pow_overflows.
  destruct (overflows (inject_Z n)); [intros [= <-]; right; auto |].
  destruct (Qeqb b 0 && (n <? 0)%Z) eqn:Hz.
  - intros [= <-]. left. apply andb_true_iff in Hz as [Hb Hn].
    apply Qeqb_true in Hb. apply Z.ltb_lt in Hn. auto.
  - destruct (overflows (b ^ n)) eqn:Ho; [| discriminate].
    intros [= <-]. right. auto.
Qed.

Lemma py_pow_int_overflows (b : Q) (n : Z) :
  ~ (b == 0 /\ (n < 0)%Z) -> pow_overflows b n = true ->
  py_pow_int b n = Raised OverflowError.
Proof.
  intros Hz Ho. unfold py_pow_int, pow_overflows in *.
  destruct (overflows (inject_Z n)); [reflexivity |]. cbn [orb] in Ho. rewrite Ho.
  destruct (Qeqb b 0 && (n <? 0)%Z) eqn:Hb; [| reflexivity].
  exfalso. apply Hz. apply andb_true_iff in Hb as [Hb Hn].
  apply Qeqb_true in Hb. apply Z.ltb_lt in Hn. auto.
Qed.

Lemma py_pow_int_returns (b : Q) (n : Z) :
  ~ (b == 0 /\ (n < 0)%Z) -> pow_overflows b n = false ->
  py_pow_int b n = Returned (fl64 (b ^ n)).
Proof.
  intros Hz Ho. unfold py_pow_int, pow_overflows in *.
  apply orb_false_iff in Ho as [-> ->].
  destruct (Qeqb b 0 && (n <? 0)%Z) eqn:Hb; [| reflexivity].
  exfalso. apply Hz. apply andb_true_iff in Hb as [Hb Hn].
  apply Qeqb_true in Hb. apply Z.ltb_lt in Hn. auto.
Qed.

Lemma py_pow_int_Returned (b : Q) (n : Z) (p : Q) :
  py_pow_int b n = Returned p -> p = fl64 (b ^ n) /\ pow_overflows b n = false.
Proof.
  unfold py_pow_int, pow_overflows.
  destruct (overflows (inject_Z n)); [discriminate |].
  destruct (Qeqb b 0 && (n <? 0)%Z); [discriminate |].
  destruct (overflows (b ^ n)); [discriminate |].
  intros [= <-]. auto.
Qed.

(** The base [1 + r] of the power, for a rate that is not negative. *)
Lemma base_ge_1 (dr : Q) : 0 <= dr -> 1 <= fadd 1 dr.
Proof.
  intros Hdr. unfold fadd. rewrite <- fl64_one at 1. apply fl64_mono. lra.
Qed.




(** A rate of at most [2 ^ -53] is absorbed in [1 + r]: the power is 1
    whatever the lifetime, if that is a double. *)
Lemma growth_factor_absorbed (dr : Q) (L : Z) :
  0 <= dr -> dr <= 2 ^ (-53) -> overflows (inject_Z L) = false ->
  exists g, Cost.growth_factor dr L = Returned g /\ g == 1.
Proof.
  intros H0 H1 HL.
  assert (Hb : fadd 1 dr == 1) by now apply fl64_absorbs.
  assert (Hp : fadd 1 dr ^ L == 1) by (rewrite Hb; apply Qpower_1).
  exists (fl64 (fadd 1 dr ^ L)). split.
  - apply py_pow_int_returns; [intros [Hz _]; lra |].
    unfold pow_overflows. rewrite HL. cbn [orb].
    apply overflows_false. rewrite Hp. vm_compute. reflexivity.
  - rewrite (fl64_comp _ _ Hp). apply fl64_one.
Qed.

(** The power is 1 for a lifetime of zero years. *)
Lemma growth_factor_zero_lifetime (dr : Q) :
  exists g, Cost.growth_factor dr 0 = Returned g /\ g == 1.
Proof.
  exists (fl64 1). split; [| apply fl64_one].
  unfold Cost.growth_factor, py_pow_int.
  change (overflows (inject_Z 0)) with false. cbv iota.
  rewrite andb_false_r. reflexivity.
Qed.

(** A rate above [2 ^ -53] and a lifetime other than zero give a power
    other than 1. *)
Lemma growth_factor_not_1 (dr : Q) (L : Z) (g : Q) :
  2 ^ (-53) < dr -> L <> 0%Z -> Cost.growth_factor dr L = Returned g -> ~ g == 1.
Proof.
  intros Hdr HL Hg. apply py_pow_int_Returned in Hg as [-> _].
  pose proof (fl64_not_absorbed dr Hdr) as Hb. fold (fadd 1 dr) in Hb.
  assert (Heps : 0 < 2 ^ (-52)) by apply two_power_pos.
  destruct (Z.lt_trichotomy L 0) as [Hneg | [Hz | Hpos]]; [| contradiction |].
  - assert (Hp : fadd 1 dr ^ L <= 1 - 2 ^ (-53)).
    { pose proof (Qpower_le_compat_l (fadd 1 dr) L (-1) ltac:(lia) ltac:(lra)) as Hle.
      assert (Hinv : fadd 1 dr ^ (-1) == / fadd 1 dr).
      { pose proof (Qpower_opp (fadd 1 dr) 1) as Ho. cbn [Z.opp] in Ho.
        rewrite Ho, Qpower_1_r. reflexivity. }
      rewrite Hinv in Hle.
      assert (Hi : / fadd 1 dr <= 1 - 2 ^ (-53)).
      { setoid_replace (/ fadd 1 dr) with (1 / fadd 1 dr) using relation Qeq
          by (field; lra).
        apply Qle_shift_div_r; [lra |].
        assert (Hc : (1 - 2 ^ (-53)) * (1 + 2 ^ (-52)) == 1 + 2 ^ (-53) - 2 ^ (-105))
          by (vm_compute; reflexivity).
        assert (Hd : 2 ^ (-105) <= 2 ^ (-53)) by (apply two_power_mono; lia).
        assert (He : 0 < 1 - 2 ^ (-53)) by (vm_compute; reflexivity).
        nra. }
      lra. }
    apply fl64_mono in Hp.
    assert (Hc : fl64 (1 - 2 ^ (-53)) == 1 - 2 ^ (-53)) by (vm_compute; reflexivity).
    assert (Hd : 0 < 2 ^ (-53)) by apply two_power_pos.
    lra.
  - assert (Hp : 1 + 2 ^ (-52) <= fadd 1 dr ^ L).
    { pose proof (Qpower_le_compat_l (fadd 1 dr) 1 L ltac:(lia) ltac:(lra)) as Hle.
      rewrite Qpower_1_r in Hle. lra. }
    apply fl64_mono in Hp.
    assert (Hc : fl64 (1 + 2 ^ (-52)) == 1 + 2 ^ (-52)) by (vm_compute; reflexivity).
    lra.
Qed.

(** The denominator of the factor is zero exactly when the power is 1. *)
Lemma crf_denominator_zero_iff (g : Q) : fsub g 1 == 0 <-> g == 1.
Proof.
  unfold fsub. rewrite fl64_eq_0. split; intros H; lra.
Qed.


(** *** The result dictionaries *)


Section EvolvingLcoeFacts.

Variables (technology_name : string) (capex opex eff : Q) (avail : bool)
          (log0 : list log_record) (cf crf : Q).




End EvolvingLcoeFacts.

Section EvolvingLcoe.

Variables (self : Cost.CostModel) (stm : SolarTech.SolarTechModel)
          (technology_name : string) (year : Z) (tech : SolarTech.SolarTechnology)
          (cf dr : Q) (L : Z).

Let params := SolarTech.get_params_for_year tech year.
Let capex := SolarTech.capex_usd_per_kw params.
Let opex := Cost.get0 (Cost.current_costs self) "opex_per_kw_year".


End EvolvingLcoe.

(** *** The flat LCOE *)

Lemma calculate_lcoe_zero_capex (self : Cost.CostModel) (cf dr : Q) (L : Z)
    (annual_opex_per_kw : option Q) (fuel : Q) :
  Cost.get0 (Cost.current_costs self) "capex_per_kw" == 0 ->
  Cost.calculate_lcoe self cf dr L annual_opex_per_kw fuel
  = Returned (PInf, [warning "Warning: CAPEX is zero. LCOE calculation might be meaningless."]).
Proof.
  intros Hcapex. unfold Cost.calculate_lcoe.
  now rewrite (proj2 (Qeqb_true _ _) Hcapex).
Qed.


Lemma lcoe_from_crf_returns (capex opex cf fuel crf : Q) :
  exists r, Cost.lcoe_from_crf capex opex cf fuel crf = Returned r.
Proof.
  unfold Cost.lcoe_from_crf.
  destruct (Qeqb (8760 * cf / 1000) 0) eqn:Hgen; [eauto |].
  apply Qeqb_false in Hgen. rewrite (py_div_nonzero _ _ Hgen), bind_ret. eauto.
Qed.

(** What [calculate_lcoe] does once the capex is not zero: with a
    positive rate it raises what the power raises, divides by the
    denominator of the factor, and goes on with the factor; with another
    rate it uses [1 / lifetime] for a positive lifetime and gives up
    otherwise. *)
Lemma calculate_lcoe_paths (self : Cost.CostModel) (cf dr : Q) (L : Z)
    (annual_opex_per_kw : option Q) (fuel : Q) :
  let capex := Cost.get0 (Cost.current_costs self) "capex_per_kw" in
  let opex := match annual_opex_per_kw with
              | None => Cost.get0 (Cost.current_costs self) "opex_per_kw_year"
              | Some o => o
              end in
  ~ capex == 0 ->
  (0 < dr ->
   match Cost.growth_factor dr L with
   | Raised e => Cost.calculate_lcoe self cf dr L annual_opex_per_kw fuel = Raised e
   | Returned g =>
       (fsub g 1 == 0 ->
        Cost.calculate_lcoe self cf dr L annual_opex_per_kw fuel
        = Raised ZeroDivisionError)
       /\ (~ fsub g 1 == 0 ->
           Cost.calculate_lcoe self cf dr L annual_opex_per_kw fuel
           = Cost.lcoe_from_crf capex opex cf fuel (dr * g / fsub g 1))
   end)
  /\ (dr <= 0 -> (0 < L)%Z ->
      Cost.calculate_lcoe self cf dr L annual_opex_per_kw fuel
      = Cost.lcoe_from_crf capex opex cf fuel (1 / inject_Z L))
  /\ (dr <= 0 -> (L <= 0)%Z ->
      Cost.calculate_lcoe self cf dr L annual_opex_per_kw fuel
      = Returned (PInf, [warning "Warning: Discount rate is zero and lifetime is zero. Cannot calculate CRF."])).
Proof.
  intros capex opex Hcapex. unfold Cost.calculate_lcoe. fold capex. fold opex.
  rewrite (proj2 (Qeqb_false _ _) Hcapex).
  split; [| split].
  - intros Hdr. rewrite (proj2 (Qltb_true _ _) Hdr).
    destruct (Cost.growth_factor dr L) as [g | e]; [| reflexivity].
    rewrite bind_ret. split; intros Hden.
    + unfold py_div. now rewrite (proj2 (Qeqb_true _ _) Hden).
    + now rewrite (py_div_nonzero _ _ Hden), bind_ret.
  - intros Hdr HL. rewrite (proj2 (Qltb_false _ _) Hdr).
    rewrite (proj2 (Z.ltb_lt _ _) HL).
    assert (HLq : ~ inject_Z L == 0).
    { intros Hz. unfold Qeq in Hz. cbn in Hz. lia. }
    now rewrite (py_div_nonzero _ _ HLq), bind_ret.
  - intros Hdr HL. rewrite (proj2 (Qltb_false _ _) Hdr).
    now rewrite (proj2 (Z.ltb_ge _ _) HL).
Qed.




(** [calculate_lcoe] raises for a positive discount rate and a lifetime of
    zero years: the CRF denominator [(1 + r) ** 0 - 1] is zero. *)
Lemma calculate_lcoe_zero_lifetime_raises :
  Cost.calculate_lcoe cost_model_pv (2 # 10) (5 # 100) 0 None 0
  = Raised ZeroDivisionError.
Proof. vm_compute. reflexivity. Qed.

(** The rate [1e-17] is absorbed in [1 + r]: the denominator of the
    factor is zero, and [calculate_lcoe] raises where the evolving LCOE
    returns an error dictionary. *)
Example absorbed_rate :
  Cost.calculate_lcoe cost_model_pv (2 # 10) (1 # 10 ^ 17) 25 None 0
  = Raised ZeroDivisionError
  /\ crf_denominator_zero (1 # 10 ^ 17) 25
  /\ exists res log,
       Cost.calculate_lcoe_for_evolving_solar_tech cost_model_pv steady_model
         "Steady" 2025 (2 # 10) (1 # 10 ^ 17) 25 = Returned (res, log)
       /\ infinite_with_error res.
Proof.
  split; [vm_compute; reflexivity |]. split.
  - destruct (growth_factor_absorbed (1 # 10 ^ 17) 25) as (g & Hg & Hone);
      [vm_compute; congruence | vm_compute; congruence | vm_compute; reflexivity |].
    exists g. split; [exact Hg | now apply crf_denominator_zero_iff].
  - eexists _, _. split; [vm_compute; reflexivity |].
    split; [reflexivity | cbn; eauto].
Qed.

(** [2.0 ** 1024] is beyond the doubles: with the rate 1.0 and 1024 years
    [calculate_lcoe] raises [OverflowError], and the evolving LCOE of a
    technology and a ledger without costs is [+infinity] with an error. *)
Example overflowing_power :
  Cost.calculate_lcoe cost_model_pv (2 # 10) 1 1024 None 0 = Raised OverflowError
  /\ crf_overflows 1 1024
  /\ exists res log,
       Cost.calculate_lcoe_for_evolving_solar_tech free_cost_model
         (SolarTech.add_technology SolarTech.empty_model free_tech) "Free" 2025
         (2 # 10) 1 1024 = Returned (res, log)
       /\ infinite_with_error res.
Proof.
  split; [vm_compute; reflexivity |]. split.
  - split; [lia |]. split; [discriminate | vm_compute; reflexivity].
  - eexists _, _. split; [vm_compute; reflexivity |].
    split; [reflexivity | cbn; eauto].
Qed.



(** ** Grid model *)


Lemma add_new_capacity_unknown_regions (year : Z)
    (details : list (string * list (string * Q))) :
  forall (self : Grid.GridModel) (log : list log_record),
    (forall entry, entry ∈ details -> Grid.regional_data self !! entry.1 = None) ->
    exists ws,
      fold_left Grid.add_region_capacity details (self, log) = (self, app log ws)
      /\ length ws = length details
      /\ Forall (fun w => level w = WARNING) ws.
Proof.
  induction details as [| [region_name techs] rest IH]; intros self log Hunknown.
  - exists []. cbn. rewrite app_nil_r. auto.
  - cbn [fold_left Grid.add_region_capacity].
    pose proof (Hunknown (region_name, techs) (list_elem_of_here _ _)) as Hhead.
    cbn [fst] in Hhead. rewrite Hhead.
    destruct (IH self
                (app log [warning ("GridModel: Region '" ++ region_name
                                   ++ "' not found. Cannot add new capacities: {tech_investments}")]))
      as (ws & Hfold & Hlen & Hlvl).
    { intros entry Hin. apply Hunknown. now apply list_elem_of_further. }
    eexists (_ :: ws). rewrite Hfold. split; [| split].
    + now rewrite <- app_assoc.
    + cbn. now rewrite Hlen.
    + constructor; [reflexivity | exact Hlvl].
Qed.

(** C4, as stated, fails on the code: for a region that the model does
    not have, [calculate_interconnection_costs] returns [float('inf')],
    which is not a zero. *)
Lemma interconnection_cost_of_unknown_region_infinite :
  Grid.regional_data usa_grid !! "Atlantis" = None
  /\ (Grid.calculate_interconnection_costs usa_grid "Atlantis" 100 10).1 = PInf
  /\ PInf <> Fin 0.
Proof.
  split; [vm_compute; reflexivity |]. split; [vm_compute; reflexivity | discriminate].
Qed.

(** C4, amended.  For a region name that is not in the regional data,
    every operation returns, with one warning logged per call (per
    unknown region for [add_new_capacity]): the maximum and the current
    solar capacity are 0, the capacity by technology is the empty
    dictionary, the constraint check is false, [add_solar_capacity] and
    [add_new_capacity] leave the model as it is, and
    [calculate_interconnection_costs] returns [+infinity]. *)
Theorem unknown_region_defaults (self : Grid.GridModel) (region_name : string)
    (x d : Q) (year : Z) (techs : list (string * Q)) :
  Grid.regional_data self !! region_name = None ->
  Grid.get_max_solar_penetration_mw self region_name
  = (0, [region_not_found region_name "get_max_solar_penetration_mw"])
  /\ Grid.get_current_solar_mw self region_name
     = (0, [region_not_found region_name "get_current_solar_mw"])
  /\ Grid.add_solar_capacity self region_name x
     = (self, [region_not_found region_name "add_solar_capacity"])
  /\ (exists w, Grid.add_new_capacity self year [(region_name, techs)] = (self, [w])
                /\ level w = WARNING)
  /\ Grid.get_current_capacity_by_tech self region_name
     = ([], [region_not_found region_name "get_current_capacity_by_tech"])
  /\ Grid.calculate_interconnection_costs self region_name x d
     = (PInf, [region_not_found region_name "calculate_interconnection_costs"])
  /\ Grid.check_grid_constraints self region_name x
     = (false, [region_not_found region_name "check_grid_constraints"]).
Proof.
  intros Hnone.
  unfold Grid.get_max_solar_penetration_mw, Grid.get_current_solar_mw,
    Grid.add_solar_capacity, Grid.get_current_capacity_by_tech,
    Grid.calculate_interconnection_costs, Grid.check_grid_constraints,
    Grid.add_new_capacity.
  cbn [fold_left Grid.add_region_capacity].
  rewrite !Hnone. repeat split; try reflexivity.
  eexists. split; reflexivity.
Qed.

Lemma unknown_region_defaults_witness :
  Grid.regional_data usa_grid !! "Atlantis" = None
  /\ Grid.check_grid_constraints usa_grid "Atlantis" 100
     = (false, [region_not_found "Atlantis" "check_grid_constraints"]).
Proof.
  assert (Hnone : Grid.regional_data usa_grid !! "Atlantis" = None)
    by (vm_compute; reflexivity).
  split; [exact Hnone |].
  apply (unknown_region_defaults usa_grid "Atlantis" 100 10 2025 [] Hnone).
Defined.

(** C6, as stated, fails on the code: the sum and the product that
    [check_grid_constraints] compares are rounded.  In the region of
    100 MW with ceiling 0.07 the product is rounded up to the double next
    above 7, and adding that many MW is permitted although it exceeds
    [existing_capacity * ceiling]; in the region that stands at its
    ceiling of [1e16] MW one more MW is absorbed by the sum and
    permitted. *)
Lemma check_grid_constraints_rounding :
  (exists p x,
      Grid.regional_data rounding_grid !! "Small" = Some p
      /\ x = (Grid.get_max_solar_penetration_mw rounding_grid "Small").1
      /\ 0 <= x
      /\ Grid.existing_capacity_mw p * Grid.max_solar_penetration_pct p
         < Grid.current_solar_mw p + x
      /\ (Grid.check_grid_constraints rounding_grid "Small" x).1 = true)
  /\ (exists p,
        Grid.regional_data rounding_grid !! "Full" = Some p
        /\ Grid.existing_capacity_mw p * Grid.max_solar_penetration_pct p
           < Grid.current_solar_mw p + 1
        /\ (Grid.check_grid_constraints rounding_grid "Full" 1).1 = true).
Proof.
  split.
  - eexists _, _. split; [vm_compute; reflexivity |].
    split; [reflexivity |]. repeat split; vm_compute; congruence.
  - eexists. split; [vm_compute; reflexivity |].
    split; vm_compute; reflexivity.
Qed.

(** C6, amended.  For a region of the model and any additional capacity,
    [check_grid_constraints] is false exactly when the rounded sum of the
    current solar capacity and the addition exceeds the rounded product of
    existing capacity and penetration ceiling, and true otherwise.  So it
    is false only if the sum exceeds the product, true whenever the sum
    does not exceed the product, and false exactly when the sum exceeds
    the product if both are doubles.  In the scenario (existing capacity
    500000, ceiling 0.6, no solar yet) the maximum is 300000, adding
    300000 is permitted and adding 300000.1 is rejected. *)
Theorem check_grid_constraints_rounded (self : Grid.GridModel) (region_name : string)
    (region_info : Grid.RegionParams) (x : Q) :
  Grid.regional_data self !! region_name = Some region_info ->
  0 <= x ->
  let ceiling_mw :=
    Grid.existing_capacity_mw region_info * Grid.max_solar_penetration_pct region_info in
  let solar_mw := Grid.current_solar_mw region_info + x in
  ((Grid.check_grid_constraints self region_name x).1 = false
   <-> fl64 ceiling_mw < fl64 solar_mw)
  /\ ((Grid.check_grid_constraints self region_name x).1 = true
      <-> fl64 solar_mw <= fl64 ceiling_mw)
  /\ ((Grid.check_grid_constraints self region_name x).1 = false ->
      ceiling_mw < solar_mw)
  /\ (solar_mw <= ceiling_mw ->
      (Grid.check_grid_constraints self region_name x).1 = true)
  /\ (fl64 ceiling_mw == ceiling_mw -> fl64 solar_mw == solar_mw ->
      ((Grid.check_grid_constraints self region_name x).1 = false
       <-> ceiling_mw < solar_mw))
  /\ ((Grid.get_max_solar_penetration_mw scenario_grid "USA").1 == 300000
      /\ (Grid.check_grid_constraints scenario_grid "USA" 300000).1 = true
      /\ (Grid.check_grid_constraints scenario_grid "USA" (fl64 (3000001 # 10))).1
         = false).
Proof.
  intros Hregion _ ceiling_mw solar_mw.
  assert (Hcheck : (Grid.check_grid_constraints self region_name x).1
                   = negb (Qltb (fl64 ceiling_mw) (fl64 solar_mw))).
  { unfold Grid.check_grid_constraints, Grid.get_current_solar_mw,
      Grid.get_max_solar_penetration_mw.
    rewrite Hregion. unfold fmul, fadd. fold ceiling_mw. fold solar_mw.
    now destruct (Qltb (fl64 ceiling_mw) (fl64 solar_mw)). }
  rewrite Hcheck. split; [| split; [| split; [| split; [| split]]]].
  - rewrite negb_false_iff. apply Qltb_true.
  - rewrite negb_true_iff. apply Qltb_false.
  - rewrite negb_false_iff. intros Hlt. apply Qltb_true in Hlt.
    apply Qnot_le_lt. intros Hle. apply fl64_mono in Hle. lra.
  - intros Hle. rewrite negb_true_iff. apply Qltb_false. now apply fl64_mono.
  - intros Hc Hs. rewrite negb_false_iff, Qltb_true. rewrite Hc, Hs. reflexivity.
  - vm_compute. repeat split; congruence.
Qed.

Lemma check_grid_constraints_rounded_witness :
  (Grid.regional_data scenario_grid !! "USA"
   = Some {| Grid.existing_capacity_mw := 500000;
             Grid.current_load_mw := 450000;
             Grid.max_solar_penetration_pct := fl64 (6 # 10);
             Grid.base_interconnection_cost_usd_per_mw := 120000;
             Grid.transmission_constraint_factor := 1;
             Grid.avg_transmission_cost_usd_per_mw_km := 2000;
             Grid.avg_terrain_factor := 1;
             Grid.current_solar_mw := 0;
             Grid.capacities_mw_by_tech := 0 |}
   /\ 0 <= 10000)
  /\ ((Grid.check_grid_constraints scenario_grid "USA" 10000).1 = true
      <-> fl64 (0 + 10000) <= fl64 (500000 * fl64 (6 # 10))).
Proof.
  assert (Hregion : Grid.regional_data scenario_grid !! "USA"
            = Some {| Grid.existing_capacity_mw := 500000;
                      Grid.current_load_mw := 450000;
                      Grid.max_solar_penetration_pct := fl64 (6 # 10);
                      Grid.base_interconnection_cost_usd_per_mw := 120000;
                      Grid.transmission_constraint_factor := 1;
                      Grid.avg_transmission_cost_usd_per_mw_km := 2000;
                      Grid.avg_terrain_factor := 1;
                      Grid.current_solar_mw := 0;
                      Grid.capacities_mw_by_tech := 0 |})
    by reflexivity.
  assert (Hx : 0 <= 10000) by (vm_compute; congruence).
  split; [split; assumption |].
  exact (proj1 (proj2 (check_grid_constraints_rounded scenario_grid "USA" _ 10000
                         Hregion Hx))).
Defined.

(** ** Market dispatch *)

Lemma dispatch_done (demand : Q) (techs : list Market.DispatchableTech)
    (gen : list (string * Q)) (d : Q) :
  demand <= d -> Market.dispatch demand techs (gen, d) = (gen, d).
Proof.
  intros Hd. destruct techs as [| t rest]; [reflexivity |]. cbn.
  now rewrite (proj2 (Qleb_true _ _) Hd).
Qed.

(** Dispatching a list is dispatching a prefix and then the rest. *)
Lemma dispatch_app (demand : Q) (p l : list Market.DispatchableTech) :
  forall st, Market.dispatch demand (app p l) st
             = Market.dispatch demand l (Market.dispatch demand p st).
Proof.
  induction p as [| t p IH]; intros [gen d]; [reflexivity |].
  cbn [app Market.dispatch].
  destruct (Qleb demand d) eqn:Hd.
  - apply Qleb_true in Hd. now rewrite dispatch_done.
  - destruct (Qltb 0 (Qmin (Market.potential_mwh t) (demand - d))); apply IH.
Qed.

(** The dispatched total never decreases and never passes the demand. *)
Lemma dispatch_bounds (demand : Q) (techs : list Market.DispatchableTech) :
  forall gen d, d <= demand ->
    d <= (Market.dispatch demand techs (gen, d)).2
    /\ (Market.dispatch demand techs (gen, d)).2 <= demand.
Proof.
  induction techs as [| t rest IH]; intros gen d Hd; cbn [Market.dispatch].
  - cbn. split; [apply Qle_refl | exact Hd].
  - destruct (Qleb demand d); [cbn; split; [apply Qle_refl | exact Hd] |].
    destruct (Qltb 0 (Qmin (Market.potential_mwh t) (demand - d))) eqn:Hg.
    + apply Qltb_true in Hg.
      pose proof (Q.le_min_r (Market.potential_mwh t) (demand - d)) as Hmin.
      destruct (IH (dict_set gen (Market.tech_name t)
                      (Qmin (Market.potential_mwh t) (demand - d)))
                  (d + Qmin (Market.potential_mwh t) (demand - d))) as [Hlo Hhi];
        [lra |].
      split; [lra | exact Hhi].
    + now apply IH.
Qed.

(** One technology adds the minimum of its potential and the demand that
    is still unmet. *)
Lemma dispatch_contribution (demand : Q) (t : Market.DispatchableTech)
    (gen : list (string * Q)) (d : Q) :
  0 < Market.potential_mwh t ->
  (Market.dispatch demand [t] (gen, d)).2 - d
  == Qmin (Market.potential_mwh t) (Qmax 0 (demand - d)).
Proof.
  intros Hpot. cbn [Market.dispatch].
  destruct (Q.max_spec 0 (demand - d)) as [[Hlt Hmax] | [Hle Hmax]];
    destruct (Q.min_spec (Market.potential_mwh t) (Qmax 0 (demand - d)))
      as [[Hlt' Hmin] | [Hle' Hmin]];
    destruct (Q.min_spec (Market.potential_mwh t) (demand - d))
      as [[Hlt'' Hmin'] | [Hle'' Hmin']];
    destruct (Qleb demand d) eqn:Hd; Qbool; cbn [snd];
    try (exfalso; lra);
    try (destruct (Qltb 0 (Qmin (Market.potential_mwh t) (demand - d))) eqn:Hg;
         Qbool; cbn [snd]);
    lra.
Qed.

Lemma insert_by_cost_zero (t : Market.DispatchableTech)
    (l : list Market.DispatchableTech) :
  Market.marginal_cost t = 0 ->
  Forall (fun u => Market.marginal_cost u = 0) l ->
  Market.insert_by_cost t l = app l [t].
Proof.
  intros Ht Hl. induction Hl as [| u l Hu Hl IH]; [reflexivity |].
  cbn. rewrite Ht, Hu. cbn. now rewrite IH.
Qed.

(** With every marginal cost zero the stable sort changes nothing. *)
Lemma sort_by_cost_zero (l : list Market.DispatchableTech) :
  Forall (fun u => Market.marginal_cost u = 0) l -> Market.sort_by_cost l = l.
Proof.
  unfold Market.sort_by_cost.
  assert (Hgen : forall acc,
             Forall (fun u => Market.marginal_cost u = 0) acc ->
             Forall (fun u => Market.marginal_cost u = 0) l ->
             fold_left (fun sorted t => Market.insert_by_cost t sorted) l acc
             = app acc l).
  { induction l as [| t l IH]; intros acc Hacc Hl.
    - now rewrite app_nil_r.
    - inversion Hl as [| ? ? Ht Hl']; subst. cbn [fold_left].
      rewrite insert_by_cost_zero by assumption.
      rewrite IH; [now rewrite <- app_assoc | | assumption].
      apply Forall_app. split; [assumption | now constructor]. }
  intros Hl. now rewrite Hgen by (try constructor; assumption).
Qed.

Lemma dispatchable_tech_spec (stm : SolarTech.SolarTechModel) (year : Z)
    (region_name : string) (entry : string * Q) (t : Market.DispatchableTech) :
  (Market.dispatchable_tech stm year region_name entry).1 = Some t ->
  Market.marginal_cost t = 0 /\ 0 < Market.potential_mwh t.
Proof.
  destruct entry as [tech_name capacity_mw]. unfold Market.dispatchable_tech.
  destruct (Qleb capacity_mw 0); [discriminate |].
  destruct (SolarTech.get_technology_details stm tech_name year) as [msg | p];
    [discriminate |].
  destruct (negb (SolarTech.is_commercially_available p)); [discriminate |].
  destruct (Qltb 0 _) eqn:Hpos; [| discriminate].
  intros [= <-]. split; [reflexivity | now apply Qltb_true].
Qed.

Lemma dispatchable_techs_spec (stm : SolarTech.SolarTechModel) (year : Z)
    (region_name : string) (installed : list (string * Q)) :
  Forall (fun t => Market.marginal_cost t = 0 /\ 0 < Market.potential_mwh t)
    (Market.dispatchable_techs stm year region_name installed).1.
Proof.
  induction installed as [| entry rest IH]; cbn [Market.dispatchable_techs];
    [constructor |].
  pose proof (dispatchable_tech_spec stm year region_name entry) as Hone.
  destruct (Market.dispatchable_tech stm year region_name entry) as [[t |] log1];
    destruct (Market.dispatchable_techs stm year region_name rest) as [ts log2];
    cbn [fst] in *; [constructor; [now apply Hone | exact IH] | exact IH].
Qed.

(** The record of a region in the outcome of a year is the record the
    loop body computes for it. *)
Lemma simulate_dispatch_lookup (year : Z) (regions : list string)
    (stm : SolarTech.SolarTechModel) (gm : Grid.GridModel) (r : string) :
  (Market.simulate_dispatch_for_year year regions stm gm).1 !! r
  = if decide (r ∈ regions)
    then Some (Market.simulate_region year stm gm r).1
    else None.
Proof.
  unfold Market.simulate_dispatch_for_year.
  assert (Hgen : forall (acc : gmap string Market.RegionOutcome)
                         (log : list log_record),
             (fold_left
                (fun '(market_outcomes, log) region_name =>
                   let '(rec, log1) :=
                     Market.simulate_region year stm gm region_name in
                   (<[region_name := rec]> market_outcomes, app log log1))
                regions (acc, log)).1 !! r
             = if decide (r ∈ regions)
               then Some (Market.simulate_region year stm gm r).1
               else acc !! r).
  { induction regions as [| x l IH]; intros acc log.
    - cbn. destruct (decide (r ∈ [])) as [Hin | _]; [| reflexivity].
      now apply elem_of_nil in Hin.
    - cbn [fold_left].
      destruct (Market.simulate_region year stm gm x) as [rec log1] eqn:Hx.
      rewrite IH.
      destruct (decide (r ∈ l)) as [Hin | Hnin].
      + rewrite decide_True by now apply list_elem_of_further. reflexivity.
      + destruct (decide (r = x)) as [-> | Hne].
        * rewrite decide_True by apply list_elem_of_here.
          rewrite lookup_insert_eq, Hx. reflexivity.
        * rewrite decide_False.
          -- now rewrite lookup_insert_ne.
          -- intros Hin. apply elem_of_cons in Hin as [? | ?]; contradiction. }
  rewrite (Hgen ∅ []). destruct (decide (r ∈ regions)); [reflexivity |].
  apply lookup_empty.
Qed.


(** The record of one region, for a non-negative peak load. *)
Lemma simulate_region_record (year : Z) (stm : SolarTech.SolarTechModel)
    (gm : Grid.GridModel) (r : string) :
  let rec := (Market.simulate_region year stm gm r).1 in
  (forall p, Grid.regional_data gm !! r = Some p -> 0 <= Grid.current_load_mw p) ->
  Market.annual_demand_mwh rec
  = match Grid.regional_data gm !! r with
    | Some p => Grid.current_load_mw p * 8760
    | None => 0
    end
  /\ 0 <= Market.annual_demand_mwh rec
  /\ (Market.total_generation_mwh rec, Market.total_dispatched_generation_mwh rec)
     = Market.dispatch (Market.annual_demand_mwh rec) (region_techs year stm gm r) ([], 0)
  /\ Market.unmet_demand_mwh rec
     == Qmax 0 (Market.annual_demand_mwh rec
                - Market.total_dispatched_generation_mwh rec).
Proof.
  intros rec Hload. subst rec.
  unfold Market.simulate_region, region_techs, Grid.get_current_capacity_by_tech.
  destruct (Grid.regional_data gm !! r) as [p |] eqn:Hp; cbn [fst].
  - specialize (Hload p eq_refl).
    assert (Hdemand : 0 <= Grid.current_load_mw p * Market.HOURS_PER_YEAR).
    { unfold Market.HOURS_PER_YEAR. nra. }
    destruct (default [] (Grid.dict_objects gm !! Grid.capacities_mw_by_tech p))
      as [| entry installed] eqn:Hinst.
    + cbn. repeat split; try assumption.
      rewrite Q.max_r; [ring | lra].
    + pose proof (dispatchable_techs_spec stm year r (entry :: installed)) as Hts.
      destruct (Market.dispatchable_techs stm year r (entry :: installed))
        as [techs log2].
      cbn [fst] in Hts |- *.
      rewrite sort_by_cost_zero
        by (eapply Forall_impl; [exact Hts | now intros t [Hc _]]).
      destruct (Market.dispatch (Grid.current_load_mw p * Market.HOURS_PER_YEAR)
                  techs ([], 0)) as [generation dispatched] eqn:Hdisp.
      cbn [fst Market.annual_demand_mwh Market.total_generation_mwh
           Market.total_dispatched_generation_mwh Market.unmet_demand_mwh].
      rewrite Hdisp. repeat split; try assumption; reflexivity.
  - cbn. repeat split; try reflexivity; try apply Qle_refl.
Qed.

(** C5, as stated, fails on the code.  A region with a negative peak load
    and no installed capacity gets a record whose total dispatched
    generation (0) exceeds its annual demand and whose unmet demand is
    negative. *)
Lemma dispatch_negative_load :
  let input :=
    {| Grid.in_existing_capacity_mw := Some 100;
       Grid.in_current_load_mw := Some (- (1));
       Grid.in_max_solar_penetration_pct := None;
       Grid.in_base_interconnection_cost_usd_per_mw := None;
       Grid.in_transmission_constraint_factor := None;
       Grid.in_avg_transmission_cost_usd_per_mw_km := None;
       Grid.in_avg_terrain_factor := None;
       Grid.in_current_solar_mw := None;
       Grid.in_capacities_mw_by_tech := None |} in
  let gm := (Grid.init [("X", input)]).1 in
  exists rec,
    (Market.simulate_dispatch_for_year 2025 ["X"] SolarTech.empty_model gm).1 !! "X"
    = Some rec
    /\ Market.annual_demand_mwh rec < Market.total_dispatched_generation_mwh rec
    /\ Market.unmet_demand_mwh rec < 0.
Proof.
  cbv zeta. eexists. split; [vm_compute; reflexivity |].
  split; vm_compute; reflexivity.
Qed.

(** The running total of the dispatch loop in doubles.  With a peak load
    of 905.53 MW and PV capacities of 1411.4 MW and 13991.8 MW, the second
    technology is dispatched the rounded remainder of the demand, and the
    rounded total ends on the double next above the demand:
    7932442.800000001 against 7932442.8. *)
Example dispatch_total_in_doubles :
  let demand := fmul (fl64 (90553 # 100)) 8760 in
  let potential (capacity_mw : Q) :=
    fmul (fmul (fl64 capacity_mw) (fl64 Market.DEFAULT_PV_CAPACITY_FACTOR)) 8760 in
  let first := fadd 0 (Qmin (potential (14114 # 10)) (fsub demand 0)) in
  let total := fadd first (Qmin (potential (139918 # 10)) (fsub demand first)) in
  demand < total /\ total <= demand * (1 + 2 ^ (-52)).
Proof. vm_compute. split; [reflexivity | congruence]. Qed.

(** C5, amended.  For every region record of
    [simulate_dispatch_for_year] whose region has a non-negative peak load
    in the grid model (or is not in the grid model): the annual demand is
    peak load times 8760 (0 for a region without grid data); the total
    dispatched generation does not exceed it by more than one unit in the
    last place of the demand, a relative [2 ^ -52] (the running total of
    the source is a sum of doubles, which can end on the double next above
    the demand; with exact sums it does not exceed the demand at all); the
    technologies are dispatched in order, each adding the minimum of its
    potential and the demand still unmet; the unmet demand is
    [max(0, demand - dispatched)] and not negative.  And every region of
    the list gets a record. *)
Theorem dispatch_respects_demand (year : Z) (regions : list string)
    (stm : SolarTech.SolarTechModel) (gm : Grid.GridModel) (r : string)
    (rec : Market.RegionOutcome) :
  (Market.simulate_dispatch_for_year year regions stm gm).1 !! r = Some rec ->
  (forall p, Grid.regional_data gm !! r = Some p -> 0 <= Grid.current_load_mw p) ->
  let demand := Market.annual_demand_mwh rec in
  let techs := region_techs year stm gm r in
  let dispatched_after (l : list Market.DispatchableTech) :=
    (Market.dispatch demand l ([], 0)).2 in
  demand = match Grid.regional_data gm !! r with
           | Some p => Grid.current_load_mw p * 8760
           | None => 0
           end
  /\ Market.total_dispatched_generation_mwh rec <= demand * (1 + 2 ^ (-52))
  /\ Market.total_dispatched_generation_mwh rec = dispatched_after techs
  /\ (forall prefix t rest, techs = app prefix (t :: rest) ->
        dispatched_after (app prefix [t]) - dispatched_after prefix
        == Qmin (Market.potential_mwh t)
                (remaining_unmet_demand demand (dispatched_after prefix)))
  /\ Market.unmet_demand_mwh rec
     == Qmax 0 (demand - Market.total_dispatched_generation_mwh rec)
  /\ 0 <= Market.unmet_demand_mwh rec
  /\ (forall r', r' ∈ regions ->
        is_Some ((Market.simulate_dispatch_for_year year regions stm gm).1 !! r')).
Proof.
  intros Hrec Hload demand techs dispatched_after.
  rewrite simulate_dispatch_lookup in Hrec.
  destruct (decide (r ∈ regions)) as [Hin | _]; [| discriminate].
  injection Hrec as Hrec.
  destruct (simulate_region_record year stm gm r Hload)
    as (Hdemand & Hnonneg & Hdispatch & Hunmet).
  rewrite Hrec in Hdemand, Hnonneg, Hdispatch, Hunmet.
  fold demand in Hdemand, Hnonneg, Hdispatch, Hunmet. fold techs in Hdispatch.
  assert (Htotal : Market.total_dispatched_generation_mwh rec = dispatched_after techs).
  { unfold dispatched_after. now rewrite <- Hdispatch. }
  split; [exact Hdemand |]. split; [| split; [exact Htotal | split; [| split; [| split]]]].
  - rewrite Htotal. unfold dispatched_after.
    assert (Hle : (Market.dispatch demand techs ([], 0)).2 <= demand)
      by now apply (dispatch_bounds demand techs [] 0).
    pose proof (two_power_pos (-52)). nra.
  - intros prefix t rest Htechs. unfold dispatched_after, remaining_unmet_demand.
    rewrite dispatch_app.
    destruct (Market.dispatch demand prefix ([], 0)) as [gen d] eqn:Hprefix.
    cbn [snd]. apply dispatch_contribution.
    pose proof (dispatchable_techs_spec stm year r
                  (Grid.get_current_capacity_by_tech gm r).1) as Hts.
    fold (region_techs year stm gm r) in Hts. fold techs in Hts.
    rewrite Htechs in Hts. apply Forall_app in Hts as [_ Hts].
    inversion Hts as [| ? ? [_ Hpos] _]. exact Hpos.
  - exact Hunmet.
  - rewrite Hunmet. apply Q.le_max_l.
  - intros r' Hr'. rewrite simulate_dispatch_lookup.
    rewrite decide_True by exact Hr'. eauto.
Qed.


Lemma dispatch_respects_demand_witness :
  ((Market.simulate_dispatch_for_year 2025 ["USA"] topcon_model usa_grid_2025).1
     !! "USA" = Some usa_outcome
   /\ forall p, Grid.regional_data usa_grid_2025 !! "USA" = Some p ->
                0 <= Grid.current_load_mw p)
  /\ Market.total_dispatched_generation_mwh usa_outcome
     <= Market.annual_demand_mwh usa_outcome * (1 + 2 ^ (-52)).
Proof.
  assert (Hrec : (Market.simulate_dispatch_for_year 2025 ["USA"] topcon_model
                    usa_grid_2025).1 !! "USA" = Some usa_outcome)
    by (vm_compute; reflexivity).
  assert (Hload : forall p, Grid.regional_data usa_grid_2025 !! "USA" = Some p ->
                            0 <= Grid.current_load_mw p).
  { intros p Hp. vm_compute in Hp. injection Hp as <-. vm_compute. congruence. }
  split; [split; assumption |].
  exact (proj1 (proj2 (dispatch_respects_demand 2025 ["USA"] topcon_model
                         usa_grid_2025 "USA" usa_outcome Hrec Hload))).
Defined.

(** ** Investment evaluation: the simple payback period *)


(** The cascade returns, and what it returns in each case. *)
Lemma simple_payback_cases (cap inv cash : Q) :
  exists pb,
    Invest.simple_payback_period_years cap inv cash = Returned pb
    /\ (cap == 0 -> inv == 0 -> pb = Invest.Years 0)
    /\ (inv == 0 -> ~ cap == 0 ->
        pb = Invest.NotApplicable "N/A (initial investment is zero)")
    /\ (cash <= 0 -> ~ (cap == 0 /\ inv == 0) -> is_not_applicable pb)
    /\ (~ inv == 0 -> 0 < cash -> pb = Invest.Years (inv / cash)).
Proof.
  unfold Invest.simple_payback_period_years.
  destruct (Qeqb cap 0) eqn:Hcap; destruct (Qeqb inv 0) eqn:Hinv; cbn [andb]; Qbool.
  - eexists. split; [reflexivity |].
    repeat split; intros; try reflexivity; try contradiction; exfalso; tauto.
  - destruct (Qleb cash 0) eqn:Hcash; Qbool.
    + eexists. split; [reflexivity |].
      repeat split; intros; try contradiction; try (eexists; reflexivity); exfalso; lra.
    + assert (Hnz : ~ cash == 0) by lra.
      rewrite (py_div_nonzero _ _ Hnz), bind_ret.
      eexists. split; [reflexivity |].
      repeat split; intros; try contradiction; try reflexivity; exfalso; lra.
  - eexists. split; [reflexivity |].
    repeat split; intros; try contradiction; try reflexivity; try (eexists; reflexivity).
  - destruct (Qleb cash 0) eqn:Hcash; Qbool.
    + eexists. split; [reflexivity |].
      repeat split; intros; try contradiction; try (eexists; reflexivity); exfalso; lra.
    + assert (Hnz : ~ cash == 0) by lra.
      rewrite (py_div_nonzero _ _ Hnz), bind_ret.
      eexists. split; [reflexivity |].
      repeat split; intros; try contradiction; try reflexivity; exfalso; lra.
Qed.

(** The payback that [results] holds after the [try] block is the one the
    cascade computed from the investment and the cash flow of [results]. *)
Lemma evaluate_after_lcoe_payback (self : Invest.InvestmentDecisionModel)
    (lcoe_result : Cost.LcoeResult) (lcoe capex cap cf dr : Q) (L : Z)
    (region time_of_day : string) (services : list string) (scheme : option string) :
  let res := Invest.evaluate_after_lcoe self lcoe_result lcoe capex cap cf dr L
               region time_of_day services scheme in
  exists inv cash pb,
    Invest.initial_investment_usd res = Some inv
    /\ Invest.annual_net_cash_flow_usd res = Some cash
    /\ Invest.simple_payback_period_years cap inv cash = Returned pb
    /\ Invest.payback res = Some pb.
Proof.
  unfold Invest.evaluate_after_lcoe. cbv zeta.
  match goal with
  | |- context [Invest.simple_payback_period_years cap ?i ?c] =>
      destruct (simple_payback_cases cap i c) as (pb & Hpb & _);
      exists i, c, pb; rewrite Hpb
  end.
  match goal with
  | |- context [match ?npv with Returned _ => _ | Raised _ => _ end] =>
      destruct npv
  end; repeat split; reflexivity.
Qed.


(** C8, as stated, fails on the code.  A project of capacity 0 has an
    annual net cash flow of 0, which is [<= 0], and its payback is the
    float 0.0, not an 'N/A' sentinel. *)
Lemma zero_capacity_payback_is_zero :
  let res := Invest.evaluate_project_attractiveness sample_evaluator "TOPCon" 2025
               0 (2 # 10) (5 # 100) 25 "USA" "mid_peak" [] None in
  exists cash,
    Invest.annual_net_cash_flow_usd res = Some cash
    /\ cash <= 0
    /\ Invest.payback res = Some (Invest.Years 0)
    /\ ~ is_not_applicable (Invest.Years 0).
Proof.
  cbv zeta. eexists. split; [vm_compute; reflexivity |].
  split; [vm_compute; congruence |]. split; [vm_compute; reflexivity |].
  intros [text Htext]. discriminate Htext.
Qed.

(** A result dictionary without an error has a finite LCOE and a capex. *)
Lemma from_crf_success_shape (technology_name : string) (capex opex eff : Q)
    (avail : bool) (log0 : list log_record) (cf crf : Q)
    (res : Cost.LcoeResult) (log : list log_record) :
  Cost.evolving_lcoe_from_crf technology_name capex opex eff avail log0 cf crf
  = Returned (res, log) ->
  Cost.lcoe_error res = None ->
  exists lcoe c,
    Cost.lcoe_usd_per_mwh res = Fin lcoe /\ Cost.lcoe_capex_usd_per_kw res = Some c.
Proof.
  unfold Cost.evolving_lcoe_from_crf.
  destruct (Qeqb (8760 * cf / 1000) 0).
  - destruct (Qltb 0 (capex * crf + opex)).
    + intros [= <- _] Herr. discriminate Herr.
    + intros [= <- _] _. cbn. eauto.
  - intros Hret _. apply bind_Returned in Hret as (l & _ & Hret).
    injection Hret as <- _. cbn. eauto.
Qed.

Lemma evolving_success_shape (self : Cost.CostModel) (stm : SolarTech.SolarTechModel)
    (technology_name : string) (year : Z) (cf dr : Q) (L : Z)
    (res : Cost.LcoeResult) (log : list log_record) :
  Cost.calculate_lcoe_for_evolving_solar_tech self stm technology_name year cf dr L
  = Returned (res, log) ->
  Cost.lcoe_error res = None ->
  exists lcoe capex,
    Cost.lcoe_usd_per_mwh res = Fin lcoe /\ Cost.lcoe_capex_usd_per_kw res = Some capex.
Proof.
  intros Hret Herr.
  unfold Cost.calculate_lcoe_for_evolving_solar_tech in Hret.
  destruct (SolarTech.get_technology_details stm technology_name year) as [msg | p];
    [injection Hret as <- _; discriminate Herr |].
  cbv zeta in Hret.
  destruct (L <=? 0)%Z.
  - destruct (Qltb 0 (SolarTech.capex_usd_per_kw p)).
    + injection Hret as <- _. discriminate Herr.
    + eapply from_crf_success_shape; eauto.
  - destruct (Qeqb dr 0).
    + apply bind_Returned in Hret as (crf & _ & Hret).
      eapply from_crf_success_shape; eauto.
    + destruct (Cost.growth_factor dr L) as [growth | e].
      * destruct (Qeqb (fsub growth 1) 0).
        -- destruct (Qltb 0 (SolarTech.capex_usd_per_kw p)).
           ++ injection Hret as <- _. discriminate Herr.
           ++ eapply from_crf_success_shape; eauto.
        -- apply bind_Returned in Hret as (crf & _ & Hret).
           eapply from_crf_success_shape; eauto.
      * destruct e; try discriminate Hret.
        injection Hret as <- _. discriminate Herr.
Qed.

(** C8, amended.  Whenever the LCOE of the project has no error,
    [evaluate_project_attractiveness] sets the simple payback period, and
    for the initial investment and the annual net cash flow it reports:
    the payback is 0 when capacity and investment are both zero (the cash
    flow is then 0 as well); it is the sentinel 'N/A (initial investment
    is zero)' when the investment is zero and the capacity is not; it is
    an 'N/A' sentinel whenever the cash flow is [<= 0], unless capacity and
    investment are both zero; and otherwise it is investment divided by
    cash flow. *)
Theorem payback_sentinels (self : Invest.InvestmentDecisionModel)
    (technology_name : string) (year : Z) (cap cf dr : Q) (L : Z)
    (region time_of_day : string) (services : list string) (scheme : option string) :
  let res := Invest.evaluate_project_attractiveness self technology_name year cap cf
               dr L region time_of_day services scheme in
  (forall lcoe_result log,
      Cost.calculate_lcoe_for_evolving_solar_tech (Invest.cost_model self)
        (Invest.solar_tech_model self) technology_name year cf dr L
      = Returned (lcoe_result, log) ->
      Cost.lcoe_error lcoe_result = None ->
      is_Some (Invest.payback res))
  /\ (forall pb,
        Invest.payback res = Some pb ->
        exists inv cash,
          Invest.initial_investment_usd res = Some inv
          /\ Invest.annual_net_cash_flow_usd res = Some cash
          /\ (cap == 0 -> inv == 0 -> pb = Invest.Years 0)
          /\ (inv == 0 -> ~ cap == 0 ->
              pb = Invest.NotApplicable "N/A (initial investment is zero)")
          /\ (cash <= 0 -> ~ (cap == 0 /\ inv == 0) -> is_not_applicable pb)
          /\ (~ inv == 0 -> 0 < cash -> pb = Invest.Years (inv / cash))).
Proof.
  intros res. subst res. unfold Invest.evaluate_project_attractiveness. split.
  - intros lcoe_result log Hret Herr.
    destruct (evolving_success_shape _ _ _ _ _ _ _ _ _ Hret Herr)
      as (lcoe & capex & Hlcoe & Hcapex).
    rewrite Hret, Herr, Hlcoe, Hcapex.
    destruct (evaluate_after_lcoe_payback self lcoe_result lcoe capex cap cf dr L
                region time_of_day services scheme) as (inv & cash & pb & _ & _ & _ & Hpb).
    rewrite Hpb. eauto.
  - intros pb Hpb.
    destruct (Cost.calculate_lcoe_for_evolving_solar_tech (Invest.cost_model self)
                (Invest.solar_tech_model self) technology_name year cf dr L)
      as [[lcoe_result log] | e]; [| discriminate Hpb].
    destruct (Cost.lcoe_error lcoe_result); [discriminate Hpb |].
    destruct (Cost.lcoe_usd_per_mwh lcoe_result) as [lcoe |]; [| discriminate Hpb].
    destruct (Cost.lcoe_capex_usd_per_kw lcoe_result) as [capex |]; [| discriminate Hpb].
    destruct (evaluate_after_lcoe_payback self lcoe_result lcoe capex cap cf dr L
                region time_of_day services scheme)
      as (inv & cash & pb' & Hinv & Hcash & Hcascade & Hpb').
    rewrite Hpb' in Hpb. injection Hpb as ->.
    exists inv, cash. split; [exact Hinv |]. split; [exact Hcash |].
    destruct (simple_payback_cases cap inv cash) as (pb'' & Hret & Hcases).
    rewrite Hcascade in Hret. injection Hret as <-. exact Hcases.
Qed.

Lemma payback_sentinels_witness :
  let res := Invest.evaluate_project_attractiveness sample_evaluator "TOPCon" 2025
               0 (2 # 10) (5 # 100) 25 "USA" "mid_peak" [] None in
  Invest.payback res = Some (Invest.Years 0)
  /\ exists inv cash,
       Invest.initial_investment_usd res = Some inv
       /\ Invest.annual_net_cash_flow_usd res = Some cash
       /\ (0 == 0 -> inv == 0 -> Invest.Years 0 = Invest.Years 0).
Proof.
  cbv zeta.
  assert (Hpb : Invest.payback
                  (Invest.evaluate_project_attractiveness sample_evaluator "TOPCon"
                     2025 0 (2 # 10) (5 # 100) 25 "USA" "mid_peak" [] None)
                = Some (Invest.Years 0)) by (vm_compute; reflexivity).
  split; [exact Hpb |].
  destruct (proj2 (payback_sentinels sample_evaluator "TOPCon" 2025 0 (2 # 10)
                     (5 # 100) 25 "USA" "mid_peak" [] None) _ Hpb)
    as (inv & cash & Hinv & Hcash & Hzero & _).
  exists inv, cash. repeat split; assumption.
Defined.

(** ** The recorded generation and the scenarios of the repository *)

Lemma dict_get_set (d : list (string * Q)) (key : string) (v : Q) :
  dict_get (dict_set d key v) key = Some v.
Proof.
  induction d as [| [k w] rest IH]; cbn.
  - now rewrite String.eqb_refl.
  - destruct (String.eqb k key) eqn:Hk; cbn; rewrite Hk; [reflexivity | exact IH].
Qed.

(** A technology that is dispatched while demand is unmet is recorded
    with the minimum of its potential and the demand still unmet. *)
Lemma dispatch_records_contribution (demand : Q) (t : Market.DispatchableTech)
    (gen : list (string * Q)) (d : Q) :
  0 < Market.potential_mwh t -> d < demand ->
  dict_get (Market.dispatch demand [t] (gen, d)).1 (Market.tech_name t)
  = Some (Qmin (Market.potential_mwh t) (demand - d)).
Proof.
  intros Hpot Hd. cbn [Market.dispatch].
  rewrite (proj2 (Qleb_false _ _) Hd).
  assert (Hg : 0 < Qmin (Market.potential_mwh t) (demand - d)).
  { apply Q.min_glb_lt; lra. }
  rewrite (proj2 (Qltb_true _ _) Hg). cbn [fst]. apply dict_get_set.
Qed.

(** The technology of the unit tests of [solar_tech_model.py]. *)
Example test_topcon_efficiency_and_capex :
  let t := SolarTech.init "TestTOPCon" (22 # 100) (26 # 100) 2023 2022 (4 # 1000)
             700 (3 # 100) in
  SolarTech.efficiency (SolarTech.get_params_for_year t 2022) == 22 # 100
  /\ SolarTech.efficiency (SolarTech.get_params_for_year t 2028) == 2367 # 10000
  /\ SolarTech.efficiency (SolarTech.get_params_for_year t 2040) == 26 # 100
  /\ SolarTech.capex_usd_per_kw (SolarTech.get_params_for_year t 2022) == 700
  /\ SolarTech.capex_usd_per_kw (SolarTech.get_params_for_year t 2028) == 60111 # 100
  /\ SolarTech.is_commercially_available (SolarTech.get_params_for_year t 2022) = true.
Proof. vm_compute. repeat split; congruence. Qed.

(** The ledger of the unit tests: the total is 600, and the flat LCOE at
    capacity factor 0.20, discount rate 0.05 and 25 years is finite and
    positive. *)
Example test_cost_model_lcoe :
  Cost.current_costs cost_model_pv !! "capex_per_kw" = Some 600
  /\ exists lcoe,
       Cost.calculate_lcoe cost_model_pv (2 # 10) (5 # 100) 25 None 0
       = Returned (Fin lcoe, [])
       /\ 35 < lcoe /\ lcoe < 36.
Proof.
  split; [vm_compute; reflexivity |].
  eexists. split; [vm_compute; reflexivity |]. vm_compute. split; congruence.
Qed.

(** The example of [grid_model.py]: 10000 MW in the USA at 10 km. *)
Example test_interconnection_cost :
  exists cost,
    (Grid.calculate_interconnection_costs usa_grid "USA" 10000 10).1 = Fin cost
    /\ cost == 1400000000.
Proof. eexists. split; vm_compute; reflexivity. Qed.

(** * Further properties of the code *)

(** ** Technology registry *)

(** X1.  Registering a technology and asking for it returns its parameters,
    also when the name was registered before; every other name is
    answered as before. *)
Theorem add_technology_then_details (self : SolarTech.SolarTechModel)
    (tech : SolarTech.SolarTechnology) (other : string) (year : Z) :
  SolarTech.get_technology_details (SolarTech.add_technology self tech)
    (SolarTech.name tech) year
  = SolarTech.Details (SolarTech.get_params_for_year tech year)
  /\ (other <> SolarTech.name tech ->
      SolarTech.get_technology_details (SolarTech.add_technology self tech) other year
      = SolarTech.get_technology_details self other year).
Proof.
  unfold SolarTech.get_technology_details, SolarTech.add_technology.
  cbn [SolarTech.technologies]. split.
  - now rewrite lookup_insert_eq.
  - intros Hne. now rewrite lookup_insert_ne by congruence.
Qed.

(** ** Cost model: the keys of the ledger *)

Lemma is_Some_insert_inv (costs : gmap string Q) (key k : string) (v : Q) :
  is_Some (<[key := v]> costs !! k) -> k = key \/ is_Some (costs !! k).
Proof.
  destruct (decide (key = k)) as [-> | Hne]; [auto |].
  rewrite lookup_insert_ne by exact Hne. auto.
Qed.

Section LedgerKeys.
Context `{MathLib}.
Variable D : string -> Prop.
Hypothesis D_total : D "capex_per_kw".

Lemma recalculate_keys_within (self : Cost.CostModel) :
  keys_within D self -> keys_within D (Cost._recalculate_total_capex self).
Proof using D_total.
  intros Hk k Hsome. cbn in Hsome.
  apply is_Some_insert_inv in Hsome as [-> | Hsome]; auto.
Qed.

Lemma update_cost_component_keys_within (self : Cost.CostModel) (c : string) (v : Q) :
  keys_within D self -> keys_within D (Cost.update_cost_component self c v).1.
Proof using D_total.
  intros Hk. unfold Cost.update_cost_component.
  case_bool_decide as Hpresent; [| exact Hk].
  assert (Hset : keys_within D
                   (Cost.set_current_costs self (<[c := v]> (Cost.current_costs self)))).
  { intros k Hsome. cbn in Hsome.
    apply is_Some_insert_inv in Hsome as [-> | Hsome]; auto. }
  case_bool_decide; cbn [fst]; [| exact Hset].
  now apply recalculate_keys_within.
Qed.

Lemma update_opex_cost_keys_within (self : Cost.CostModel) (v : Q) :
  keys_within D self -> keys_within D (Cost.update_opex_cost self v).1.
Proof.
  intros Hk. unfold Cost.update_opex_cost.
  case_bool_decide as Hpresent; [| exact Hk].
  intros k Hsome. cbn in Hsome.
  apply is_Some_insert_inv in Hsome as [-> | Hsome]; auto.
Qed.

Lemma adjust_costs_keys_within (self : Cost.CostModel) (a b : string) :
  keys_within D self ->
  keys_within D (Cost.adjust_costs_based_on_supply_chain self a b).1.
Proof using D_total.
  intros Hk. unfold Cost.adjust_costs_based_on_supply_chain.
  destruct (Cost.supply_chain_model self) as [scm |]; [| exact Hk].
  destruct (Cost.current_costs self !! "module_usd_per_kw") as [c |]; [| exact Hk].
  destruct (Cost.material_adjustment scm a) as [m log1].
  destruct (Cost.concentration_adjustment scm b) as [q log2].
  destruct (Qltb 0 (m + q)); [| exact Hk].
  pose proof (update_cost_component_keys_within self "module_usd_per_kw"
                (c * (1 + (m + q))) Hk) as Hu.
  destruct (Cost.update_cost_component self "module_usd_per_kw" (c * (1 + (m + q)))).
  exact Hu.
Qed.

Lemma learn_items_keys (self : Cost.CostModel) (v e : Q) (keys : list string) :
  forall (costs costs' : gmap string Q) (log log' : list log_record),
    Cost.learn_items self v e keys (costs, log) = Returned (costs', log') ->
    forall k, is_Some (costs' !! k) -> is_Some (costs !! k).
Proof.
  induction keys as [| key rest IH]; intros costs costs' log log' Hrun k Hsome.
  - injection Hrun as <- <-. exact Hsome.
  - cbn [Cost.learn_items] in Hrun.
    apply bind_Returned in Hrun as ([costs1 log1] & Hitem & Hrest).
    pose proof (IH _ _ _ _ Hrest k Hsome) as Hsome1.
    unfold Cost.learn_item in Hitem.
    destruct (Cost.initial_costs_snapshot self !! key) as [c |].
    + case_bool_decide as Hpresent.
      * apply bind_Returned in Hitem as (ratio & _ & Hitem).
        apply bind_Returned in Hitem as (factor & _ & Hitem).
        injection Hitem as <- <-.
        apply is_Some_insert_inv in Hsome1 as [-> | Hs]; assumption.
      * injection Hitem as <- <-. exact Hsome1.
    + injection Hitem as <- <-. exact Hsome1.
Qed.

Lemma apply_learning_curve_keys_within (self self' : Cost.CostModel) (v : Q)
    (log : list log_record) :
  keys_within D self ->
  Cost.apply_learning_curve self v = Returned (self', log) ->
  keys_within D self'.
Proof using D_total.
  intros Hk Happ. unfold Cost.apply_learning_curve in Happ.
  destruct (Qleb v (Cost.current_production_volume self)).
  - injection Happ as <- _. exact Hk.
  - apply bind_Returned in Happ as (ln & _ & Happ).
    apply bind_Returned in Happ as (l2 & _ & Happ).
    apply bind_Returned in Happ as (e & _ & Happ).
    apply bind_Returned in Happ as ([costs lg] & Hitems & Happ).
    injection Happ as <- _.
    intros k Hsome. cbn in Hsome.
    apply is_Some_insert_inv in Hsome as [-> | Hsome]; [exact D_total |].
    apply Hk. eapply learn_items_keys; eauto.
Qed.

Lemma update_for_year_keys_within (self self' : Cost.CostModel) (y : Z)
    (v : option Q) (log : list log_record) :
  keys_within D self ->
  Cost.update_for_year self y v = Returned (self', log) ->
  keys_within D self'.
Proof using D_total.
  intros Hk Hupd. unfold Cost.update_for_year in Hupd.
  apply bind_Returned in Hupd as ([s l] & Hfirst & Hupd).
  assert (Hs : keys_within D s).
  { destruct v as [v0 |].
    - destruct (Qltb (Cost.current_production_volume self) v0).
      + now apply (apply_learning_curve_keys_within self s v0 l).
      + injection Hfirst as <- _. exact Hk.
    - injection Hfirst as <- _. exact Hk. }
  destruct (Cost.supply_chain_model s).
  - pose proof (adjust_costs_keys_within s "polysilicon" "solar_modules" Hs) as Ha.
    destruct (Cost.adjust_costs_based_on_supply_chain s "polysilicon" "solar_modules").
    injection Hupd as <- _. exact Ha.
  - injection Hupd as <- _. exact Hs.
Qed.

Lemma call_keys_within (self self' : Cost.CostModel) (op : Cost.operation)
    (log : list log_record) :
  keys_within D self ->
  Cost.call self op = Returned (self', log) ->
  keys_within D self'.
Proof using D_total.
  intros Hk. destruct op as [c v | v | v | a b | y v]; cbn.
  - intros [= Hc]. pose proof (update_cost_component_keys_within self c v Hk) as Hu.
    destruct (Cost.update_cost_component self c v). injection Hc as <- _. exact Hu.
  - now apply apply_learning_curve_keys_within.
  - intros [= Hc]. pose proof (update_opex_cost_keys_within self v Hk) as Hu.
    destruct (Cost.update_opex_cost self v). injection Hc as <- _. exact Hu.
  - intros [= Hc]. pose proof (adjust_costs_keys_within self a b Hk) as Hu.
    destruct (Cost.adjust_costs_based_on_supply_chain self a b).
    injection Hc as <- _. exact Hu.
  - now apply update_for_year_keys_within.
Qed.

Lemma calls_keys_within (ops : list Cost.operation) :
  forall self self',
    keys_within D self -> Cost.calls self ops = Returned self' -> keys_within D self'.
Proof using D_total.
  induction ops as [| op rest IH]; intros self self' Hk Hrun.
  - injection Hrun as <-. exact Hk.
  - cbn [Cost.calls] in Hrun.
    apply bind_Returned in Hrun as ([s l] & Hcall & Hrun).
    eapply IH; [| exact Hrun]. eapply call_keys_within; eauto.
Qed.

End LedgerKeys.

Section LedgerReach.
Context `{MathLib}.

Variables (name : string) (initial_costs : gmap string Q) (lr v0 : Q)
          (scm : option Cost.SupplyChainModel)
          (stm : option SolarTech.SolarTechModel).

Lemma init_keys (k : string) :
  is_Some (Cost.current_costs (Cost.init name initial_costs lr v0 scm stm) !! k)
  <-> is_Some (initial_costs !! k) \/ k = "capex_per_kw".
Proof.
  cbn. split.
  - intros Hsome. apply is_Some_insert_inv in Hsome. tauto.
  - intros [Hsome | ->]; [now apply is_Some_insert_mono |].
    rewrite lookup_insert_eq. eauto.
Qed.

(** The keys of a ledger reached from the constructor. *)
Lemma reached_keys (ops : list Cost.operation) (self : Cost.CostModel)
    (k : string) :
  Cost.calls (Cost.init name initial_costs lr v0 scm stm) ops = Returned self ->
  is_Some (Cost.current_costs self !! k)
  <-> is_Some (initial_costs !! k) \/ k = "capex_per_kw".
Proof.
  intros Hcalls. split.
  - intros Hsome.
    refine (calls_keys_within
              (fun k => is_Some (initial_costs !! k) \/ k = "capex_per_kw")
              _ ops _ self _ Hcalls k Hsome); [right; reflexivity |].
    intros k' Hk'. now apply init_keys.
  - intros Hk. apply calls_baseline in Hcalls as (_ & _ & _ & Hdom).
    apply Hdom. now apply init_keys.
Qed.

(** X2.  No method of [CostModel] adds or removes an entry of
    [current_costs]: in every model reached from the constructor by a
    sequence of method calls that return, the keys are those of the initial
    costs and ['capex_per_kw']. *)
Theorem ledger_keys_fixed (ops : list Cost.operation) (self : Cost.CostModel)
    (k : string) :
  Cost.calls (Cost.init name initial_costs lr v0 scm stm) ops = Returned self ->
  is_Some (Cost.current_costs self !! k)
  <-> is_Some (initial_costs !! k) \/ k = "capex_per_kw".
Proof.
  exact (reached_keys ops self k).
Qed.

(** After a learning curve that applied, every component costs its
    initial cost (0 when it has none) times the learning factor. *)
Lemma learned_component (ops : list Cost.operation) (self self' : Cost.CostModel)
    (v : Q) (log : list log_record) (key : string) :
  Cost.calls (Cost.init name initial_costs lr v0 scm stm) ops = Returned self ->
  Cost.current_production_volume self < v ->
  Cost.apply_learning_curve self v = Returned (self', log) ->
  key ∈ Cost.CAPEX_COMPONENT_KEYS ->
  Cost.get0 (Cost.current_costs self') key
  == Cost.get0 initial_costs key
     * float_pow (v / v0) (math_log (1 - lr) / math_log 2).
Proof.
  intros Hcalls Hv Happ Hkey.
  assert (Hne : "capex_per_kw" <> key).
  { intros <-. now apply capex_key_not_component. }
  pose proof (reached_keys ops self key Hcalls) as Hkeys.
  pose proof Hcalls as Hbase.
  apply calls_baseline in Hbase as (Hsnap & Hlr & Hv0 & Hdom).
  apply Qleb_false in Hv.
  unfold Cost.apply_learning_curve in Happ. rewrite Hv in Happ.
  apply bind_Returned in Happ as (ln & Hln & Happ).
  apply bind_Returned in Happ as (l2 & Hl2 & Happ).
  apply bind_Returned in Happ as (e & He & Happ).
  apply bind_Returned in Happ as ([costs lg] & Hitems & Happ).
  injection Happ as <- _.
  unfold py_log in Hln, Hl2.
  destruct (Qleb (1 - Cost.learning_rate self) 0); [discriminate |].
  destruct (Qleb 2 0); [discriminate |].
  injection Hln as <-. injection Hl2 as <-.
  apply py_div_Returned in He as [_ ->].
  pose proof (learn_items_keys _ _ _ _ _ _ _ _ Hitems key) as Hback.
  apply learn_items_spec in Hitems as (_ & _ & Hvisited).
  unfold Cost.get0. cbn. rewrite lookup_insert_ne by exact Hne.
  destruct (initial_costs !! key) as [c0 |] eqn:Hc0.
  - rewrite (Hvisited key c0 Hkey).
    + cbn. rewrite Hlr, Hv0. reflexivity.
    + rewrite Hsnap. cbn. now rewrite lookup_insert_ne.
    + apply Hkeys. eauto.
  - destruct (costs !! key) as [c |] eqn:Hc.
    + exfalso. destruct Hkeys as [Hkeys _].
      destruct (Hkeys (Hback ltac:(eauto))) as [[x Hx] | Heq]; congruence.
    + cbn. ring.
Qed.

(** X3.  After a learning curve that applied, the total [capex_per_kw] is
    the sum of the initial component costs times the learning factor,
    whatever was done to the ledger in between. *)
Theorem learning_curve_scales_total (ops : list Cost.operation)
    (self self' : Cost.CostModel) (v : Q) (log : list log_record) :
  Cost.calls (Cost.init name initial_costs lr v0 scm stm) ops = Returned self ->
  Cost.current_production_volume self < v ->
  Cost.apply_learning_curve self v = Returned (self', log) ->
  exists total,
    Cost.current_costs self' !! "capex_per_kw" = Some total
    /\ total == sum_of_components initial_costs
                * float_pow (v / v0) (math_log (1 - lr) / math_log 2).
Proof.
  intros Hcalls Hv Happ.
  assert (Hcomp : forall key, key ∈ Cost.CAPEX_COMPONENT_KEYS ->
            Cost.get0 (Cost.current_costs self') key
            == Cost.get0 initial_costs key
               * float_pow (v / v0) (math_log (1 - lr) / math_log 2)).
  { intros key. now apply (learned_component ops self self' v log key). }
  assert (Htotal : Cost.current_costs self' !! "capex_per_kw"
                   = Some (Cost.total_capex (Cost.current_costs self'))).
  { pose proof Hv as Hv'. apply Qleb_false in Hv'.
    unfold Cost.apply_learning_curve in Happ. rewrite Hv' in Happ.
    apply bind_Returned in Happ as (ln & _ & Happ).
    apply bind_Returned in Happ as (l2 & _ & Happ).
    apply bind_Returned in Happ as (e & _ & Happ).
    apply bind_Returned in Happ as ([costs lg] & _ & Happ).
    injection Happ as <- _.
    apply (recalculate_capex_is_total (Cost.set_current_costs self costs)). }
  eexists. split; [exact Htotal |].
  rewrite total_capex_sum. unfold sum_of_components.
  rewrite !Hcomp; [ring | ..].
  all: unfold Cost.CAPEX_COMPONENT_KEYS; repeat constructor.
Qed.

End LedgerReach.

Lemma ledger_keys_fixed_witness :
  @Cost.calls sample_math cost_model_pv
    [Cost.UpdateCostComponent "module_usd_per_kw" 270; Cost.ApplyLearningCurve 20]
  = Returned cost_model_pv_later
  /\ (is_Some (Cost.current_costs cost_model_pv_later !! "land_usd_per_kw")
      <-> is_Some (initial_costs_pv !! "land_usd_per_kw")
          \/ "land_usd_per_kw" = "capex_per_kw").
Proof.
  assert (Hcalls : @Cost.calls sample_math cost_model_pv
            [Cost.UpdateCostComponent "module_usd_per_kw" 270; Cost.ApplyLearningCurve 20]
          = Returned cost_model_pv_later) by (vm_compute; reflexivity).
  split; [exact Hcalls |].
  exact (@ledger_keys_fixed sample_math "TestSolarPV" initial_costs_pv (1 # 10) 10
           None None _ _ "land_usd_per_kw" Hcalls).
Defined.

Lemma learning_curve_scales_total_witness :
  (@Cost.calls sample_math cost_model_pv
     [Cost.UpdateCostComponent "module_usd_per_kw" 270; Cost.ApplyLearningCurve 20]
   = Returned cost_model_pv_later
   /\ Cost.current_production_volume cost_model_pv_later < 40
   /\ @Cost.apply_learning_curve sample_math cost_model_pv_later 40
      = Returned (cost_model_pv_at_40, []))
  /\ exists total,
       Cost.current_costs cost_model_pv_at_40 !! "capex_per_kw" = Some total
       /\ total == sum_of_components initial_costs_pv
                   * @float_pow sample_math (40 / 10)
                       (@math_log sample_math (1 - (1 # 10)) / @math_log sample_math 2).
Proof.
  assert (Hcalls : @Cost.calls sample_math cost_model_pv
            [Cost.UpdateCostComponent "module_usd_per_kw" 270; Cost.ApplyLearningCurve 20]
          = Returned cost_model_pv_later) by (vm_compute; reflexivity).
  assert (Hvol : Cost.current_production_volume cost_model_pv_later < 40)
    by (vm_compute; congruence).
  assert (Happ : @Cost.apply_learning_curve sample_math cost_model_pv_later 40
                 = Returned (cost_model_pv_at_40, [])) by (vm_compute; reflexivity).
  split; [repeat split; assumption |].
  exact (@learning_curve_scales_total sample_math "TestSolarPV" initial_costs_pv
           (1 # 10) 10 None None _ _ _ 40 [] Hcalls Hvol Happ).
Defined.

(** ** Cost model: the supply-chain adjustment *)

Lemma material_adjustment_range (scm : Cost.SupplyChainModel) (a : string) :
  0 <= (Cost.material_adjustment scm a).1
  /\ (Cost.material_adjustment scm a).1 <= 15 # 100.
Proof.
  unfold Cost.material_adjustment.
  repeat case_match; cbn [fst]; split; vm_compute; congruence.
Qed.

Lemma concentration_adjustment_range (scm : Cost.SupplyChainModel) (b : string) :
  0 <= (Cost.concentration_adjustment scm b).1
  /\ (Cost.concentration_adjustment scm b).1 <= 7 # 100.
Proof.
  unfold Cost.concentration_adjustment.
  repeat case_match; cbn [fst]; split; vm_compute; congruence.
Qed.

(** X4.  [adjust_costs_based_on_supply_chain] never lowers a non-negative
    module cost and raises it by at most 22% (15% for the material plus 7%
    for the concentration); it touches no entry but the module cost and
    the total, and it keeps the total equal to the sum of components when
    it was. *)
Theorem supply_chain_adjustment_bounds (self : Cost.CostModel) (a b : string) (c : Q) :
  Cost.current_costs self !! "module_usd_per_kw" = Some c ->
  0 <= c ->
  let self' := (Cost.adjust_costs_based_on_supply_chain self a b).1 in
  (exists c', Cost.current_costs self' !! "module_usd_per_kw" = Some c'
              /\ c <= c' /\ c' <= c * (122 # 100))
  /\ (forall k, k <> "module_usd_per_kw" -> k <> "capex_per_kw" ->
        Cost.current_costs self' !! k = Cost.current_costs self !! k)
  /\ (capex_is_total self -> capex_is_total self').
Proof.
  intros Hmodule Hc self'. subst self'.
  split; [| split; [| apply adjust_costs_capex_is_total]].
  - unfold Cost.adjust_costs_based_on_supply_chain.
    destruct (Cost.supply_chain_model self) as [scm |];
      [| exists c; cbn [fst]; split; [exact Hmodule | split; lra]].
    rewrite Hmodule.
    pose proof (material_adjustment_range scm a) as [Hm0 Hm1].
    pose proof (concentration_adjustment_range scm b) as [Hq0 Hq1].
    destruct (Cost.material_adjustment scm a) as [m log1].
    destruct (Cost.concentration_adjustment scm b) as [q log2].
    cbn [fst] in *.
    destruct (Qltb 0 (m + q)) eqn:Hpos;
      [| exists c; cbn [fst]; split; [exact Hmodule | split; lra]].
    unfold Cost.update_cost_component.
    rewrite bool_decide_true by (rewrite Hmodule; eauto).
    rewrite bool_decide_true
      by (unfold Cost.CAPEX_COMPONENT_KEYS; repeat constructor).
    exists (c * (1 + (m + q))). cbn. split.
    + rewrite lookup_insert_ne by discriminate. now rewrite lookup_insert_eq.
    + split; nra.
  - intros k Hk1 Hk2. unfold Cost.adjust_costs_based_on_supply_chain.
    destruct (Cost.supply_chain_model self) as [scm |]; [| reflexivity].
    rewrite Hmodule.
    destruct (Cost.material_adjustment scm a) as [m log1].
    destruct (Cost.concentration_adjustment scm b) as [q log2].
    destruct (Qltb 0 (m + q)); [| reflexivity].
    unfold Cost.update_cost_component.
    rewrite bool_decide_true by (rewrite Hmodule; eauto).
    rewrite bool_decide_true
      by (unfold Cost.CAPEX_COMPONENT_KEYS; repeat constructor).
    cbn. now rewrite !lookup_insert_ne by congruence.
Qed.

Lemma supply_chain_adjustment_bounds_witness :
  (Cost.current_costs cost_model_tight !! "module_usd_per_kw" = Some 200
   /\ 0 <= 200)
  /\ exists c',
       Cost.current_costs
         (Cost.adjust_costs_based_on_supply_chain cost_model_tight "polysilicon"
            "solar_modules").1 !! "module_usd_per_kw" = Some c'
       /\ 200 <= c' /\ c' <= 200 * (122 # 100).
Proof.
  assert (Hm : Cost.current_costs cost_model_tight !! "module_usd_per_kw" = Some 200)
    by (vm_compute; reflexivity).
  assert (Hc : 0 <= 200) by (vm_compute; congruence).
  split; [split; assumption |].
  exact (proj1 (supply_chain_adjustment_bounds cost_model_tight "polysilicon"
                  "solar_modules" 200 Hm Hc)).
Defined.

(** The adjustment of the example is the full 22%. *)
Example tight_supply_chain_surcharge :
  exists c',
    Cost.current_costs
      (Cost.adjust_costs_based_on_supply_chain cost_model_tight "polysilicon"
         "solar_modules").1 !! "module_usd_per_kw" = Some c'
    /\ c' == 244.
Proof. eexists. split; vm_compute; reflexivity. Qed.

(** ** Cost model: the flat LCOE *)

(** For a rate that is not negative the power raises exactly when it is
    beyond the doubles. *)
Lemma growth_factor_overflows (dr : Q) (L : Z) :
  0 <= dr ->
  Cost.growth_factor dr L = Raised OverflowError
  <-> pow_overflows (fadd 1 dr) L = true.
Proof.
  intros Hdr. split.
  - intros Hr. apply py_pow_int_raises in Hr as [(He & _) | [_ Ho]];
      [discriminate He | exact Ho].
  - apply py_pow_int_overflows. intros [Hb _].
    pose proof (base_ge_1 dr Hdr). lra.
Qed.

(** The three outcomes of [calculate_lcoe]. *)
Lemma calculate_lcoe_outcome (self : Cost.CostModel) (cf dr : Q) (L : Z)
    (annual_opex_per_kw : option Q) (fuel : Q) :
  let capex := Cost.get0 (Cost.current_costs self) "capex_per_kw" in
  let run := Cost.calculate_lcoe self cf dr L annual_opex_per_kw fuel in
  ((capex == 0 \/ dr <= 0
    \/ (2 ^ (-53) < dr /\ L <> 0%Z /\ pow_overflows (fadd 1 dr) L = false))
   /\ exists r, run = Returned r)
  \/ ((~ capex == 0 /\ 0 < dr /\ (dr <= 2 ^ (-53) \/ L = 0%Z)
       /\ pow_overflows (fadd 1 dr) L = false)
      /\ run = Raised ZeroDivisionError)
  \/ ((~ capex == 0 /\ 0 < dr /\ pow_overflows (fadd 1 dr) L = true)
      /\ run = Raised OverflowError).
Proof.
  intros capex run. subst run.
  destruct (Qeq_dec capex 0) as [Hz | Hnz].
  { left. split; [left; exact Hz |].
    rewrite (calculate_lcoe_zero_capex self cf dr L annual_opex_per_kw fuel Hz).
    eauto. }
  destruct (calculate_lcoe_paths self cf dr L annual_opex_per_kw fuel Hnz)
    as (Hpos & Hflat & Hnone).
  destruct (Qlt_le_dec 0 dr) as [Hdr | Hdr].
  2: { left. split; [right; left; exact Hdr |].
       destruct (Z_lt_le_dec 0 L) as [HL | HL].
       - rewrite (Hflat Hdr HL). apply lcoe_from_crf_returns.
       - rewrite (Hnone Hdr HL). eauto. }
  specialize (Hpos Hdr).
  destruct (Cost.growth_factor dr L) as [g | e] eqn:Hg.
  - destruct Hpos as [Hzero Hgo].
    pose proof (py_pow_int_Returned _ _ _ Hg) as [_ Hover].
    assert (HLfin : overflows (inject_Z L) = false).
    { unfold pow_overflows in Hover. now apply orb_false_iff in Hover as [H _]. }
    destruct (Qlt_le_dec (2 ^ (-53)) dr) as [Hbig | Hsmall].
    + destruct (Z.eq_dec L 0%Z) as [HL0 | HL].
      * right. left.
        split; [split; [exact Hnz | split; [exact Hdr | split;
                 [right; exact HL0 | exact Hover]]] |].
        apply Hzero. subst L.
        destruct (growth_factor_zero_lifetime dr) as (g' & Hg' & Hone).
        rewrite Hg in Hg'. injection Hg' as <-.
        now apply crf_denominator_zero_iff.
      * left.
        split; [right; right; split; [exact Hbig | split; [exact HL | exact Hover]] |].
        rewrite Hgo.
        -- apply lcoe_from_crf_returns.
        -- rewrite crf_denominator_zero_iff.
           now apply (growth_factor_not_1 dr L g Hbig HL).
    + right. left.
      split; [split; [exact Hnz | split; [exact Hdr | split;
               [left; exact Hsmall | exact Hover]]] |].
      apply Hzero.
      destruct (growth_factor_absorbed dr L ltac:(lra) Hsmall HLfin)
        as (g' & Hg' & Hone).
      rewrite Hg in Hg'. injection Hg' as <-.
      now apply crf_denominator_zero_iff.
  - right. right.
    apply py_pow_int_raises in Hg as [(_ & Hb & _) | [-> Hover]].
    + pose proof (base_ge_1 dr ltac:(lra)). lra.
    + split; [split; [exact Hnz | split; [exact Hdr | exact Hover]] | exact Hpos].
Qed.

(** X5.  [calculate_lcoe] raises only for a capex that is not zero and a
    positive discount rate: [OverflowError] exactly when, besides, the
    power [(1 + r) ** lifetime] is beyond the doubles, and
    [ZeroDivisionError] exactly when it is not and the rate is at most
    [2 ^ -53] (it is absorbed in [1 + r]) or the lifetime is zero years.
    It raises nothing else, and on every other input it returns. *)
Theorem calculate_lcoe_raises_iff (self : Cost.CostModel) (cf dr : Q) (L : Z)
    (annual_opex_per_kw : option Q) (fuel : Q) :
  let capex := Cost.get0 (Cost.current_costs self) "capex_per_kw" in
  let run := Cost.calculate_lcoe self cf dr L annual_opex_per_kw fuel in
  (run = Raised ZeroDivisionError
   <-> ~ capex == 0 /\ 0 < dr /\ (dr <= 2 ^ (-53) \/ L = 0%Z)
       /\ pow_overflows (fadd 1 dr) L = false)
  /\ (run = Raised OverflowError
      <-> ~ capex == 0 /\ 0 < dr /\ pow_overflows (fadd 1 dr) L = true)
  /\ (forall e, run = Raised e -> e = ZeroDivisionError \/ e = OverflowError)
  /\ ((exists r, run = Returned r)
      <-> capex == 0 \/ dr <= 0
          \/ (2 ^ (-53) < dr /\ L <> 0%Z /\ pow_overflows (fadd 1 dr) L = false)).
Proof.
  intros capex run.
  destruct (calculate_lcoe_outcome self cf dr L annual_opex_per_kw fuel)
    as [[Hcond [r Hrun]] | [[Hcond Hrun] | [Hcond Hrun]]];
    fold capex in Hcond; fold run in Hrun; rewrite Hrun.
  - split; [| split; [| split]].
    + split; [discriminate |]. intros (Hc & Hdr & Hzero & _). exfalso.
      destruct Hcond as [H | [H | (H1 & H2 & _)]]; [contradiction | lra |].
      destruct Hzero; [lra | contradiction].
    + split; [discriminate |]. intros (Hc & Hdr & Hover). exfalso.
      destruct Hcond as [H | [H | (_ & _ & H)]]; [contradiction | lra | congruence].
    + discriminate.
    + split; [intros _; exact Hcond | eauto].
  - split; [| split; [| split]].
    + split; [intros _; exact Hcond | reflexivity].
    + split; [discriminate |]. intros (_ & _ & Hover). exfalso.
      destruct Hcond as (_ & _ & _ & H). congruence.
    + intros e [= <-]. auto.
    + split; [intros [r Hr]; discriminate Hr |].
      destruct Hcond as (Hc & Hdr & Hzero & _).
      intros [H | [H | (H1 & H2 & _)]]; exfalso; [contradiction | lra |].
      destruct Hzero; [lra | contradiction].
  - split; [| split; [| split]].
    + split; [discriminate |]. intros (_ & _ & _ & H). exfalso.
      destruct Hcond as (_ & _ & Hover). congruence.
    + split; [intros _; exact Hcond | reflexivity].
    + intros e [= <-]. auto.
    + split; [intros [r Hr]; discriminate Hr |].
      destruct Hcond as (Hc & Hdr & Hover).
      intros [H | [H | (_ & _ & H)]]; exfalso; [contradiction | lra | congruence].
Qed.

(** The three outcomes on the ledger of the unit tests. *)
Example test_calculate_lcoe_outcomes :
  (exists lcoe, Cost.calculate_lcoe cost_model_pv (2 # 10) (5 # 100) 25 None 0
                = Returned (Fin lcoe, []))
  /\ Cost.calculate_lcoe cost_model_pv (2 # 10) (1 # 10 ^ 17) 25 None 0
     = Raised ZeroDivisionError
  /\ Cost.calculate_lcoe cost_model_pv (2 # 10) 10 400 None 0
     = Raised OverflowError.
Proof.
  split; [eexists; vm_compute; reflexivity |]. split; vm_compute; reflexivity.
Qed.





(** ** Grid model: construction *)

Lemma init_fst (input : list (string * Grid.RegionInput)) :
  (Grid.init input).1
  = (fold_left Grid.init_region input
       ({| Grid.regional_data := ∅; Grid.dict_objects := {[ O := [] ]} |},
        1%nat, [])).1.1.
Proof.
  unfold Grid.init.
  destruct (fold_left Grid.init_region input _) as [[gm next] log].
  case_bool_decide; reflexivity.
Qed.

Lemma init_region_lookup (st : Grid.GridModel * nat * list log_record)
    (name : string) (data : Grid.RegionInput) (r : string) :
  is_Some (Grid.regional_data (Grid.init_region st (name, data)).1.1 !! r)
  <-> is_Some (Grid.regional_data st.1.1 !! r) \/ (r = name /\ valid_input data).
Proof.
  destruct st as [[gm next] log]. unfold Grid.init_region, valid_input.
  destruct (Grid.in_existing_capacity_mw data) as [existing |];
    destruct (Grid.in_current_load_mw data) as [load |]; cbn [fst snd].
  - destruct (Grid.in_capacities_mw_by_tech data); cbn [fst Grid.regional_data];
      rewrite lookup_insert_is_Some; split.
    + intros [<- | [_ Hs]]; [right; eauto | left; exact Hs].
    + intros [Hs | [-> _]]; [| left; reflexivity].
      destruct (decide (name = r)); [left | right]; auto.
    + intros [<- | [_ Hs]]; [right; eauto | left; exact Hs].
    + intros [Hs | [-> _]]; [| left; reflexivity].
      destruct (decide (name = r)); [left | right]; auto.
  - split; [auto |]. intros [Hs | [_ [_ Hn]]]; [exact Hs | now destruct Hn].
  - split; [auto |]. intros [Hs | [_ [Hn _]]]; [exact Hs | now destruct Hn].
  - split; [auto |]. intros [Hs | [_ [Hn _]]]; [exact Hs | now destruct Hn].
Qed.

Lemma init_loop_lookup (input : list (string * Grid.RegionInput)) (r : string) :
  forall st,
    is_Some (Grid.regional_data (fold_left Grid.init_region input st).1.1 !! r)
    <-> is_Some (Grid.regional_data st.1.1 !! r)
        \/ exists data, (r, data) ∈ input /\ valid_input data.
Proof.
  induction input as [| [name data] rest IH]; intros st.
  - cbn. split; [auto |]. intros [Hs | (data & Hin & _)]; [exact Hs |].
    now apply elem_of_nil in Hin.
  - cbn [fold_left]. rewrite IH, init_region_lookup. split.
    + intros [[Hs | [-> Hv]] | (d & Hin & Hv)].
      * left; exact Hs.
      * right. exists data. split; [apply list_elem_of_here | exact Hv].
      * right. exists d. split; [now apply list_elem_of_further | exact Hv].
    + intros [Hs | (d & Hin & Hv)]; [auto |].
      apply elem_of_cons in Hin as [[= -> ->] | Hin]; [auto |].
      right. eauto.
Qed.

(** X8.  The regions of a new [GridModel] are the keys of the input whose
    entry has both ['existing_capacity_mw'] and ['current_load_mw']: an
    entry that lacks one is left out, and nothing else is. *)
Theorem init_regions (input : list (string * Grid.RegionInput)) (r : string) :
  is_Some (Grid.regional_data (Grid.init input).1 !! r)
  <-> exists data, (r, data) ∈ input /\ valid_input data.
Proof.
  rewrite init_fst, init_loop_lookup. cbn [fst Grid.regional_data].
  rewrite lookup_empty. split; [| auto].
  intros [Hs | Hex]; [| exact Hex]. now destruct Hs.
Qed.

Lemma init_region_inv (st : Grid.GridModel * nat * list log_record)
    (entry : string * Grid.RegionInput) :
  init_loop_inv st -> init_loop_inv (Grid.init_region st entry).
Proof.
  destruct st as [[gm next] log], entry as [name data].
  unfold init_loop_inv, Grid.init_region. cbn [fst snd].
  intros (H0 & H1 & Hfresh).
  destruct (Grid.in_existing_capacity_mw data), (Grid.in_current_load_mw data);
    cbn [fst snd]; auto.
  destruct (Grid.in_capacities_mw_by_tech data); cbn [fst snd Grid.dict_objects]; auto.
  split; [| split].
  - rewrite lookup_insert_ne by lia. exact H0.
  - lia.
  - intros n Hn. rewrite lookup_insert_ne by lia. apply Hfresh. lia.
Qed.

Lemma init_region_next (st : Grid.GridModel * nat * list log_record)
    (entry : string * Grid.RegionInput) :
  (st.1.2 <= (Grid.init_region st entry).1.2)%nat.
Proof.
  destruct st as [[gm next] log], entry as [name data]. unfold Grid.init_region.
  destruct (Grid.in_existing_capacity_mw data), (Grid.in_current_load_mw data);
    cbn [fst snd]; auto.
  destruct (Grid.in_capacities_mw_by_tech data); cbn [fst snd]; lia.
Qed.

Lemma init_region_objects (st : Grid.GridModel * nat * list log_record)
    (entry : string * Grid.RegionInput) (n : nat) :
  (n < st.1.2)%nat ->
  Grid.dict_objects (Grid.init_region st entry).1.1 !! n
  = Grid.dict_objects st.1.1 !! n.
Proof.
  destruct st as [[gm next] log], entry as [name data]. unfold Grid.init_region.
  cbn [fst snd]. intros Hn.
  destruct (Grid.in_existing_capacity_mw data), (Grid.in_current_load_mw data);
    cbn [fst snd]; auto.
  destruct (Grid.in_capacities_mw_by_tech data); cbn [fst snd Grid.dict_objects]; auto.
  apply lookup_insert_ne. lia.
Qed.

Lemma init_region_other (st : Grid.GridModel * nat * list log_record)
    (entry : string * Grid.RegionInput) (r : string) :
  r <> entry.1 ->
  Grid.regional_data (Grid.init_region st entry).1.1 !! r
  = Grid.regional_data st.1.1 !! r.
Proof.
  destruct st as [[gm next] log], entry as [name data]. unfold Grid.init_region.
  cbn [fst snd]. intros Hne.
  destruct (Grid.in_existing_capacity_mw data), (Grid.in_current_load_mw data);
    cbn [fst snd]; auto.
  destruct (Grid.in_capacities_mw_by_tech data); cbn [fst snd Grid.regional_data];
    apply lookup_insert_ne; congruence.
Qed.

Lemma init_loop_kept (input : list (string * Grid.RegionInput)) (r : string) (n : nat) :
  forall st,
    r ∉ input.*1 -> (n < st.1.2)%nat ->
    Grid.regional_data (fold_left Grid.init_region input st).1.1 !! r
    = Grid.regional_data st.1.1 !! r
    /\ Grid.dict_objects (fold_left Grid.init_region input st).1.1 !! n
       = Grid.dict_objects st.1.1 !! n.
Proof.
  induction input as [| entry rest IH]; intros st Hr Hn; [auto |].
  cbn [fold_left]. cbn in Hr. apply not_elem_of_cons in Hr as [Hne Hr].
  pose proof (init_region_next st entry) as Hnext.
  destruct (IH (Grid.init_region st entry) Hr ltac:(lia)) as [-> ->].
  split; [now apply init_region_other | now apply init_region_objects].
Qed.

(** The record and the dictionary that one round of the loop of
    [__init__] leaves for a valid entry. *)
Lemma init_region_record (st : Grid.GridModel * nat * list log_record) (r : string)
    (data : Grid.RegionInput) :
  init_loop_inv st -> valid_input data ->
  exists p,
    Grid.regional_data (Grid.init_region st (r, data)).1.1 !! r = Some p
    /\ loaded_from data p
    /\ Grid.dict_objects (Grid.init_region st (r, data)).1.1
         !! Grid.capacities_mw_by_tech p
       = Some (default [] (Grid.in_capacities_mw_by_tech data))
    /\ (Grid.in_capacities_mw_by_tech data = None ->
        Grid.capacities_mw_by_tech p = 0%nat)
    /\ (Grid.capacities_mw_by_tech p < (Grid.init_region st (r, data)).1.2)%nat.
Proof.
  destruct st as [[gm next] log].
  intros (H0 & H1 & Hnone) [[existing He] [load Hl]]. cbn [fst snd] in H0, H1, Hnone.
  unfold Grid.init_region, loaded_from. rewrite He, Hl.
  destruct (Grid.in_capacities_mw_by_tech data) as [d |] eqn:Hd;
    cbn [fst snd Grid.regional_data Grid.dict_objects];
    rewrite lookup_insert_eq; eexists; (split; [reflexivity |]);
    cbn [Grid.capacities_mw_by_tech Grid.existing_capacity_mw Grid.current_load_mw
         Grid.max_solar_penetration_pct Grid.base_interconnection_cost_usd_per_mw
         Grid.transmission_constraint_factor Grid.avg_transmission_cost_usd_per_mw_km
         Grid.avg_terrain_factor Grid.current_solar_mw default].
  - rewrite lookup_insert_eq. repeat split; try congruence. lia.
  - rewrite H0. repeat split; try congruence. lia.
Qed.

(** The record and the dictionary that the loop of [__init__] leaves for
    a region that has one valid entry. *)
Lemma init_loop_record (input : list (string * Grid.RegionInput)) (r : string)
    (data : Grid.RegionInput) :
  forall st,
    init_loop_inv st -> NoDup input.*1 -> (r, data) ∈ input -> valid_input data ->
    exists p,
      Grid.regional_data (fold_left Grid.init_region input st).1.1 !! r = Some p
      /\ loaded_from data p
      /\ Grid.dict_objects (fold_left Grid.init_region input st).1.1
           !! Grid.capacities_mw_by_tech p
         = Some (default [] (Grid.in_capacities_mw_by_tech data))
      /\ (Grid.in_capacities_mw_by_tech data = None ->
          Grid.capacities_mw_by_tech p = 0%nat).
Proof.
  induction input as [| entry rest IH]; intros st Hinv Hnodup Hin Hvalid.
  - now apply elem_of_nil in Hin.
  - cbn [fold_left]. cbn in Hnodup. apply NoDup_cons in Hnodup as [Hfresh Hnodup].
    apply elem_of_cons in Hin as [<- | Hin].
    2: { apply IH; auto. now apply init_region_inv. }
    cbn [fst] in Hfresh.
    destruct (init_region_record st r data Hinv Hvalid)
      as (p & Hp & Hloaded & Hdict & Hzero & Hlt).
    destruct (init_loop_kept rest r (Grid.capacities_mw_by_tech p)
                (Grid.init_region st (r, data)) Hfresh Hlt) as [Hr Ho].
    exists p. rewrite Hr, Ho. auto.
Qed.

Lemma init_inv_start :
  init_loop_inv ({| Grid.regional_data := ∅; Grid.dict_objects := {[ O := [] ]} |},
                 1%nat, []).
Proof.
  unfold init_loop_inv. cbn [fst snd Grid.dict_objects]. split; [| split].
  - apply lookup_singleton_eq.
  - lia.
  - intros n Hn. apply lookup_singleton_ne. lia.
Qed.

(** X9.  A region whose entry is valid is loaded with its two required
    values and, for every optional key, the value of the entry or the
    default (50 % penetration, 100000 and 2000 USD, factors 1, no solar);
    its capacities by technology are those of the entry, or none. *)
Theorem init_loads_region (input : list (string * Grid.RegionInput)) (r : string)
    (data : Grid.RegionInput) :
  NoDup input.*1 -> (r, data) ∈ input -> valid_input data ->
  exists p,
    Grid.regional_data (Grid.init input).1 !! r = Some p
    /\ loaded_from data p
    /\ Grid.get_current_capacity_by_tech (Grid.init input).1 r
       = (default [] (Grid.in_capacities_mw_by_tech data), []).
Proof.
  intros Hnodup Hin Hvalid.
  destruct (init_loop_record input r data _ init_inv_start Hnodup Hin Hvalid)
    as (p & Hp & Hloaded & Hdict & _).
  exists p. rewrite init_fst. split; [exact Hp |]. split; [exact Hloaded |].
  unfold Grid.get_current_capacity_by_tech. rewrite Hp, Hdict. reflexivity.
Qed.

Lemma init_loads_region_witness :
  (NoDup two_region_input.*1 /\ ("China", china_input) ∈ two_region_input
   /\ valid_input china_input)
  /\ exists p,
       Grid.regional_data (Grid.init two_region_input).1 !! "China" = Some p
       /\ loaded_from china_input p
       /\ Grid.get_current_capacity_by_tech (Grid.init two_region_input).1 "China"
          = (default [] (Grid.in_capacities_mw_by_tech china_input), []).
Proof.
  assert (H1 : NoDup two_region_input.*1).
  { cbn. compute_done. }
  assert (H2 : ("China", china_input) ∈ two_region_input).
  { unfold two_region_input. apply list_elem_of_further, list_elem_of_here. }
  assert (H3 : valid_input china_input) by (split; cbn; eauto).
  split; [exact (conj H1 (conj H2 H3)) |].
  exact (init_loads_region two_region_input "China" china_input H1 H2 H3).
Defined.

(** ** Grid model: new capacity *)

Lemma only_solar_grew_refl (p : Grid.RegionParams) : only_solar_grew p p.
Proof. unfold only_solar_grew. repeat split. apply Qle_refl. Qed.

Lemma only_solar_grew_trans (p q r : Grid.RegionParams) :
  only_solar_grew p q -> only_solar_grew q r -> only_solar_grew p r.
Proof.
  unfold only_solar_grew.
  intros (A1 & A2 & A3 & A4 & A5 & A6 & A7 & A8 & A9)
         (B1 & B2 & B3 & B4 & B5 & B6 & B7 & B8 & B9).
  repeat split; try congruence. eapply Qle_trans; eauto.
Qed.

Lemma grid_evolves_refl (a : Grid.GridModel) : grid_evolves a a.
Proof.
  intros r. destruct (Grid.regional_data a !! r); [apply only_solar_grew_refl | exact I].
Qed.

Lemma grid_evolves_trans (a b c : Grid.GridModel) :
  grid_evolves a b -> grid_evolves b c -> grid_evolves a c.
Proof.
  intros Hab Hbc r. specialize (Hab r). specialize (Hbc r).
  destruct (Grid.regional_data a !! r), (Grid.regional_data b !! r),
    (Grid.regional_data c !! r); try contradiction; try exact I.
  eapply only_solar_grew_trans; eauto.
Qed.

Lemma add_tech_capacity_evolves (r : string) (self : Grid.GridModel)
    (investment : string * Q) :
  grid_evolves self (Grid.add_tech_capacity r self investment).
Proof.
  destruct investment as [t c]. unfold Grid.add_tech_capacity.
  destruct (Qleb c 0) eqn:Hc; [apply grid_evolves_refl |].
  destruct (Grid.regional_data self !! r) as [p |] eqn:Hp; [| apply grid_evolves_refl].
  intros r'. cbn [Grid.regional_data].
  destruct (decide (r = r')) as [<- | Hne].
  - rewrite Hp, lookup_insert_eq. destruct (Grid.is_solar_pv t).
    + unfold only_solar_grew. cbn. repeat split. apply Qleb_false in Hc. lra.
    + apply only_solar_grew_refl.
  - rewrite lookup_insert_ne by exact Hne.
    destruct (Grid.regional_data self !! r'); [apply only_solar_grew_refl | exact I].
Qed.

Lemma add_techs_evolves (r : string) (investments : list (string * Q)) :
  forall self, grid_evolves self (fold_left (Grid.add_tech_capacity r) investments self).
Proof.
  induction investments as [| i rest IH]; intros self; [apply grid_evolves_refl |].
  cbn [fold_left]. eapply grid_evolves_trans; [apply add_tech_capacity_evolves | apply IH].
Qed.

Lemma add_regions_evolves (details : list (string * list (string * Q))) :
  forall self log,
    grid_evolves self (fold_left Grid.add_region_capacity details (self, log)).1.
Proof.
  induction details as [| [r techs] rest IH]; intros self log; [apply grid_evolves_refl |].
  cbn [fold_left]. unfold Grid.add_region_capacity at 2.
  destruct (Grid.regional_data self !! r); [| apply IH].
  eapply grid_evolves_trans; [apply add_techs_evolves | apply IH].
Qed.

(** X10.  [add_new_capacity] never adds or removes a region, changes no
    parameter of a region other than ['current_solar_mw'], and never
    lowers the solar capacity of a region, whatever it is given. *)
Theorem add_new_capacity_evolves (self : Grid.GridModel) (year : Z)
    (new_capacity_details : list (string * list (string * Q))) :
  grid_evolves self (Grid.add_new_capacity self year new_capacity_details).1.
Proof.
  unfold Grid.add_new_capacity. apply add_regions_evolves.
Qed.

Lemma add_techs_nothing (r : string) (investments : list (string * Q)) :
  forall self,
    Forall (fun investment => investment.2 <= 0) investments ->
    fold_left (Grid.add_tech_capacity r) investments self = self.
Proof.
  induction investments as [| [t c] rest IH]; intros self Hall; [reflexivity |].
  apply Forall_cons in Hall as [Hc Hall]. cbn [fold_left snd] in *.
  unfold Grid.add_tech_capacity at 2.
  rewrite (proj2 (Qleb_true c 0) Hc). now apply IH.
Qed.

Lemma add_regions_nothing (details : list (string * list (string * Q))) :
  forall self log,
    nothing_to_add details ->
    (fold_left Grid.add_region_capacity details (self, log)).1 = self.
Proof.
  induction details as [| [r techs] rest IH]; intros self log Hall; [reflexivity |].
  apply Forall_cons in Hall as [Hc Hall]. cbn [fold_left snd] in *.
  unfold Grid.add_region_capacity at 2.
  destruct (Grid.regional_data self !! r); [| now apply IH].
  rewrite add_techs_nothing by exact Hc. now apply IH.
Qed.

(** X11.  Investments of zero or negative capacity are skipped: when no
    capacity of [new_capacity_details] is positive, [add_new_capacity]
    leaves the model as it was, the dictionaries by technology included. *)
Theorem add_new_capacity_skips_non_positive (self : Grid.GridModel) (year : Z)
    (new_capacity_details : list (string * list (string * Q))) :
  nothing_to_add new_capacity_details ->
  (Grid.add_new_capacity self year new_capacity_details).1 = self.
Proof.
  intros Hall. unfold Grid.add_new_capacity. now apply add_regions_nothing.
Qed.

Lemma add_new_capacity_skips_non_positive_witness :
  nothing_to_add [("USA", [("TOPCon_PV", 0); ("LFP_Battery", - (5))])]
  /\ (Grid.add_new_capacity usa_grid 2025
        [("USA", [("TOPCon_PV", 0); ("LFP_Battery", - (5))])]).1 = usa_grid.
Proof.
  assert (H1 : nothing_to_add [("USA", [("TOPCon_PV", 0); ("LFP_Battery", - (5))])]).
  { repeat constructor; cbn; vm_compute; congruence. }
  split; [exact H1 |].
  exact (add_new_capacity_skips_non_positive usa_grid 2025 _ H1).
Defined.

Lemma dict_get_set_ne (d : list (string * Q)) (key other : string) (v : Q) :
  other <> key -> dict_get (dict_set d key v) other = dict_get d other.
Proof.
  intros Hne. induction d as [| [k w] rest IH]; cbn.
  - destruct (String.eqb key other) eqn:Hk; [| reflexivity].
    apply String.eqb_eq in Hk. congruence.
  - destruct (String.eqb k key) eqn:Hk; cbn.
    + apply String.eqb_eq in Hk. subst k.
      destruct (String.eqb key other) eqn:Hk'; [| reflexivity].
      apply String.eqb_eq in Hk'. congruence.
    + destruct (String.eqb k other); [reflexivity | exact IH].
Qed.

(** One positive investment in a region that is present. *)
Lemma add_one_capacity (self : Grid.GridModel) (year : Z) (r tech : string) (c : Q)
    (p : Grid.RegionParams) :
  Grid.regional_data self !! r = Some p -> 0 < c ->
  (Grid.add_new_capacity self year [(r, [(tech, c)])]).1
  = Grid.add_tech_capacity r self (tech, c)
  /\ Grid.dict_objects (Grid.add_tech_capacity r self (tech, c))
     = <[Grid.capacities_mw_by_tech p :=
           dict_set (default [] (Grid.dict_objects self !! Grid.capacities_mw_by_tech p))
             tech
             (default 0 (dict_get (default [] (Grid.dict_objects self
                                                 !! Grid.capacities_mw_by_tech p)) tech)
              + c)]> (Grid.dict_objects self).
Proof.
  intros Hp Hc. unfold Grid.add_new_capacity. cbn [fold_left].
  unfold Grid.add_region_capacity. rewrite Hp. cbn [fold_left fst].
  split; [reflexivity |].
  unfold Grid.add_tech_capacity. rewrite (proj2 (Qleb_false c 0) Hc), Hp.
  reflexivity.
Qed.

(** X12.  The dictionary by technology of [default_grid_params] is shared:
    when two regions of the input bring no ['capacities_mw_by_tech'] of
    their own, a capacity added for a technology in the first shows up,
    with the same amount, in the capacities by technology of the second. *)
Theorem default_capacities_shared (input : list (string * Grid.RegionInput))
    (r1 r2 : string) (d1 d2 : Grid.RegionInput) (year : Z) (tech : string) (c : Q) :
  NoDup input.*1 ->
  (r1, d1) ∈ input -> valid_input d1 -> Grid.in_capacities_mw_by_tech d1 = None ->
  (r2, d2) ∈ input -> valid_input d2 -> Grid.in_capacities_mw_by_tech d2 = None ->
  0 < c ->
  let self := (Grid.init input).1 in
  let self' := (Grid.add_new_capacity self year [(r1, [(tech, c)])]).1 in
  (Grid.get_current_capacity_by_tech self r2).1 = []
  /\ (Grid.get_current_capacity_by_tech self' r2).1 = [(tech, 0 + c)].
Proof.
  intros Hnodup Hin1 Hv1 Hd1 Hin2 Hv2 Hd2 Hc self self'.
  destruct (init_loop_record input r1 d1 _ init_inv_start Hnodup Hin1 Hv1)
    as (p1 & Hp1 & _ & Ho1 & Hz1).
  destruct (init_loop_record input r2 d2 _ init_inv_start Hnodup Hin2 Hv2)
    as (p2 & Hp2 & _ & Ho2 & Hz2).
  rewrite <- init_fst in Hp1, Hp2, Ho1, Ho2. fold self in Hp1, Hp2, Ho1, Ho2.
  rewrite (Hz1 Hd1) in Ho1. rewrite (Hz2 Hd2) in Ho2. rewrite Hd1 in Ho1.
  cbn [default] in Ho1.
  split.
  - unfold Grid.get_current_capacity_by_tech. rewrite Hp2, (Hz2 Hd2), Ho1. reflexivity.
  - destruct (add_one_capacity self year r1 tech c p1 Hp1 Hc) as [Hadd Hobj].
    pose proof (add_tech_capacity_evolves r1 self (tech, c) r2) as Hev.
    fold self' in Hadd. rewrite <- Hadd in Hev, Hobj. rewrite Hp2 in Hev.
    unfold Grid.get_current_capacity_by_tech.
    destruct (Grid.regional_data self' !! r2) as [p2' |]; [| contradiction].
    destruct Hev as (_ & _ & _ & _ & _ & _ & _ & Href & _).
    rewrite Href, (Hz2 Hd2), Hobj, (Hz1 Hd1), lookup_insert_eq, Ho1. reflexivity.
Qed.

Lemma default_capacities_shared_witness :
  (NoDup two_region_input.*1
   /\ ("USA", usa_input) ∈ two_region_input /\ valid_input usa_input
   /\ Grid.in_capacities_mw_by_tech usa_input = None
   /\ ("China", china_input) ∈ two_region_input /\ valid_input china_input
   /\ Grid.in_capacities_mw_by_tech china_input = None
   /\ 0 < 50)
  /\ (Grid.get_current_capacity_by_tech two_region_grid "China").1 = []
  /\ (Grid.get_current_capacity_by_tech
        (Grid.add_new_capacity two_region_grid 2025 [("USA", [("TOPCon_PV", 50)])]).1
        "China").1 = [("TOPCon_PV", 0 + 50)].
Proof.
  assert (H1 : NoDup two_region_input.*1).
  { cbn. compute_done. }
  assert (H2 : ("USA", usa_input) ∈ two_region_input) by apply list_elem_of_here.
  assert (H3 : valid_input usa_input) by (split; cbn; eauto).
  assert (H4 : Grid.in_capacities_mw_by_tech usa_input = None) by reflexivity.
  assert (H5 : ("China", china_input) ∈ two_region_input).
  { unfold two_region_input. apply list_elem_of_further, list_elem_of_here. }
  assert (H6 : valid_input china_input) by (split; cbn; eauto).
  assert (H7 : Grid.in_capacities_mw_by_tech china_input = None) by reflexivity.
  assert (H8 : 0 < 50) by (vm_compute; congruence).
  split; [exact (conj H1 (conj H2 (conj H3 (conj H4 (conj H5 (conj H6 (conj H7 H8))))))) |].
  exact (default_capacities_shared two_region_input "USA" "China" usa_input
           china_input 2025 "TOPCon_PV" 50 H1 H2 H3 H4 H5 H6 H7 H8).
Defined.

(** ** Market dispatch: the record of a region *)

(** The record of a region holds the outcome of the dispatch loop over its
    dispatchable technologies, whatever the load. *)
Lemma simulate_region_dispatch (year : Z) (stm : SolarTech.SolarTechModel)
    (gm : Grid.GridModel) (r : string) :
  let rec := (Market.simulate_region year stm gm r).1 in
  (Market.total_generation_mwh rec, Market.total_dispatched_generation_mwh rec)
  = Market.dispatch (Market.annual_demand_mwh rec) (region_techs year stm gm r) ([], 0).
Proof.
  intros rec. subst rec.
  unfold Market.simulate_region, region_techs, Grid.get_current_capacity_by_tech.
  destruct (Grid.regional_data gm !! r) as [p |] eqn:Hp; cbn [fst]; [| reflexivity].
  destruct (default [] (Grid.dict_objects gm !! Grid.capacities_mw_by_tech p))
    as [| entry installed] eqn:Hinst; [reflexivity |].
  pose proof (dispatchable_techs_spec stm year r (entry :: installed)) as Hts.
  destruct (Market.dispatchable_techs stm year r (entry :: installed)) as [techs log2].
  cbn [fst] in Hts |- *.
  rewrite sort_by_cost_zero
    by (eapply Forall_impl; [exact Hts | now intros t [Hc _]]).
  destruct (Market.dispatch (Grid.current_load_mw p * Market.HOURS_PER_YEAR)
              techs ([], 0)) as [generation dispatched] eqn:Hdisp.
  cbn [fst Market.annual_demand_mwh Market.total_generation_mwh
       Market.total_dispatched_generation_mwh].
  now rewrite Hdisp.
Qed.

Lemma simulate_dispatch_record (year : Z) (regions : list string)
    (stm : SolarTech.SolarTechModel) (gm : Grid.GridModel) (r : string)
    (rec : Market.RegionOutcome) :
  (Market.simulate_dispatch_for_year year regions stm gm).1 !! r = Some rec ->
  rec = (Market.simulate_region year stm gm r).1.
Proof.
  rewrite simulate_dispatch_lookup. destruct (decide (r ∈ regions)); congruence.
Qed.

(** ** Market dispatch: the generation by technology *)

Lemma dict_set_fresh (d : list (string * Q)) (key : string) (v : Q) :
  dict_get d key = None -> dict_set d key v = app d [(key, v)].
Proof.
  induction d as [| [k w] rest IH]; cbn; [reflexivity |].
  destruct (String.eqb k key); [discriminate |]. intros Hrest. now rewrite IH.
Qed.

Lemma dict_total_app (d e : list (string * Q)) :
  dict_total (app d e) == dict_total d + dict_total e.
Proof.
  unfold dict_total. induction d as [| [k w] rest IH]; cbn [app fold_right snd]; lra.
Qed.

(** While the names of the technologies are distinct and new to the
    dictionary, the dictionary grows by what is dispatched. *)
Lemma dispatch_recorded (demand : Q) (techs : list Market.DispatchableTech) :
  NoDup (map Market.tech_name techs) ->
  forall gen d,
    (forall t, t ∈ techs -> dict_get gen (Market.tech_name t) = None) ->
    dict_total (Market.dispatch demand techs (gen, d)).1 - dict_total gen
    == (Market.dispatch demand techs (gen, d)).2 - d.
Proof.
  induction techs as [| t rest IH]; intros Hnodup gen d Hnew.
  - cbn [Market.dispatch fst snd]. ring.
  - cbn [map] in Hnodup. apply NoDup_cons in Hnodup as [Hfresh Hnodup].
    cbn [Market.dispatch].
    destruct (Qleb demand d); [cbn [fst snd]; ring |].
    set (g := Qmin (Market.potential_mwh t) (demand - d)).
    destruct (Qltb 0 g).
    + rewrite dict_set_fresh by (apply Hnew, list_elem_of_here).
      assert (Hnew' : forall t', t' ∈ rest ->
                dict_get (app gen [(Market.tech_name t, g)]) (Market.tech_name t')
                = None).
      { intros t' Hin.
        rewrite <- (dict_set_fresh gen) by (apply Hnew, list_elem_of_here).
        rewrite dict_get_set_ne.
        - apply Hnew. now apply list_elem_of_further.
        - intros Heq. apply Hfresh. rewrite <- Heq.
          apply list_elem_of_fmap. eauto. }
      pose proof (IH Hnodup (app gen [(Market.tech_name t, g)]) (d + g) Hnew') as Hrec.
      pose proof (dict_total_app gen [(Market.tech_name t, g)]) as Happ.
      unfold dict_total at 3 in Happ. cbn [fold_right snd] in Happ. lra.
    + apply IH; [exact Hnodup |].
      intros t' Hin. apply Hnew. now apply list_elem_of_further.
Qed.

Lemma dispatchable_tech_name (stm : SolarTech.SolarTechModel) (year : Z)
    (region_name : string) (entry : string * Q) (t : Market.DispatchableTech) :
  (Market.dispatchable_tech stm year region_name entry).1 = Some t ->
  Market.tech_name t = entry.1.
Proof.
  destruct entry as [name cap]. unfold Market.dispatchable_tech.
  repeat case_match; cbn [fst]; try discriminate; now intros [= <-].
Qed.

Lemma dispatchable_techs_names (stm : SolarTech.SolarTechModel) (year : Z)
    (region_name : string) (installed : list (string * Q)) :
  map Market.tech_name (Market.dispatchable_techs stm year region_name installed).1
  `sublist_of` map fst installed.
Proof.
  induction installed as [| entry rest IH]; [constructor |].
  cbn [Market.dispatchable_techs].
  pose proof (dispatchable_tech_name stm year region_name entry) as Hname.
  destruct (Market.dispatchable_tech stm year region_name entry) as [[t |] log1].
  - destruct (Market.dispatchable_techs stm year region_name rest) as [ts log2].
    cbn [fst map] in *. rewrite (Hname t eq_refl). now constructor.
  - destruct (Market.dispatchable_techs stm year region_name rest) as [ts log2].
    cbn [fst map] in *. now constructor.
Qed.

(** X15.  The generation recorded by technology adds up to the total
    dispatched generation of the region, the names of the installed
    technologies being the distinct keys of a dictionary. *)
Theorem recorded_generation_adds_up (year : Z) (regions : list string)
    (stm : SolarTech.SolarTechModel) (gm : Grid.GridModel) (r : string)
    (rec : Market.RegionOutcome) :
  (Market.simulate_dispatch_for_year year regions stm gm).1 !! r = Some rec ->
  NoDup (map fst (Grid.get_current_capacity_by_tech gm r).1) ->
  dict_total (Market.total_generation_mwh rec)
  == Market.total_dispatched_generation_mwh rec.
Proof.
  intros Hrec Hnodup. apply simulate_dispatch_record in Hrec.
  pose proof (simulate_region_dispatch year stm gm r) as Hdisp.
  cbv zeta in Hdisp. rewrite <- Hrec in Hdisp.
  assert (Hnames : NoDup (map Market.tech_name (region_techs year stm gm r))).
  { eapply sublist_NoDup; [exact Hnodup | apply dispatchable_techs_names]. }
  pose proof (dispatch_recorded (Market.annual_demand_mwh rec) _ Hnames [] 0
                ltac:(reflexivity)) as Hsum.
  rewrite <- Hdisp in Hsum. cbn [fst snd dict_total fold_right] in Hsum.
  fold (dict_total (Market.total_generation_mwh rec)) in Hsum. lra.
Qed.

Lemma recorded_generation_adds_up_witness :
  ((Market.simulate_dispatch_for_year 2025 ["USA"] topcon_model usa_grid_2025).1
     !! "USA" = Some usa_outcome
   /\ NoDup (map fst (Grid.get_current_capacity_by_tech usa_grid_2025 "USA").1))
  /\ dict_total (Market.total_generation_mwh usa_outcome)
     == Market.total_dispatched_generation_mwh usa_outcome.
Proof.
  assert (H1 : (Market.simulate_dispatch_for_year 2025 ["USA"] topcon_model
                  usa_grid_2025).1 !! "USA" = Some usa_outcome)
    by (vm_compute; reflexivity).
  assert (H2 : NoDup (map fst (Grid.get_current_capacity_by_tech usa_grid_2025
                                 "USA").1)).
  { vm_compute. compute_done. }
  split; [exact (conj H1 H2) |].
  exact (recorded_generation_adds_up 2025 ["USA"] topcon_model usa_grid_2025 "USA"
           usa_outcome H1 H2).
Defined.

(** ** Investment evaluation: the net present value *)

Lemma inject_nat_succ (n : nat) :
  inject_Z (Z.of_nat (S n)) == inject_Z (Z.of_nat n) + 1.
Proof.
  rewrite Nat2Z.inj_succ. unfold Z.succ. rewrite inject_Z_plus. reflexivity.
Qed.

(** With a discount rate that is not negative, equal cash flows are worth
    at most their plain sum, and nothing when they are not positive. *)
Lemma npv_loop_bound (dr cash : Q) (n : nat) :
  0 <= dr ->
  forall (t : Z) (acc v : Q),
    (0 <= t)%Z ->
    Invest.npv_loop dr t (repeat cash n) acc = Returned v ->
    (0 <= cash -> v <= acc + inject_Z (Z.of_nat n) * cash)
    /\ (cash <= 0 -> v <= acc).
Proof.
  intros Hdr. induction n as [| n IH]; intros t acc v Ht Hrun.
  - cbn in Hrun. injection Hrun as <-.
    change (inject_Z (Z.of_nat 0)) with 0. split; intros _; lra.
  - cbn [repeat Invest.npv_loop] in Hrun.
    apply bind_Returned in Hrun as (term & Hterm & Hrun).
    apply py_div_Returned in Hterm as [Hp0 ->].
    pose proof (Qpower_1_le (1 + dr) t ltac:(lra) Ht) as Hp.
    destruct (IH (t + 1)%Z _ v ltac:(lia) Hrun) as [Hpos Hneg].
    rewrite inject_nat_succ.
    split; intros Hcash.
    + assert (Hterm : cash / (1 + dr) ^ t <= cash).
      { apply Qle_shift_div_r; [lra | nra]. }
      specialize (Hpos Hcash). lra.
    + assert (Hterm : cash / (1 + dr) ^ t <= 0).
      { apply Qle_shift_div_r; [lra | nra]. }
      specialize (Hneg Hcash). lra.
Qed.

Lemma evaluate_after_lcoe_npv (self : Invest.InvestmentDecisionModel)
    (lcoe_result : Cost.LcoeResult) (lcoe capex cap cf dr : Q) (L : Z)
    (region time_of_day : string) (services : list string) (scheme : option string)
    (v : Q) :
  let res := Invest.evaluate_after_lcoe self lcoe_result lcoe capex cap cf dr L
               region time_of_day services scheme in
  Invest.npv_usd res = Some v ->
  exists inv cash pb,
    Invest.initial_investment_usd res = Some inv
    /\ Invest.annual_net_cash_flow_usd res = Some cash
    /\ Invest.payback res = Some pb
    /\ Invest.simple_payback_period_years cap inv cash = Returned pb
    /\ (if (0 <? L)%Z
        then Invest._calculate_npv inv (repeat cash (Z.to_nat L)) dr
        else if Qeqb inv 0 && Qeqb cash 0 then mret 0 else mret (- inv))
       = Returned v.
Proof.
  intros res. subst res. unfold Invest.evaluate_after_lcoe.
  set (inv := capex * cap * 1000).
  match goal with
  | |- context [Invest.simple_payback_period_years cap inv ?c] => set (cash := c)
  end.
  destruct (Invest.simple_payback_period_years cap inv cash) as [pb | e] eqn:Hpb;
    [| cbn; discriminate].
  match goal with
  | |- context [match ?n with Returned _ => _ | Raised _ => _ end] =>
      destruct n as [npv | e] eqn:Hnpv
  end; cbn [Invest.npv_usd Invest.set_error]; [| discriminate].
  intros [= ->]. exists inv, cash, pb. cbn. auto.
Qed.

(** X16.  A project that is reported with a positive net present value,
    for a discount rate that is not negative and a positive initial
    investment, has a positive lifetime and a positive annual net cash
    flow, and is reported with a payback period in years, the investment
    divided by the cash flow, and not with an 'N/A' sentinel. *)
Theorem positive_npv_pays_back (self : Invest.InvestmentDecisionModel)
    (technology_name : string) (year : Z) (cap cf dr : Q) (L : Z)
    (region time_of_day : string) (services : list string) (scheme : option string)
    (v inv : Q) :
  let res := Invest.evaluate_project_attractiveness self technology_name year cap cf
               dr L region time_of_day services scheme in
  0 <= dr ->
  Invest.npv_usd res = Some v -> 0 < v ->
  Invest.initial_investment_usd res = Some inv -> 0 < inv ->
  exists cash,
    Invest.annual_net_cash_flow_usd res = Some cash
    /\ 0 < cash
    /\ (0 < L)%Z
    /\ Invest.payback res = Some (Invest.Years (inv / cash)).
Proof.
  intros res Hdr Hnpv Hv Hinv Hpos. subst res.
  unfold Invest.evaluate_project_attractiveness in *.
  destruct (Cost.calculate_lcoe_for_evolving_solar_tech _ _ _ _ _ _ _)
    as [[lcoe_result log] | e]; [| discriminate].
  destruct (Cost.lcoe_error lcoe_result); [discriminate |].
  destruct (Cost.lcoe_usd_per_mwh lcoe_result) as [lcoe |]; [| discriminate].
  destruct (Cost.lcoe_capex_usd_per_kw lcoe_result) as [capex |]; [| discriminate].
  pose proof (evaluate_after_lcoe_npv self lcoe_result lcoe capex cap cf dr L region
                time_of_day services scheme v Hnpv)
    as (inv' & cash & pb & Hinv' & Hcash & Hpb & Hcascade & Hval).
  rewrite Hinv in Hinv'. injection Hinv' as <-.
  assert (Hbound : (0 < L)%Z /\ 0 < cash).
  { destruct (0 <? L)%Z eqn:HL.
    - apply Z.ltb_lt in HL. unfold Invest._calculate_npv in Hval.
      destruct (npv_loop_bound dr cash (Z.to_nat L) Hdr 1 (- inv) v ltac:(lia) Hval)
        as [_ Hle].
      destruct (Qlt_le_dec 0 cash) as [Hc | Hc].
      + split; [exact HL | exact Hc].
      + specialize (Hle Hc). exfalso. lra.
    - exfalso. destruct (Qeqb inv 0 && Qeqb cash 0) eqn:Hz.
      + apply andb_true_iff in Hz as [Hz _]. apply Qeqb_true in Hz. lra.
      + injection Hval as <-. lra. }
  destruct Hbound as (HL & Hc).
  destruct (simple_payback_cases cap inv cash) as (pb' & Hpb' & _ & _ & _ & Hyears).
  rewrite Hcascade in Hpb'. injection Hpb' as <-.
  rewrite (Hyears ltac:(lra) Hc) in Hpb.
  exists cash. split; [exact Hcash |]. split; [exact Hc |].
  split; [exact HL | exact Hpb].
Qed.

(** X17.  [_calculate_npv] without cash flows returns the negated
    investment.  With a cash flow and a discount rate of -100 % it raises
    [ZeroDivisionError].  It returns when the power [(1 + r) ** n] of the
    last year [n] lies between [2 ^ -1000] and [2 ^ 1000] in absolute
    value: no power of an earlier year is then rounded to zero or beyond
    the doubles. *)
Theorem calculate_npv_raises_or_returns (initial_investment : Q)
    (annual_cash_flows : list Q) (discount_rate : Q) :
  let last_power :=
    Qabs (1 + discount_rate) ^ Z.of_nat (length annual_cash_flows) in
  Invest._calculate_npv initial_investment [] discount_rate
  = Returned (- initial_investment)
  /\ (annual_cash_flows <> [] /\ 1 + discount_rate == 0 ->
      Invest._calculate_npv initial_investment annual_cash_flows discount_rate
      = Raised ZeroDivisionError)
  /\ (2 ^ (-1000) <= last_power /\ last_power <= 2 ^ 1000 ->
      exists v,
        Invest._calculate_npv initial_investment annual_cash_flows discount_rate
        = Returned v).
Proof.
  intros last_power. unfold Invest._calculate_npv.
  assert (Hzero : 1 + discount_rate == 0 ->
            forall flows t acc, flows <> [] -> (0 < t)%Z ->
              Invest.npv_loop discount_rate t flows acc = Raised ZeroDivisionError).
  { intros Hz flows t acc Hne Ht. destruct flows as [| c rest]; [congruence |].
    cbn [Invest.npv_loop]. unfold py_div.
    assert (Hp : (1 + discount_rate) ^ t == 0) by (rewrite Hz; apply Qpower_0; lia).
    now rewrite (proj2 (Qeqb_true _ _) Hp). }
  assert (Hret : ~ 1 + discount_rate == 0 ->
            forall flows t acc, exists v,
              Invest.npv_loop discount_rate t flows acc = Returned v).
  { intros Hnz flows. induction flows as [| c rest IH]; intros t acc; cbn; [eauto |].
    rewrite py_div_nonzero by (now apply Qpower_not_0). apply IH. }
  split; [reflexivity |]. split.
  - intros [Hne Hz]. apply Hzero; [exact Hz | exact Hne | lia].
  - intros [Hlow _].
    destruct annual_cash_flows as [| c rest]; [cbn; eauto |].
    apply Hret. intros Hz.
    assert (Habs : Qabs (1 + discount_rate) == 0) by (rewrite Hz; reflexivity).
    subst last_power. rewrite Habs, Qpower_0 in Hlow by (cbn [length]; lia).
    pose proof (two_power_pos (-1000)). lra.
Qed.

(** The evaluation of the unit tests: 25 equal cash flows at 5 %, and
    what a rate of -100 % does to them. *)
Example test_calculate_npv :
  (exists v, Invest._calculate_npv 1000 (repeat 100 25) (5 # 100) = Returned v
             /\ 409 < v /\ v < 410)
  /\ Invest._calculate_npv 1000 (repeat 100 25) (- (1)) = Raised ZeroDivisionError.
Proof.
  split; [| vm_compute; reflexivity].
  eexists. split; [vm_compute; reflexivity |]. split; vm_compute; reflexivity.
Qed.

Lemma positive_npv_pays_back_witness :
  (0 <= (5 # 100)
   /\ Invest.npv_usd (Invest.evaluate_project_attractiveness premium_evaluator "TOPCon"
                        2025 50 (20 # 100) (5 # 100) 25 "USA" "mid_peak" [] None)
      = Some premium_npv
   /\ 0 < premium_npv
   /\ Invest.initial_investment_usd
        (Invest.evaluate_project_attractiveness premium_evaluator "TOPCon"
           2025 50 (20 # 100) (5 # 100) 25 "USA" "mid_peak" [] None)
      = Some premium_investment
   /\ 0 < premium_investment)
  /\ exists cash,
       Invest.annual_net_cash_flow_usd
         (Invest.evaluate_project_attractiveness premium_evaluator "TOPCon"
            2025 50 (20 # 100) (5 # 100) 25 "USA" "mid_peak" [] None)
       = Some cash
       /\ 0 < cash
       /\ (0 < 25)%Z
       /\ Invest.payback (Invest.evaluate_project_attractiveness premium_evaluator "TOPCon"
                            2025 50 (20 # 100) (5 # 100) 25 "USA" "mid_peak" [] None)
          = Some (Invest.Years (premium_investment / cash)).
Proof.
  assert (H1 : 0 <= (5 # 100)) by (vm_compute; congruence).
  assert (H2 : Invest.npv_usd
                 (Invest.evaluate_project_attractiveness premium_evaluator "TOPCon"
                    2025 50 (20 # 100) (5 # 100) 25 "USA" "mid_peak" [] None)
               = Some premium_npv) by (vm_compute; reflexivity).
  assert (H3 : 0 < premium_npv) by (vm_compute; reflexivity).
  assert (H4 : Invest.initial_investment_usd
                 (Invest.evaluate_project_attractiveness premium_evaluator "TOPCon"
                    2025 50 (20 # 100) (5 # 100) 25 "USA" "mid_peak" [] None)
               = Some premium_investment) by (vm_compute; reflexivity).
  assert (H5 : 0 < premium_investment) by (vm_compute; reflexivity).
  split; [exact (conj H1 (conj H2 (conj H3 (conj H4 H5)))) |].
  exact (positive_npv_pays_back premium_evaluator "TOPCon" 2025 50 (20 # 100)
           (5 # 100) 25 "USA" "mid_peak" [] None premium_npv premium_investment
           H1 H2 H3 H4 H5).
Defined.

(** ** Investment decisions *)

Lemma decide_technology_eq (self : Invest.InvestmentDecisionModel) (year : Z)
    (r : string) (inv : list (string * Q)) (t : string) :
  Decision.decide_technology self year r inv t
  = if invests self year r t
    then dict_set inv t (default 0 (dict_get inv t) + 50)
    else inv.
Proof.
  unfold Decision.decide_technology, invests, standard_project.
  destruct (SolarTech.get_technology_details _ t year); [reflexivity |].
  change (Invest.evaluate_project_attractiveness self t year
            Decision.default_project_capacity_mw Decision.default_capacity_factor
            Decision.default_discount_rate Decision.default_economic_lifetime_years
            r Decision.default_time_of_day [] None)
    with (Invest.evaluate_project_attractiveness self t year 50 (20 # 100) (5 # 100)
            25 r "mid_peak" [] None).
  destruct (Decision.error_truthy _); [reflexivity |].
  cbn [negb andb]. destruct (Qltb 0 _); reflexivity.
Qed.

(** A result with a net present value has no error. *)
Lemma evaluate_npv_no_error (self : Invest.InvestmentDecisionModel)
    (technology_name : string) (year : Z) (cap cf dr : Q) (L : Z)
    (region time_of_day : string) (services : list string) (scheme : option string) :
  let res := Invest.evaluate_project_attractiveness self technology_name year cap cf
               dr L region time_of_day services scheme in
  is_Some (Invest.npv_usd res) ->
  Invest.error res = None
  /\ exists p, SolarTech.get_technology_details (Invest.solar_tech_model self)
                 technology_name year = SolarTech.Details p.
Proof.
  intros res. subst res. unfold Invest.evaluate_project_attractiveness.
  destruct (Cost.calculate_lcoe_for_evolving_solar_tech _ _ _ _ _ _ _)
    as [[lcoe_result log] | e] eqn:Hl; [| cbn; intros [v Hv]; discriminate].
  destruct (Cost.lcoe_error lcoe_result) eqn:Herr;
    [cbn; intros [v Hv]; discriminate |].
  destruct (Cost.lcoe_usd_per_mwh lcoe_result) as [lcoe |];
    [| cbn; intros [v Hv]; discriminate].
  destruct (Cost.lcoe_capex_usd_per_kw lcoe_result) as [capex |];
    [| cbn; intros [v Hv]; discriminate].
  intros [v Hv]. split.
  - revert Hv. unfold Invest.evaluate_after_lcoe.
    destruct (Invest.simple_payback_period_years _ _ _) as [pb | e];
      [| cbn; discriminate].
    match goal with
    | |- context [match ?n with Returned _ => _ | Raised _ => _ end] =>
        destruct n as [npv | e]
    end; [intros _; reflexivity | cbn; discriminate].
  - unfold Cost.calculate_lcoe_for_evolving_solar_tech in Hl.
    destruct (SolarTech.get_technology_details _ technology_name year) as [msg | p];
      [| eauto].
    cbn in Hl. injection Hl as <- _. cbn in Herr. discriminate.
Qed.

Lemma invests_iff (self : Invest.InvestmentDecisionModel) (year : Z) (r t : string) :
  invests self year r t = true <-> reports_positive_npv (standard_project self year r t).
Proof.
  unfold invests, reports_positive_npv. split.
  - destruct (SolarTech.get_technology_details _ t year); [discriminate |].
    intros Hb. apply andb_true_iff in Hb as [_ Hnpv].
    destruct (Invest.npv_usd (standard_project self year r t)) as [v |].
    + exists v. split; [reflexivity |]. now apply Qltb_true in Hnpv.
    + cbn in Hnpv. apply Qltb_true in Hnpv. exfalso. lra.
  - intros (v & Hv & Hpos).
    destruct (evaluate_npv_no_error self t year 50 (20 # 100) (5 # 100) 25 r "mid_peak"
                [] None) as [Herr [p Hp]].
    { fold (standard_project self year r t). rewrite Hv. eauto. }
    fold (standard_project self year r t) in Herr.
    rewrite Hp. unfold Decision.error_truthy. rewrite Herr, Hv. cbn [negb andb default].
    now apply Qltb_true.
Qed.

Lemma times_listed_cons (t u : string) (technologies : list string) :
  times_listed t (u :: technologies)
  = ((if decide (u = t) then 1 else 0) + times_listed t technologies)%Z.
Proof.
  unfold times_listed. rewrite filter_cons.
  destruct (decide (u = t)); cbn [length]; lia.
Qed.

Lemma times_listed_pos (t : string) (technologies : list string) :
  (0 < times_listed t technologies)%Z <-> t ∈ technologies.
Proof.
  induction technologies as [| u rest IH].
  - unfold times_listed. cbn. split; [lia | intros Hin; now apply elem_of_nil in Hin].
  - rewrite times_listed_cons, elem_of_cons.
    pose proof (Nat2Z.is_nonneg (length (filter (fun v => v = t) rest))) as Hnn.
    fold (times_listed t rest) in Hnn.
    destruct (decide (u = t)) as [-> | Hne].
    + split; [auto | lia].
    + rewrite Z.add_0_l, IH. split; [auto |]. intros [-> | Hin]; [congruence | exact Hin].
Qed.

(** The loop over [technologies], from the dictionary [inv]. *)
Lemma decide_technologies_get (self : Invest.InvestmentDecisionModel) (year : Z)
    (r t : string) (technologies : list string) :
  forall inv,
    if invests self year r t && (0 <? times_listed t technologies)%Z
    then exists c,
        dict_get (fold_left (Decision.decide_technology self year r) technologies inv) t
        = Some c
        /\ c == default 0 (dict_get inv t) + 50 * inject_Z (times_listed t technologies)
    else dict_get (fold_left (Decision.decide_technology self year r) technologies inv) t
         = dict_get inv t.
Proof.
  induction technologies as [| u rest IH]; intros inv.
  - rewrite andb_false_r. reflexivity.
  - cbn [fold_left]. rewrite times_listed_cons, decide_technology_eq.
    specialize (IH (if invests self year r u
                    then dict_set inv u (default 0 (dict_get inv u) + 50) else inv)).
    pose proof (Nat2Z.is_nonneg (length (filter (fun v => v = t) rest))) as Hnn.
    fold (times_listed t rest) in Hnn.
    destruct (decide (u = t)) as [-> | Hne].
    + destruct (invests self year r t) eqn:Hinv; cbn [andb] in *.
      * rewrite (proj2 (Z.ltb_lt 0 (1 + times_listed t rest)) ltac:(lia)).
        destruct (0 <? times_listed t rest)%Z eqn:Hrest.
        -- destruct IH as (c & Hc & Hval). exists c. split; [exact Hc |].
           rewrite Hval, dict_get_set. cbn [default id].
           rewrite inject_Z_plus. change (inject_Z 1) with 1. ring.
        -- apply Z.ltb_ge in Hrest. assert (Hz : times_listed t rest = 0%Z) by lia.
           rewrite IH, dict_get_set, Hz. eexists. split; [reflexivity |].
           change (inject_Z (1 + 0)) with 1. cbn [default id]. ring.
      * exact IH.
    + replace (0 + times_listed t rest)%Z with (times_listed t rest) by lia.
      assert (Hsame : dict_get (if invests self year r u
                                then dict_set inv u (default 0 (dict_get inv u) + 50)
                                else inv) t = dict_get inv t).
      { destruct (invests self year r u); [| reflexivity].
        apply dict_get_set_ne. congruence. }
      rewrite Hsame in IH. exact IH.
Qed.

Lemma regions_get_set (d : list (string * list (string * Q))) (key other : string)
    (v : list (string * Q)) :
  Decision.regions_get (Decision.regions_set d key v) other
  = if decide (key = other) then Some v else Decision.regions_get d other.
Proof.
  induction d as [| [k w] rest IH]; cbn.
  - destruct (decide (key = other)) as [-> | Hne].
    + now rewrite String.eqb_refl.
    + now rewrite (proj2 (String.eqb_neq key other) Hne).
  - destruct (String.eqb k key) eqn:Hk; cbn.
    + apply String.eqb_eq in Hk. subst k.
      destruct (decide (key = other)) as [-> | Hne].
      * now rewrite String.eqb_refl.
      * now rewrite (proj2 (String.eqb_neq key other) Hne).
    + destruct (String.eqb k other) eqn:Hko.
      * apply String.eqb_eq in Hko. subst k. apply String.eqb_neq in Hk.
        destruct (decide (key = other)); [congruence | reflexivity].
      * exact IH.
Qed.

Lemma decide_regions_get (self : Invest.InvestmentDecisionModel) (year : Z)
    (technologies : list string) (r : string) (regions : list string) :
  forall made,
    Decision.regions_get
      (fold_left
         (fun investments_made region_name =>
            Decision.regions_set investments_made region_name
              (fold_left (Decision.decide_technology self year region_name)
                 technologies []))
         regions made) r
    = if decide (r ∈ regions)
      then Some (fold_left (Decision.decide_technology self year r) technologies [])
      else Decision.regions_get made r.
Proof.
  induction regions as [| u rest IH]; intros made.
  - cbn [fold_left]. destruct (decide (r ∈ [])) as [Hin | _]; [| reflexivity].
    now apply elem_of_nil in Hin.
  - cbn [fold_left]. rewrite IH, regions_get_set.
    destruct (decide (r ∈ rest)) as [Hin | Hnin].
    + rewrite decide_True by (now apply list_elem_of_further). reflexivity.
    + destruct (decide (u = r)) as [-> | Hne].
      * rewrite decide_True by apply list_elem_of_here. reflexivity.
      * rewrite decide_False; [reflexivity |].
        intros Hin. apply elem_of_cons in Hin as [-> | Hin]; congruence.
Qed.

(** X18.  [decide_investments] returns an entry for exactly the regions it
    is given.  In the entry of a region a technology appears exactly when
    it is listed and the standard project (50 MW, capacity factor 0.20,
    5 % discount rate, 25 years, mid-peak price) is reported with a positive
    net present value; its capacity is 50 MW for every time it is listed. *)
Theorem decide_investments_spec (self : Invest.InvestmentDecisionModel) (year : Z)
    (regions technologies : list string) (r : string) :
  let made := Decision.decide_investments self year regions technologies in
  (is_Some (Decision.regions_get made r) <-> r ∈ regions)
  /\ forall inv, Decision.regions_get made r = Some inv ->
       forall t,
         (is_Some (dict_get inv t)
          <-> t ∈ technologies /\ reports_positive_npv (standard_project self year r t))
         /\ forall c, dict_get inv t = Some c ->
              c == 50 * inject_Z (times_listed t technologies).
Proof.
  intros made. subst made. unfold Decision.decide_investments.
  rewrite decide_regions_get. cbn [Decision.regions_get].
  destruct (decide (r ∈ regions)) as [Hin | Hnin].
  2: { split; [split; [intros [x Hx]; discriminate | contradiction] | discriminate]. }
  split; [split; eauto |].
  intros inv [= <-] t.
  pose proof (decide_technologies_get self year r t technologies []) as Hget.
  cbn [dict_get default] in Hget.
  pose proof (times_listed_pos t technologies) as Hlisted.
  destruct (invests self year r t) eqn:Hinv;
    destruct (0 <? times_listed t technologies)%Z eqn:Hpos; cbn [andb] in Hget.
  - destruct Hget as (c & Hc & Hval). apply Z.ltb_lt in Hpos.
    split.
    + split; [| rewrite Hc; eauto]. intros _. split; [now apply Hlisted |].
      now apply invests_iff.
    + intros c' Hc'. rewrite Hc in Hc'. injection Hc' as <-. rewrite Hval. ring.
  - rewrite Hget. apply Z.ltb_ge in Hpos.
    split; [| discriminate]. split; [intros [x Hx]; discriminate |].
    intros [Hl _]. apply Hlisted in Hl. lia.
  - rewrite Hget. split; [| discriminate]. split; [intros [x Hx]; discriminate |].
    intros [_ Hr]. apply invests_iff in Hr. congruence.
  - rewrite Hget. split; [| discriminate]. split; [intros [x Hx]; discriminate |].
    intros [_ Hr]. apply invests_iff in Hr. congruence.
Qed.

(** ** Supply chain: the concentration index *)

Lemma sum_from (l : list Q) : forall a, fold_left Qplus l a == a + Supply.sum l.
Proof.
  unfold Supply.sum. induction l as [| x rest IH]; intros a; cbn [fold_left].
  - ring.
  - rewrite (IH (a + x)), (IH (0 + x)). ring.
Qed.

Lemma sum_cons (x : Q) (l : list Q) : Supply.sum (x :: l) == x + Supply.sum l.
Proof. unfold Supply.sum at 1. cbn [fold_left]. rewrite sum_from. ring. Qed.

Lemma sum_shares (t : Q) (l : list Q) :
  ~ t == 0 ->
  Supply.sum (map (fun c => c / t * 100) l) == Supply.sum l / t * 100.
Proof.
  intros Ht. induction l as [| x rest IH]; cbn [map].
  - unfold Supply.sum. cbn. field. exact Ht.
  - rewrite !sum_cons, IH. field. exact Ht.
Qed.

Lemma square_eq (s : Q) : s ^ 2 == s * s.
Proof. reflexivity. Qed.

(** The sum of the squares is at most the square of the sum, for numbers
    that are not negative. *)
Lemma sum_squares_upper (l : list Q) :
  Forall (fun s => 0 <= s) l ->
  0 <= Supply.sum l
  /\ Supply.sum (map (fun s => s ^ 2) l) <= Supply.sum l * Supply.sum l.
Proof.
  induction l as [| x rest IH]; intros Hall.
  - unfold Supply.sum. cbn. lra.
  - apply Forall_cons in Hall as [Hx Hall]. destruct (IH Hall) as [Hs Hsq].
    cbn [map]. rewrite !sum_cons, square_eq. split; [lra | nra].
Qed.

(** The sum of the squares of [n] numbers is at least the square of their
    sum over [n]. *)
Lemma sum_squares_lower (l : list Q) :
  Supply.sum l * Supply.sum l
  <= inject_Z (Z.of_nat (length l)) * Supply.sum (map (fun s => s ^ 2) l)
  /\ 0 <= Supply.sum (map (fun s => s ^ 2) l).
Proof.
  induction l as [| x rest IH].
  - unfold Supply.sum. cbn. lra.
  - cbn [map length]. rewrite inject_nat_succ, !sum_cons, square_eq.
    destruct IH as [IH Hnn].
    assert (Hn : 0 <= inject_Z (Z.of_nat (length rest))).
    { change 0 with (inject_Z 0). rewrite <- Zle_Qle. lia. }
    remember (inject_Z (Z.of_nat (length rest))) as n eqn:En.
    remember (Supply.sum rest) as S eqn:ES.
    remember (Supply.sum (map (fun s => s ^ 2) rest)) as T eqn:ET.
    clear En ES ET.
    split; [| nra].
    pose proof (Qsqr_nonneg (n * x - S)) as Hsq.
    destruct (Qlt_le_dec 0 n) as [Hpos | Hzero].
    + assert (Hmain : n * (2 * x * S) <= n * (n * (x * x) + T)) by nra.
      assert (Hdiv : 2 * x * S <= n * (x * x) + T).
      { apply Qmult_le_l with (z := n); assumption. }
      nra.
    + assert (Hn0 : n == 0) by lra.
      assert (HS : S * S <= 0) by (rewrite Hn0 in IH; lra).
      assert (HS0 : S == 0) by nra.
      rewrite Hn0, HS0. nra.
Qed.

Lemma py_round_Z (z : Z) (n : nat) : py_round (inject_Z z) n == inject_Z z.
Proof.
  unfold py_round. pose proof (scale_pos n) as Hs.
  rewrite (round_half_even_comp _ (inject_Z (z * 10 ^ Z.of_nat n)))
    by (rewrite inject_Z_mult; reflexivity).
  rewrite round_half_even_Z, inject_Z_mult. field. lra.
Qed.

(** The index of the capacities [caps]: the sum of the squared shares. *)
Lemma hhi_of_shares (caps : list Q) :
  ~ Supply.sum caps == 0 ->
  let shares := map (fun c => c / Supply.sum caps * 100) caps in
  Supply.sum shares == 100
  /\ hhi_of caps = Supply.sum (map (fun s => s ^ 2) shares).
Proof.
  intros Ht shares.
  assert (Hsum : Supply.sum shares == 100).
  { subst shares. rewrite sum_shares by exact Ht. field. exact Ht. }
  split; [exact Hsum |].
  unfold hhi_of, Supply.calculate_hhi. fold shares.
  destruct shares as [| s rest] eqn:Hshares.
  - exfalso. unfold Supply.sum in Hsum. cbn in Hsum. lra.
  - rewrite (proj2 (Qeqb_false _ _)); [reflexivity |]. rewrite Hsum. lra.
Qed.

Lemma concentration_risk_eq (self : Supply.SupplyChainModel) (item_name key : string)
    (item : Supply.Item) (regional : list (string * Q)) :
  Supply.supply_data self !! item_name = Some item ->
  item !! key = Some (Supply.Capacities regional) ->
  ~ Supply.sum (map snd regional) == 0 ->
  let h := hhi_of (map snd regional) in
  let risk := Supply.get_concentration_risk self item_name key in
  Supply.error risk = None
  /\ Supply.hhi risk = py_round h 2
  /\ Supply.assessment risk
     = if Qltb h 1500 then "Unconcentrated (Competitive)"
       else if Qleb h 2500 then "Moderately concentrated"
       else "Highly concentrated".
Proof.
  intros Hitem Hkey Ht h risk. subst h risk.
  unfold Supply.get_concentration_risk. rewrite Hitem. cbn [mbind option_bind].
  rewrite Hkey.
  destruct regional as [| entry rest].
  { exfalso. apply Ht. reflexivity. }
  rewrite (proj2 (Qeqb_false _ _) Ht). unfold hhi_of. cbn [Supply.error Supply.hhi
    Supply.assessment]. auto.
Qed.

(** X19.  For regional capacities that are not negative and not all zero,
    [get_concentration_risk] reports no error and an index between 0 and
    10000, and the assessment agrees with the reported index: at most 1500
    when unconcentrated, from 1500 to 2500 when moderately concentrated, at
    least 2500 when highly concentrated. *)
Theorem concentration_risk_range (self : Supply.SupplyChainModel)
    (item_name key : string) (item : Supply.Item) (regional : list (string * Q)) :
  Supply.supply_data self !! item_name = Some item ->
  item !! key = Some (Supply.Capacities regional) ->
  Forall (fun entry => 0 <= entry.2) regional ->
  ~ Supply.sum (map snd regional) == 0 ->
  let risk := Supply.get_concentration_risk self item_name key in
  Supply.error risk = None
  /\ 0 <= Supply.hhi risk /\ Supply.hhi risk <= 10000
  /\ (Supply.assessment risk = "Unconcentrated (Competitive)"
      /\ Supply.hhi risk <= 1500
      \/ Supply.assessment risk = "Moderately concentrated"
         /\ 1500 <= Supply.hhi risk /\ Supply.hhi risk <= 2500
      \/ Supply.assessment risk = "Highly concentrated"
         /\ 2500 <= Supply.hhi risk).
Proof.
  intros Hitem Hkey Hnn Ht risk.
  destruct (concentration_risk_eq self item_name key item regional Hitem Hkey Ht)
    as (Herr & Hhhi & Hass).
  fold risk in Herr, Hhhi, Hass.
  destruct (hhi_of_shares (map snd regional) Ht) as [Hsum Hh].
  set (shares := map (fun c => c / Supply.sum (map snd regional) * 100)
                   (map snd regional)) in *.
  assert (Htotal : 0 < Supply.sum (map snd regional)).
  { assert (Hall : Forall (fun s => 0 <= s) (map snd regional)).
    { apply Forall_fmap. exact Hnn. }
    destruct (sum_squares_upper _ Hall) as [Hge _]. lra. }
  assert (Hshares : Forall (fun s => 0 <= s) shares).
  { subst shares. apply Forall_fmap, Forall_fmap.
    eapply Forall_impl; [exact Hnn |]. intros entry He. cbv beta in He |- *.
    assert (Hq : 0 <= entry.2 / Supply.sum (map snd regional)).
    { apply Qle_shift_div_l; [exact Htotal | lra]. }
    apply Qmult_le_0_compat; [exact Hq | discriminate]. }
  destruct (sum_squares_upper shares Hshares) as [_ Hup].
  destruct (sum_squares_lower shares) as [_ Hlow].
  rewrite <- Hh in Hup, Hlow. rewrite Hsum in Hup.
  set (h := hhi_of (map snd regional)) in *.
  assert (H0 : 0 <= py_round h 2) by (now apply py_round_nonneg).
  assert (Hmax : py_round h 2 <= 10000).
  { rewrite <- (py_round_Z 10000 2). apply py_round_mono.
    change (inject_Z 10000) with 10000. lra. }
  rewrite Hhhi, Hass. split; [exact Herr |]. split; [exact H0 |].
  split; [exact Hmax |].
  destruct (Qltb h 1500) eqn:H1; Qbool.
  - left. split; [reflexivity |].
    rewrite <- (py_round_Z 1500 2). apply py_round_mono.
    change (inject_Z 1500) with 1500. lra.
  - right. destruct (Qleb h 2500) eqn:H2; Qbool.
    + left. split; [reflexivity |]. split.
      * rewrite <- (py_round_Z 1500 2). apply py_round_mono.
        change (inject_Z 1500) with 1500. lra.
      * rewrite <- (py_round_Z 2500 2). apply py_round_mono.
        change (inject_Z 2500) with 2500. lra.
    + right. split; [reflexivity |].
      rewrite <- (py_round_Z 2500 2). apply py_round_mono.
      change (inject_Z 2500) with 2500. lra.
Qed.

(** X20.  With at most three regions the market is always found highly
    concentrated, whatever the capacities, as long as none is negative
    and their total is neither zero nor beyond [2 ^ 1000]: the index of
    [n] shares is at least [10000 / n]. *)
Theorem few_regions_highly_concentrated (self : Supply.SupplyChainModel)
    (item_name key : string) (item : Supply.Item) (regional : list (string * Q)) :
  Supply.supply_data self !! item_name = Some item ->
  item !! key = Some (Supply.Capacities regional) ->
  Forall (fun entry => 0 <= entry.2) regional ->
  ~ Supply.sum (map snd regional) == 0 ->
  Supply.sum (map snd regional) <= 2 ^ 1000 ->
  (length regional <= 3)%nat ->
  Supply.assessment (Supply.get_concentration_risk self item_name key)
  = "Highly concentrated".
Proof.
  intros Hitem Hkey _ Ht _ Hlen.
  destruct (concentration_risk_eq self item_name key item regional Hitem Hkey Ht)
    as (_ & _ & Hass).
  destruct (hhi_of_shares (map snd regional) Ht) as [Hsum Hh].
  set (shares := map (fun c => c / Supply.sum (map snd regional) * 100)
                   (map snd regional)) in *.
  destruct (sum_squares_lower shares) as [Hlow Hnn].
  rewrite <- Hh in Hlow, Hnn. rewrite Hsum in Hlow.
  assert (Hn : inject_Z (Z.of_nat (length shares)) <= 3).
  { subst shares. rewrite !length_map. change 3 with (inject_Z 3).
    rewrite <- Zle_Qle. lia. }
  set (h := hhi_of (map snd regional)) in *.
  set (n := inject_Z (Z.of_nat (length shares))) in *.
  assert (Hbig : 2500 < h) by nra.
  rewrite Hass, (proj2 (Qltb_false h 1500)) by lra.
  now rewrite (proj2 (Qleb_false h 2500)) by lra.
Qed.

(** ** Supply chain and cost model together *)

(** X21.  With a [SupplyChainModel] whose global capacities are numbers,
    the surcharge of the cost model for the material is 15 % for an item
    that has a positive capacity in GW and none in tons, and nothing
    otherwise: the availability is asked for half of the capacity in tons,
    which is always there. *)
Theorem material_surcharge_with_supply_chain (scm : Supply.SupplyChainModel)
    (material : string) :
  numeric_capacities scm ->
  (Cost.material_adjustment (as_collaborator scm) material).1
  = match Supply.supply_data scm !! material with
    | Some item =>
        match item !! "global_capacity_tons_per_year",
              item !! "global_capacity_gw_per_year" with
        | None, Some (Supply.Number gw) => if Qltb 0 gw then 15 # 100 else 0
        | _, _ => 0
        end
    | None => 0
    end.
Proof.
  intros Hnum. unfold Cost.material_adjustment, as_collaborator.
  cbn [Cost.supply_data Cost.get_material_availability].
  rewrite lookup_fmap.
  destruct (Supply.supply_data scm !! material) as [item |] eqn:Hitem;
    cbn [fmap option_fmap option_map]; [| reflexivity].
  pose proof (map_Forall_lookup_1 _ _ _ _ Hnum Hitem) as Hnumeric.
  cbv beta in Hnumeric. apply andb_true_iff in Hnumeric as [Htons Hgw].
  unfold Supply.get_material_availability. rewrite Hitem. cbn [mbind option_bind].
  unfold material_view, Cost.material_data_truthy.
  cbn [Cost.global_capacity_tons_per_year Cost.global_capacity_gw_per_year
       Cost.other_entries].
  destruct (item !! "global_capacity_tons_per_year") as [vt |] eqn:Ht.
  - destruct vt as [c | |]; try discriminate.
    assert (Htruthy : bool_decide (is_Some (Some c)) = true)
      by (apply bool_decide_eq_true; eauto).
    rewrite Htruthy. cbn [orb].
    destruct (Qltb 0 c) eqn:Hc; Qbool; cbn [fst].
    + unfold Cost.DEFAULT_REQUIRED_MATERIAL_FRACTION_OF_GLOBAL.
      rewrite (proj2 (Qleb_true (c * (5 # 10)) c)) by lra.
      cbn [availability_view Supply.available Supply.surplus Cost.available
           Cost.surplus negb default id].
      assert (Hhalf : (c - c * (5 # 10)) / c == 5 # 10) by (field; lra).
      rewrite (proj2 (Qltb_false ((c - c * (5 # 10)) / c) (10 # 100)))
        by (rewrite Hhalf; lra).
      destruct (item !! "global_capacity_gw_per_year") as [[| |] |]; reflexivity.
    + destruct (item !! "global_capacity_gw_per_year") as [[| |] |]; reflexivity.
  - destruct (item !! "global_capacity_gw_per_year") as [vg |] eqn:Hg.
    + destruct vg as [g | |]; try discriminate.
      assert (Htruthy : bool_decide (is_Some (Some g)) = true)
        by (apply bool_decide_eq_true; eauto).
      rewrite Htruthy. rewrite orb_true_r. cbn [orb default id].
      destruct (Qltb 0 g) eqn:Hgpos; Qbool; cbn [fst]; [| reflexivity].
      cbn [availability_view Supply.available Supply.shortfall Cost.available
           Cost.shortfall negb default id].
      unfold Cost.DEFAULT_REQUIRED_MATERIAL_FRACTION_OF_GLOBAL,
        Cost.MATERIAL_SHORTFALL_HIGH_IMPACT_PCT.
      rewrite (proj2 (Qltb_true 0 (g * (5 # 10)))) by lra.
      assert (Hone : g * (5 # 10) / (g * (5 # 10)) == 1) by (field; lra).
      rewrite (proj2 (Qltb_true (5 # 10) (g * (5 # 10) / (g * (5 # 10)))))
        by (rewrite Hone; lra).
      reflexivity.
    + cbn [default]. rewrite (proj2 (Qltb_false 0 0)) by lra.
      repeat case_match; reflexivity.
Qed.

(** ** Carbon border adjustment *)

(** X22.  For embodied carbon that is not negative, the border adjustment
    is never negative, is nothing once the carbon price of the exporting
    region reaches the reference price, and never grows with the price of
    the exporting region. *)
Theorem apply_cbam_bounds (self : Carbon.CarbonPricingMechanism)
    (tons : Q) (import_region : string) (price price' : Q) :
  0 <= tons ->
  0 <= Carbon.apply_cbam self tons import_region price
  /\ (price <= price' ->
      Carbon.apply_cbam self tons import_region price'
      <= Carbon.apply_cbam self tons import_region price)
  /\ (forall scheme reference,
        Carbon.schemes self !! ("CBAM_" ++ import_region) = Some scheme ->
        Carbon.reference_carbon_price_per_ton_co2 scheme = Some reference ->
        reference <= price ->
        Carbon.apply_cbam self tons import_region price == 0).
Proof.
  intros Htons. unfold Carbon.apply_cbam.
  destruct (Carbon.schemes self !! ("CBAM_" ++ import_region)) as [scheme |].
  2: { split; [lra |]. split; [intros _; lra |]. intros scheme reference Hs.
       discriminate. }
  destruct (bool_decide _ || Carbon.cbam_other_entries scheme) eqn:Htruthy.
  - set (ref := default 0 (Carbon.reference_carbon_price_per_ton_co2 scheme)).
    pose proof (Q.le_max_l 0 (ref - price)) as H1.
    pose proof (Q.le_max_l 0 (ref - price')) as H2.
    split; [nra |]. split.
    + intros Hle.
      assert (Hmono : Qmax 0 (ref - price') <= Qmax 0 (ref - price)).
      { apply Q.max_le_compat_l. lra. }
      nra.
    + intros s reference [= <-] Href Hle. subst ref. rewrite Href. cbn [default id].
      rewrite Q.max_l by lra. ring.
  - split; [lra |]. split; [intros _; lra |]. intros s reference [= <-] Href.
    rewrite Href in Htruthy. cbn in Htruthy. discriminate.
Qed.

(** ** Examples of the supply chain and the decisions *)

Lemma concentration_risk_range_witness :
  (Supply.supply_data default_supply_chain !! "solar_modules" = Some solar_modules_item
   /\ solar_modules_item !! "regional_capacity_gw_per_year"
      = Some (Supply.Capacities solar_modules_regions)
   /\ Forall (fun entry => 0 <= entry.2) solar_modules_regions
   /\ ~ Supply.sum (map snd solar_modules_regions) == 0)
  /\ Supply.error (Supply.get_concentration_risk default_supply_chain "solar_modules"
                     "regional_capacity_gw_per_year") = None
  /\ Supply.hhi (Supply.get_concentration_risk default_supply_chain "solar_modules"
                   "regional_capacity_gw_per_year") <= 10000.
Proof.
  assert (H1 : Supply.supply_data default_supply_chain !! "solar_modules"
               = Some solar_modules_item) by (vm_compute; reflexivity).
  assert (H2 : solar_modules_item !! "regional_capacity_gw_per_year"
               = Some (Supply.Capacities solar_modules_regions))
    by (vm_compute; reflexivity).
  assert (H3 : Forall (fun entry => 0 <= entry.2) solar_modules_regions).
  { repeat (constructor; [vm_compute; congruence |]). constructor. }
  assert (H4 : ~ Supply.sum (map snd solar_modules_regions) == 0)
    by (vm_compute; congruence).
  split; [exact (conj H1 (conj H2 (conj H3 H4))) |].
  pose proof (concentration_risk_range default_supply_chain "solar_modules"
                "regional_capacity_gw_per_year" solar_modules_item
                solar_modules_regions H1 H2 H3 H4) as (Herr & _ & Hmax & _).
  exact (conj Herr Hmax).
Defined.

Lemma few_regions_highly_concentrated_witness :
  (Supply.supply_data wafer_supply_chain !! "wafers" = Some wafers_item
   /\ wafers_item !! "regional_capacity_gw_per_year"
      = Some (Supply.Capacities wafer_regions)
   /\ Forall (fun entry => 0 <= entry.2) wafer_regions
   /\ ~ Supply.sum (map snd wafer_regions) == 0
   /\ Supply.sum (map snd wafer_regions) <= 2 ^ 1000
   /\ (length wafer_regions <= 3)%nat)
  /\ Supply.assessment (Supply.get_concentration_risk wafer_supply_chain "wafers"
                          "regional_capacity_gw_per_year")
     = "Highly concentrated".
Proof.
  assert (H1 : Supply.supply_data wafer_supply_chain !! "wafers" = Some wafers_item)
    by (vm_compute; reflexivity).
  assert (H2 : wafers_item !! "regional_capacity_gw_per_year"
               = Some (Supply.Capacities wafer_regions)) by (vm_compute; reflexivity).
  assert (Hnn : Forall (fun entry => 0 <= entry.2) wafer_regions)
    by (repeat constructor; vm_compute; congruence).
  assert (H3 : ~ Supply.sum (map snd wafer_regions) == 0) by (vm_compute; congruence).
  assert (Hfin : Supply.sum (map snd wafer_regions) <= 2 ^ 1000)
    by (vm_compute; congruence).
  assert (H4 : (length wafer_regions <= 3)%nat) by (cbn; lia).
  split; [exact (conj H1 (conj H2 (conj Hnn (conj H3 (conj Hfin H4))))) |].
  exact (few_regions_highly_concentrated wafer_supply_chain "wafers"
           "regional_capacity_gw_per_year" wafers_item wafer_regions H1 H2 Hnn H3
           Hfin H4).
Defined.

Lemma default_supply_chain_numeric : numeric_capacities default_supply_chain.
Proof.
  unfold numeric_capacities, default_supply_chain, initial_data.
  cbn [Supply.supply_data].
  repeat (apply map_Forall_insert_2; [vm_compute; reflexivity |]).
  apply map_Forall_empty.
Qed.

Lemma material_surcharge_with_supply_chain_witness :
  numeric_capacities default_supply_chain
  /\ (Cost.material_adjustment (as_collaborator default_supply_chain) "solar_modules").1
     = match Supply.supply_data default_supply_chain !! "solar_modules" with
       | Some item =>
           match item !! "global_capacity_tons_per_year",
                 item !! "global_capacity_gw_per_year" with
           | None, Some (Supply.Number gw) => if Qltb 0 gw then 15 # 100 else 0
           | _, _ => 0
           end
       | None => 0
       end.
Proof.
  split; [exact default_supply_chain_numeric |].
  exact (material_surcharge_with_supply_chain default_supply_chain "solar_modules"
           default_supply_chain_numeric).
Defined.

(** With the supply data of the repository the modules are found highly
    concentrated (index 5764) and the polysilicon available: the module
    cost of the unit tests goes from 200 to 214. *)
Example default_supply_chain_adjustment :
  Supply.hhi (Supply.get_concentration_risk default_supply_chain "solar_modules"
                "regional_capacity_gw_per_year") == 5764
  /\ exists c,
       Cost.current_costs
         (Cost.adjust_costs_based_on_supply_chain
            (Cost.init "TestPV" initial_costs_pv (1 # 10) 10
               (Some (as_collaborator default_supply_chain)) None)
            "polysilicon" "solar_modules").1 !! "module_usd_per_kw" = Some c
       /\ c == 214.
Proof.
  split; [vm_compute; reflexivity |]. eexists. split; vm_compute; reflexivity.
Qed.

Lemma apply_cbam_bounds_witness :
  0 <= 50
  /\ 0 <= Carbon.apply_cbam carbon_schemes 50 "EU" 10
  /\ (10 <= 30 ->
      Carbon.apply_cbam carbon_schemes 50 "EU" 30
      <= Carbon.apply_cbam carbon_schemes 50 "EU" 10).
Proof.
  assert (H1 : 0 <= 50) by (vm_compute; congruence).
  split; [exact H1 |].
  pose proof (apply_cbam_bounds carbon_schemes 50 "EU" 10 30 H1) as (Hnn & Hmono & _).
  exact (conj Hnn Hmono).
Defined.

(** The adjustment of the example of the module: 50 t at 85 - 10 USD. *)
Example test_apply_cbam : Carbon.apply_cbam carbon_schemes 50 "EU" 10 == 3750.
Proof. vm_compute. reflexivity. Qed.

(** ** Investment decisions: the margin *)

Lemma invested_entry (self : Invest.InvestmentDecisionModel) (year : Z)
    (regions technologies : list string) (r t : string) (inv : list (string * Q)) :
  Decision.regions_get (Decision.decide_investments self year regions technologies) r
  = Some inv ->
  is_Some (dict_get inv t) -> invests self year r t = true.
Proof.
  unfold Decision.decide_investments. rewrite decide_regions_get.
  destruct (decide (r ∈ regions)); [| discriminate]. intros [= <-] Hsome.
  pose proof (decide_technologies_get self year r t technologies []) as Hget.
  destruct (invests self year r t); [reflexivity |]. cbn [andb] in Hget.
  rewrite Hget in Hsome. cbn in Hsome. now destruct Hsome.
Qed.

Lemma evaluate_after_lcoe_margin (self : Invest.InvestmentDecisionModel)
    (lcoe_result : Cost.LcoeResult) (lcoe capex cap cf dr : Q) (L : Z)
    (region time_of_day : string) (v : Q) :
  let res := Invest.evaluate_after_lcoe self lcoe_result lcoe capex cap cf dr L
               region time_of_day [] None in
  Invest.npv_usd res = Some v ->
  exists m cash,
    Invest.profit_margin_usd_per_mwh res = Some m
    /\ Invest.annual_net_cash_flow_usd res = Some cash
    /\ cash == m * (cap * cf * 8760).
Proof.
  intros res. subst res. unfold Invest.evaluate_after_lcoe.
  destruct (Invest.simple_payback_period_years _ _ _) as [pb | e];
    [| cbn; discriminate].
  match goal with
  | |- context [match ?n with Returned _ => _ | Raised _ => _ end] =>
      destruct n as [npv | e]
  end; cbn [Invest.npv_usd Invest.set_error]; [| discriminate].
  intros _. eexists _, _. split; [reflexivity |]. split; [reflexivity |].
  cbn [fold_left]. destruct (Qltb 0 cap); ring.
Qed.

(** X23.  [decide_investments] invests only with a margin: when a
    technology is in the entry of a region and the initial investment of
    its standard project is not negative, the market price of the region is
    above the levelized cost of the technology. *)
Theorem invests_only_with_margin (self : Invest.InvestmentDecisionModel) (year : Z)
    (regions technologies : list string) (r t : string) (inv : list (string * Q)) :
  Decision.regions_get (Decision.decide_investments self year regions technologies) r
  = Some inv ->
  is_Some (dict_get inv t) ->
  (forall i, Invest.initial_investment_usd (standard_project self year r t) = Some i ->
             0 <= i) ->
  exists m,
    Invest.profit_margin_usd_per_mwh (standard_project self year r t) = Some m
    /\ 0 < m.
Proof.
  intros Hmade Hsome Hnonneg.
  pose proof (invested_entry self year regions technologies r t inv Hmade Hsome)
    as Hinvests.
  apply invests_iff in Hinvests as (v & Hv & Hpos).
  unfold standard_project, Invest.evaluate_project_attractiveness in *.
  destruct (Cost.calculate_lcoe_for_evolving_solar_tech _ _ _ _ _ _ _)
    as [[lcoe_result log] | e]; [| discriminate].
  destruct (Cost.lcoe_error lcoe_result); [discriminate |].
  destruct (Cost.lcoe_usd_per_mwh lcoe_result) as [lcoe |]; [| discriminate].
  destruct (Cost.lcoe_capex_usd_per_kw lcoe_result) as [capex |]; [| discriminate].
  pose proof (evaluate_after_lcoe_npv self lcoe_result lcoe capex 50 (20 # 100)
                (5 # 100) 25 r "mid_peak" [] None v Hv)
    as (i & cash & pb & Hi & Hcash & _ & _ & Hval).
  pose proof (evaluate_after_lcoe_margin self lcoe_result lcoe capex 50 (20 # 100)
                (5 # 100) 25 r "mid_peak" v Hv)
    as (m & cash' & Hm & Hcash' & Hflow).
  rewrite Hcash in Hcash'. injection Hcash' as <-.
  specialize (Hnonneg i Hi).
  change (0 <? 25)%Z with true in Hval. cbv iota in Hval.
  unfold Invest._calculate_npv in Hval.
  destruct (npv_loop_bound (5 # 100) cash (Z.to_nat 25) ltac:(lra) 1 (- i) v
              ltac:(lia) Hval) as [_ Hle].
  exists m. split; [exact Hm |].
  destruct (Qlt_le_dec 0 cash) as [Hc | Hc]; [| specialize (Hle Hc); exfalso; lra].
  rewrite Hflow in Hc. lra.
Qed.

Lemma invests_only_with_margin_witness :
  (Decision.regions_get
     (Decision.decide_investments premium_evaluator 2025 ["USA"] ["TOPCon"]) "USA"
   = Some [("TOPCon", 0 + 50)]
   /\ is_Some (dict_get [("TOPCon", 0 + 50)] "TOPCon")
   /\ forall i, Invest.initial_investment_usd
                  (standard_project premium_evaluator 2025 "USA" "TOPCon") = Some i ->
                0 <= i)
  /\ exists m,
       Invest.profit_margin_usd_per_mwh
         (standard_project premium_evaluator 2025 "USA" "TOPCon") = Some m
       /\ 0 < m.
Proof.
  assert (H1 : Decision.regions_get
                 (Decision.decide_investments premium_evaluator 2025 ["USA"]
                    ["TOPCon"]) "USA"
               = Some [("TOPCon", 0 + 50)]) by (vm_compute; reflexivity).
  assert (H2 : is_Some (dict_get [("TOPCon", 0 + 50)] "TOPCon")) by (cbn; eauto).
  assert (H3 : forall i, Invest.initial_investment_usd
                           (standard_project premium_evaluator 2025 "USA" "TOPCon")
                         = Some i -> 0 <= i).
  { intros i Hi. vm_compute in Hi. injection Hi as <-. vm_compute. congruence. }
  split; [exact (conj H1 (conj H2 H3)) |].
  exact (invests_only_with_margin premium_evaluator 2025 ["USA"] ["TOPCon"] "USA"
           "TOPCon" [("TOPCon", 0 + 50)] H1 H2 H3).
Defined.

(** ** Supply chain: capacity expansion *)

Lemma regional_key_inj (s s' : string) :
  "regional_capacity" ++ s = "regional_capacity" ++ s' -> s = s'.
Proof. simpl. intros Heq. injection Heq as Heq. exact Heq. Qed.

Lemma global_key_inj (s s' : string) :
  "global_capacity" ++ s = "global_capacity" ++ s' -> s = s'.
Proof. simpl. intros Heq. injection Heq as Heq. exact Heq. Qed.

Lemma regional_not_global (s s' : string) :
  "regional_capacity" ++ s <> "global_capacity" ++ s'.
Proof. cbn. discriminate. Qed.

(** X24.  [model_capacity_expansion] keeps the global capacities in step:
    when, for every item and unit, the global capacity is the sum of the
    regional capacities before a call that returns, it is so after the
    call, the expanded item included. *)
Theorem capacity_expansion_keeps_in_step (self self' : Supply.SupplyChainModel)
    (item_name region : string) (additional_capacity : Q) (year : Z)
    (capacity_key_suffix : string) :
  map_Forall (fun _ item => in_step item) (Supply.supply_data self) ->
  Supply.model_capacity_expansion self item_name region additional_capacity year
    capacity_key_suffix = (self', Supply.Ok tt) ->
  map_Forall (fun _ item => in_step item) (Supply.supply_data self').
Proof.
  intros Hall. unfold Supply.model_capacity_expansion.
  destruct (Supply.supply_data self !! item_name) as [item |] eqn:Hitem.
  2: { now intros [= <-]. }
  pose proof (map_Forall_lookup_1 _ _ _ _ Hall Hitem) as Hstep.
  set (rk := "regional_capacity" ++ capacity_key_suffix).
  set (gk := "global_capacity" ++ capacity_key_suffix).
  assert (Hrg : rk <> gk) by apply regional_not_global.
  set (item1 := match item !! rk with
                | None => <[rk := Supply.Capacities []]> item
                | Some _ => item
                end).
  set (item2 := match item1 !! gk with
                | None => <[gk := Supply.Number 0]> item1
                | Some _ => item1
                end).
  assert (Hkeep : forall k, k <> rk -> k <> gk -> item2 !! k = item !! k).
  { intros k Hr Hg. subst item2 item1.
    destruct (item !! rk); destruct (_ !! gk);
      repeat rewrite lookup_insert_ne by (apply not_eq_sym; assumption);
      reflexivity. }
  destruct (item2 !! rk) as [[x | regional |] |] eqn:Hregional; try discriminate.
  intros [= <-]. cbn [Supply.supply_data].
  apply map_Forall_insert_2; [| exact Hall].
  intros suffix d Hd.
  assert (Hng : "regional_capacity" ++ suffix <> gk) by apply regional_not_global.
  rewrite lookup_insert_ne in Hd by congruence.
  destruct (decide (suffix = capacity_key_suffix)) as [-> | Hne].
  - fold rk in Hd. rewrite lookup_insert_eq in Hd. injection Hd as <-.
    fold gk. rewrite lookup_insert_eq. eexists. split; [reflexivity |]. reflexivity.
  - assert (Hnr : "regional_capacity" ++ suffix <> rk).
    { intros Heq. apply regional_key_inj in Heq. congruence. }
    rewrite lookup_insert_ne, Hkeep in Hd by congruence.
    destruct (Hstep suffix d Hd) as (x & Hx & Hsum).
    exists x. split; [| exact Hsum].
    assert (Hgg : "global_capacity" ++ suffix <> gk).
    { intros Heq. apply global_key_inj in Heq. congruence. }
    assert (Hgr : "global_capacity" ++ suffix <> rk).
    { intros Heq. symmetry in Heq. now apply regional_not_global in Heq. }
    rewrite !lookup_insert_ne, Hkeep by congruence. exact Hx.
Qed.

Lemma default_supply_chain_in_step :
  map_Forall (fun _ item => in_step item) (Supply.supply_data default_supply_chain).
Proof.
  unfold default_supply_chain, initial_data. cbn [Supply.supply_data].
  repeat (apply map_Forall_insert_2; [| try apply map_Forall_empty]).
  - intros suffix d Hd. unfold polysilicon_item in *.
    apply lookup_insert_Some in Hd as [[Hk _] | [_ Hd]]; [cbn in Hk; discriminate |].
    apply lookup_insert_Some in Hd as [[Hk Hv] | [_ Hd]].
    + apply (regional_key_inj "_tons_per_year") in Hk. subst suffix.
      injection Hv as <-. eexists. split; [vm_compute; reflexivity |].
      vm_compute. reflexivity.
    + apply lookup_singleton_Some in Hd as [Hk _]. cbn in Hk. discriminate.
  - intros suffix d Hd. unfold solar_modules_item in *.
    apply lookup_insert_Some in Hd as [[Hk _] | [_ Hd]]; [cbn in Hk; discriminate |].
    apply lookup_insert_Some in Hd as [[Hk Hv] | [_ Hd]].
    + apply (regional_key_inj "_gw_per_year") in Hk. subst suffix.
      injection Hv as <-. eexists. split; [vm_compute; reflexivity |].
      vm_compute. reflexivity.
    + apply lookup_singleton_Some in Hd as [Hk _]. cbn in Hk. discriminate.
  - intros suffix d Hd. unfold lithium_carbonate_item in *.
    apply lookup_insert_Some in Hd as [[Hk _] | [_ Hd]]; [cbn in Hk; discriminate |].
    apply lookup_singleton_Some in Hd as [Hk Hv].
    apply (regional_key_inj "_tons_per_year") in Hk. subst suffix.
    injection Hv as <-. eexists. split; [vm_compute; reflexivity |].
    vm_compute. reflexivity.
Qed.

Lemma capacity_expansion_keeps_in_step_witness :
  (map_Forall (fun _ item => in_step item) (Supply.supply_data default_supply_chain)
   /\ Supply.model_capacity_expansion default_supply_chain "polysilicon" "USA" 50000
        2025 "_tons_per_year"
      = ((Supply.model_capacity_expansion default_supply_chain "polysilicon" "USA"
            50000 2025 "_tons_per_year").1, Supply.Ok tt))
  /\ map_Forall (fun _ item => in_step item)
       (Supply.supply_data
          (Supply.model_capacity_expansion default_supply_chain "polysilicon" "USA"
             50000 2025 "_tons_per_year").1).
Proof.
  assert (H2 : Supply.model_capacity_expansion default_supply_chain "polysilicon"
                 "USA" 50000 2025 "_tons_per_year"
               = ((Supply.model_capacity_expansion default_supply_chain "polysilicon"
                     "USA" 50000 2025 "_tons_per_year").1, Supply.Ok tt))
    by (vm_compute; reflexivity).
  split; [exact (conj default_supply_chain_in_step H2) |].
  exact (capacity_expansion_keeps_in_step default_supply_chain _ "polysilicon" "USA"
           50000 2025 "_tons_per_year" default_supply_chain_in_step H2).
Defined.

(** After the expansion of the example the polysilicon of the repository
    is available up to 4050000 t. *)
Example expansion_then_availability :
  let self' := (Supply.model_capacity_expansion default_supply_chain "polysilicon"
                  "USA" 50000 2025 "_tons_per_year").1 in
  exists a b,
    Supply.get_material_availability self' "polysilicon" 4050000 = Supply.Ok a
    /\ Supply.available a = true
    /\ Supply.get_material_availability default_supply_chain "polysilicon" 4050000
       = Supply.Ok b
    /\ Supply.available b = false.
Proof. eexists _, _. repeat split; vm_compute; reflexivity. Qed.

(** ** Cost model: the yearly update *)

Section YearlyUpdate.
Context `{MathLib}.

Lemma yearly_update_step (self : Cost.CostModel) (scm : Cost.SupplyChainModel)
    (c : Q) (year : Z) :
  Cost.supply_chain_model self = Some scm ->
  Cost.current_costs self !! "module_usd_per_kw" = Some c ->
  exists self1 log c1,
    Cost.update_for_year self year None = Returned (self1, log)
    /\ Cost.supply_chain_model self1 = Some scm
    /\ Cost.current_costs self1 !! "module_usd_per_kw" = Some c1
    /\ c1 == c * (1 + yearly_surcharge scm).
Proof.
  intros Hscm Hc. unfold Cost.update_for_year, yearly_surcharge.
  rewrite bind_ret. rewrite Hscm.
  unfold Cost.adjust_costs_based_on_supply_chain. rewrite Hscm, Hc.
  pose proof (material_adjustment_range scm "polysilicon") as [Hm0 _].
  pose proof (concentration_adjustment_range scm "solar_modules") as [Hk0 _].
  destruct (Cost.material_adjustment scm "polysilicon") as [m log1].
  destruct (Cost.concentration_adjustment scm "solar_modules") as [k log2].
  cbn [fst] in *.
  destruct (Qltb 0 (m + k)) eqn:Hpos; Qbool.
  - unfold Cost.update_cost_component.
    rewrite bool_decide_true by (rewrite Hc; eauto).
    rewrite bool_decide_true
      by (unfold Cost.CAPEX_COMPONENT_KEYS; repeat constructor).
    eexists _, _, _. split; [reflexivity |]. cbn. split; [exact Hscm |]. split.
    + rewrite lookup_insert_ne by discriminate. now rewrite lookup_insert_eq.
    + reflexivity.
  - eexists _, _, c. split; [reflexivity |]. split; [exact Hscm |].
    split; [exact Hc |]. assert (Hz : m + k == 0) by lra. rewrite Hz. ring.
Qed.

(** X25.  The surcharge of the supply chain compounds: every yearly
    update without a new production volume multiplies the module cost by
    one plus the surcharge again, so after [n] updates the module cost is
    the first one times [(1 + surcharge) ^ n]. *)
Theorem yearly_surcharge_compounds (self : Cost.CostModel)
    (scm : Cost.SupplyChainModel) (c : Q) (years : list Z) :
  Cost.supply_chain_model self = Some scm ->
  Cost.current_costs self !! "module_usd_per_kw" = Some c ->
  exists self' c',
    Cost.calls self (yearly_updates years) = Returned self'
    /\ Cost.current_costs self' !! "module_usd_per_kw" = Some c'
    /\ c' == c * (1 + yearly_surcharge scm) ^ Z.of_nat (length years).
Proof.
  revert self c. induction years as [| year rest IH]; intros self c Hscm Hc.
  - exists self, c. split; [reflexivity |]. split; [exact Hc |].
    cbn [length Z.of_nat]. rewrite Qpower_0_r. ring.
  - destruct (yearly_update_step self scm c year Hscm Hc)
      as (self1 & log & c1 & Hstep & Hscm1 & Hc1 & Hval1).
    destruct (IH self1 c1 Hscm1 Hc1) as (self' & c' & Hcalls & Hc' & Hval).
    exists self', c'.
    split; [cbn [yearly_updates map Cost.calls Cost.call]; rewrite Hstep; exact Hcalls |].
    split; [exact Hc' |].
    rewrite Hval, Hval1. cbn [length]. rewrite Nat2Z.inj_succ.
    pose proof (material_adjustment_range scm "polysilicon") as [Hm0 _].
    pose proof (concentration_adjustment_range scm "solar_modules") as [Hk0 _].
    unfold Z.succ. rewrite Qpower_plus by (unfold yearly_surcharge; lra).
    rewrite Qpower_1_r. ring.
Qed.

End YearlyUpdate.

Lemma yearly_surcharge_compounds_witness :
  (Cost.supply_chain_model cost_model_tight = Some tight_supply_chain
   /\ Cost.current_costs cost_model_tight !! "module_usd_per_kw" = Some 200)
  /\ exists self' c',
       @Cost.calls sample_math cost_model_tight (yearly_updates [2025; 2026]%Z)
       = Returned self'
       /\ Cost.current_costs self' !! "module_usd_per_kw" = Some c'
       /\ c' == 200 * (1 + yearly_surcharge tight_supply_chain)
                      ^ Z.of_nat (length [2025; 2026]%Z).
Proof.
  assert (H1 : Cost.supply_chain_model cost_model_tight = Some tight_supply_chain)
    by reflexivity.
  assert (H2 : Cost.current_costs cost_model_tight !! "module_usd_per_kw" = Some 200)
    by (vm_compute; reflexivity).
  split; [exact (conj H1 H2) |].
  exact (@yearly_surcharge_compounds sample_math cost_model_tight tight_supply_chain
           200 [2025; 2026]%Z H1 H2).
Defined.

(** Two years of the tight supply chain of the example: 200 to 297.68. *)
Example two_years_of_surcharge :
  exists self' c',
    @Cost.calls sample_math cost_model_tight (yearly_updates [2025; 2026]%Z)
    = Returned self'
    /\ Cost.current_costs self' !! "module_usd_per_kw" = Some c'
    /\ c' == 29768 # 100.
Proof. eexists _, _. repeat split; vm_compute; reflexivity. Qed.

(** ** Investment evaluation: the shape of the result *)

(** X26.  A result of [evaluate_project_attractiveness] either has an
    error, and then no net present value and no score, or it has every
    metric: the LCOE data, the margin, the investment, the cash flow, the
    payback period, the net present value and the score. *)
Theorem evaluation_has_error_or_metrics (self : Invest.InvestmentDecisionModel)
    (technology_name : string) (year : Z) (cap cf dr : Q) (L : Z)
    (region time_of_day : string) (services : list string) (scheme : option string) :
  let res := Invest.evaluate_project_attractiveness self technology_name year cap cf
               dr L region time_of_day services scheme in
  (Invest.error res = None
   /\ is_Some (Invest.lcoe_data res)
   /\ is_Some (Invest.market_price_from_simulator_usd_per_mwh res)
   /\ is_Some (Invest.profit_margin_usd_per_mwh res)
   /\ is_Some (Invest.projected_annual_profit_usd res)
   /\ is_Some (Invest.total_ancillary_revenue_usd_per_year res)
   /\ is_Some (Invest.carbon_credit_revenue_usd_per_year res)
   /\ is_Some (Invest.initial_investment_usd res)
   /\ is_Some (Invest.annual_net_cash_flow_usd res)
   /\ is_Some (Invest.payback res)
   /\ is_Some (Invest.npv_usd res)
   /\ Invest.attractiveness_score res = Invest.profit_margin_usd_per_mwh res)
  \/ (is_Some (Invest.error res)
      /\ Invest.npv_usd res = None
      /\ Invest.attractiveness_score res = None).
Proof.
  intros res. subst res. unfold Invest.evaluate_project_attractiveness.
  destruct (Cost.calculate_lcoe_for_evolving_solar_tech _ _ _ _ _ _ _)
    as [[lcoe_result log] | e]; [| right; cbn; eauto].
  destruct (Cost.lcoe_error lcoe_result); [right; cbn; eauto |].
  destruct (Cost.lcoe_usd_per_mwh lcoe_result) as [lcoe |]; [| right; cbn; eauto].
  destruct (Cost.lcoe_capex_usd_per_kw lcoe_result) as [capex |];
    [| right; cbn; eauto].
  unfold Invest.evaluate_after_lcoe.
  destruct (Invest.simple_payback_period_years _ _ _) as [pb | e];
    [| right; cbn; eauto].
  match goal with
  | |- context [match ?n with Returned _ => _ | Raised _ => _ end] =>
      destruct n as [npv | e]
  end; [left | right; cbn; eauto].
  cbn. repeat split; eauto.
Qed.

(** The decisions of the examples: a market that pays 100 USD/MWh
    attracts 50 MW of the technology of the unit tests, the default price
    of 50 USD/MWh does not. *)
Example test_decide_investments :
  Decision.decide_investments premium_evaluator 2025 ["USA"] ["TOPCon"; "Unknown"]
  = [("USA", [("TOPCon", 0 + 50)])]
  /\ Decision.decide_investments sample_evaluator 2025 ["USA"] ["TOPCon"; "Unknown"]
     = [("USA", [])].
Proof. split; vm_compute; reflexivity. Qed.
